(** * Yoga pose scorer and level progression: a shallow embedding of [src/main.py]

    The embedding follows the Python source function by function.

    Numbers.  Python [int] values (pixel coordinates, squared lengths, the
    truncated angle, the level) are [Z].  Python [float] values are idealised
    as real numbers [R]: every arithmetic operation is the exact one, so
    rounding, overflow, infinities and NaN are outside the model.

    Exceptions.  Code that can raise returns a [result]; [try ... except] is a
    [match] on it.

    Mutable globals.  [width] and [height] are module globals assigned once per
    frame; the session variables of the main loop are the fields of [State].

    Outside world.  One iteration of the main loop reads a [Frame] (frame
    size, detector output, clock readings, key code) and leaves an [Outcome]
    (next session variables, what was handed to the speech queue, what the
    overlay shows). *)

From Stdlib Require Import Reals Lra Lia ZArith Ascii.
From stdpp Require Import gmap strings list fin_maps.

Local Open Scope R_scope.

(** ** Python primitives *)

Inductive exn : Type :=
  | IndexError
  | KeyError
  | ZeroDivisionError
  | ValueError.

Inductive result (A : Type) : Type :=
  | Ok (a : A)
  | Raise (e : exn).

Arguments Ok {A} a.
Arguments Raise {A} e.

#[global] Instance result_ret : MRet result := fun A a => Ok a.

#[global] Instance result_bind : MBind result := fun A B k m =>
  match m with
  | Ok a => k a
  | Raise e => Raise e
  end.

Definition Rltb (x y : R) : bool := if Rlt_dec x y then true else false.
Definition Rleb (x y : R) : bool := if Rle_dec x y then true else false.
Definition Reqb (x y : R) : bool := if Req_dec_T x y then true else false.

(** [x / y] on floats. *)
Definition py_div (x y : R) : result R :=
  if Reqb y 0 then Raise ZeroDivisionError else Ok (x / y).

(** [math.sqrt]. *)
Definition math_sqrt (x : R) : result R :=
  if Rltb x 0 then Raise ValueError else Ok (sqrt x).

(** [math.acos]. *)
Definition math_acos (x : R) : result R :=
  if Rleb (-1) x && Rleb x 1 then Ok (acos x) else Raise ValueError.

(** [int(x)] on a float: truncation towards zero. *)
Definition int_of_float (x : R) : Z :=
  if Rleb 0 x then Int_part x else (- Int_part (- x))%Z.

(** [l[p]] on a sequence, with Python's negative indices. *)
Definition py_index {A : Type} (l : list A) (p : Z) : result A :=
  let n := Z.of_nat (length l) in
  let i := if (p <? 0)%Z then (n + p)%Z else p in
  if (i <? 0)%Z then Raise IndexError
  else match l !! Z.to_nat i with
       | Some a => Ok a
       | None => Raise IndexError
       end.

(** [d[k]] on a dict. *)
Definition py_getitem {K : Type} `{Countable K} {V : Type}
    (d : gmap K V) (k : K) : result V :=
  match d !! k with
  | Some v => Ok v
  | None => Raise KeyError
  end.

(** [d.get(k, default)] on a dict. *)
Definition py_get {K : Type} `{Countable K} {V : Type}
    (d : gmap K V) (k : K) (default : V) : V :=
  match d !! k with
  | Some v => v
  | None => default
  end.

(** ** Landmark geometry toolkit *)

(** One entry of [pose_landmarks.landmark]: normalised coordinates. *)
Record Landmark : Type := mkLandmark { lm_x : R; lm_y : R }.

(** A pixel position, the tuple of two [int]s that [find_point] builds. *)
Definition Point : Type := (Z * Z)%type.

(** A tuple of two floats, such as the shoulder midpoint. *)
Definition FPoint : Type := (R * R)%type.

Definition to_float (p : Point) : FPoint := (IZR (fst p), IZR (snd p)).

Section Frame.

(** The globals set by [height, width = frame.shape[:2]]. *)
Variables (width height : Z).

Definition find_point (landmarks : list Landmark) (p : Z) : result Point :=
  if (p <? Z.of_nat (length landmarks))%Z then
    landmark ← py_index landmarks p;
    Ok (int_of_float (lm_x landmark * IZR width),
        int_of_float (lm_y landmark * IZR height))
  else Ok (0, 0)%Z.

End Frame.

Definition euclidian (point1 point2 : FPoint) : result R :=
  math_sqrt ((fst point1 - fst point2) ^ 2 + (snd point1 - snd point2) ^ 2).

(** The body of the [try] block of [angle_calc]. *)
Definition angle_calc_try (p0 p1 p2 : Point) : result R :=
  let a := ((fst p1 - fst p0) ^ 2 + (snd p1 - snd p0) ^ 2)%Z in
  let b := ((fst p1 - fst p2) ^ 2 + (snd p1 - snd p2) ^ 2)%Z in
  let c := ((fst p2 - fst p0) ^ 2 + (snd p2 - snd p0) ^ 2)%Z in
  root ← math_sqrt (IZR (4 * a * b));
  ratio ← py_div (IZR (a + b - c)) root;
  radians ← math_acos ratio;
  Ok (radians * 180 / PI).

Definition angle_calc (p0 p1 p2 : Point) : Z :=
  match angle_calc_try p0 p1 p2 with
  | Ok angle => int_of_float angle
  | Raise _ => 0%Z
  end.

(** ** Pose scorer *)

Definition ACCURACY_THRESHOLD : R := 55.0.
Definition SENSITIVITY : R := 1.08.
Definition SMOOTHING_WINDOW : nat := 4.

Definition POSE_CONFIG : gmap Z (gmap string R) :=
  {[ 1%Z := {[ "feet_weight" := 50.0; "shoulder_weight" := 20.0;
               "arm_weight" := 15.0; "arm_tolerance" := 40.0 ]};
     2%Z := {[ "leg_weight" := 40.0; "balance_weight" := 30.0;
               "standing_weight" := 30.0 ]};
     3%Z := {[ "leg_bend_weight" := 40.0; "arms_weight" := 30.0;
               "stance_weight" := 30.0 ]};
     4%Z := {[ "fold_weight" := 50.0; "knee_weight" := 50.0 ]};
     5%Z := {[ "upright_weight" := 50.0; "spine_weight" := 30.0;
               "legs_weight" := 20.0 ]} ]}.

(** What [pose.process] returns: [pose_landmarks] is [None] when no pose was
    detected, otherwise it carries the sequence [pose_landmarks.landmark]. *)
Record Results : Type := mkResults { pose_landmarks : option (list Landmark) }.

(** The sub-scores of one frame (the dict [sub_scores]) and the clamped total. *)
Definition Scored : Type := (gmap string R * R)%type.

Definition clamp_accuracy (accuracy : R) : R := Rmin 100.0 (Rmax 0.0 accuracy).

Section Scorer.

Variables (width height : Z).

#[local] Abbreviation find_point := (find_point width height).

(** Lines 114-118: the normalisation distance. *)
Definition torso_distance (left_shoulder right_shoulder left_hip right_hip : Point)
    : result R :=
  let mid_sh : FPoint := (IZR (fst left_shoulder + fst right_shoulder) / 2.0,
                          IZR (snd left_shoulder + snd right_shoulder) / 2.0) in
  let mid_hip : FPoint := (IZR (fst left_hip + fst right_hip) / 2.0,
                           IZR (snd left_hip + snd right_hip) / 2.0) in
  torso_dist ← euclidian mid_sh mid_hip;
  if Rltb torso_dist 1 then Ok (IZR (Z.max height width) / 4.0)
  else Ok torso_dist.

(** [pose_level == 1]. *)
Definition mountain_pose (cfg : gmap string R) (lms : list Landmark)
    (left_shoulder right_shoulder : Point) (torso_dist : R) : result Scored :=
  left_ankle ← find_point lms 27;
  right_ankle ← find_point lms 28;
  left_wrist ← find_point lms 15;
  right_wrist ← find_point lms 16;
  let shoulder_gap := Z.abs (fst left_shoulder - fst right_shoulder) in
  let ankle_gap := Z.abs (fst left_ankle - fst right_ankle) in
  left_elbow ← find_point lms 13;
  let left_arm_angle := angle_calc left_wrist left_shoulder left_elbow in
  right_elbow ← find_point lms 14;
  let right_arm_angle := angle_calc right_wrist right_shoulder right_elbow in
  let feet_w := py_get cfg "feet_weight" 50.0 in
  let shoulder_w := py_get cfg "shoulder_weight" 20.0 in
  let arm_w := py_get cfg "arm_weight" 15.0 in
  let arm_tol := py_get cfg "arm_tolerance" 40.0 in
  feet_ratio ← py_div (IZR ankle_gap) (torso_dist * 0.6);
  let feet_score := Rmax 0.0 (feet_w * (1.0 - feet_ratio)) in
  shoulder_ratio ← py_div (IZR shoulder_gap) (torso_dist * 0.9);
  let shoulder_score := Rmax 0.0 (shoulder_w * (1.0 - shoulder_ratio)) in
  left_ratio ← py_div (IZR (Z.abs (left_arm_angle - 170))) arm_tol;
  let left_arm_score := Rmax 0.0 (arm_w * (1.0 - left_ratio)) in
  right_ratio ← py_div (IZR (Z.abs (right_arm_angle - 170))) arm_tol;
  let right_arm_score := Rmax 0.0 (arm_w * (1.0 - right_ratio)) in
  let sub_scores : gmap string R :=
    {[ "feet_score" := feet_score; "shoulder_score" := shoulder_score;
       "left_arm_score" := left_arm_score;
       "right_arm_score" := right_arm_score ]} in
  let accuracy := feet_score + shoulder_score + left_arm_score + right_arm_score in
  Ok (sub_scores, clamp_accuracy accuracy).

(** [pose_level == 2]. *)
Definition tree_pose (lms : list Landmark) (torso_dist : R) : result Scored :=
  left_hip ← find_point lms 23;
  right_hip ← find_point lms 24;
  left_ankle ← find_point lms 27;
  right_ankle ← find_point lms 28;
  left_knee ← find_point lms 25;
  right_knee ← find_point lms 26;
  hip_ankle_l ← euclidian (to_float left_hip) (to_float left_ankle);
  hip_ankle_r ← euclidian (to_float right_hip) (to_float right_ankle);
  let left_leg_raised :=
    Rltb (IZR (snd left_ankle)) (IZR (snd left_hip) - torso_dist * 0.35) in
  let right_leg_raised :=
    Rltb (IZR (snd right_ankle)) (IZR (snd right_hip) - torso_dist * 0.35) in
  let '(leg_accuracy, balance_diff) :=
    if left_leg_raised then (40.0, hip_ankle_l)
    else if right_leg_raised then (40.0, hip_ankle_r)
    else (0.0, Rmax hip_ankle_l hip_ankle_r) in
  balance_ratio ← py_div (Rabs (hip_ankle_l - hip_ankle_r)) (torso_dist * 0.6);
  let balance_accuracy := Rmax 0.0 (30.0 * (1.0 - balance_ratio)) in
  standing_ratio ←
    py_div (Rabs (balance_diff - torso_dist * 0.75)) (torso_dist * 0.75);
  let standing_accuracy := Rmax 0.0 (30.0 * (1.0 - standing_ratio)) in
  let sub_scores : gmap string R :=
    {[ "leg_accuracy" := leg_accuracy; "balance_accuracy" := balance_accuracy;
       "standing_accuracy" := standing_accuracy ]} in
  let accuracy := leg_accuracy + balance_accuracy + standing_accuracy in
  Ok (sub_scores, clamp_accuracy accuracy).

(** [pose_level == 3]. *)
Definition warrior_pose (lms : list Landmark) (torso_dist : R) : result Scored :=
  left_hip ← find_point lms 23;
  right_hip ← find_point lms 24;
  left_knee ← find_point lms 25;
  right_knee ← find_point lms 26;
  left_ankle ← find_point lms 27;
  right_ankle ← find_point lms 28;
  left_wrist ← find_point lms 15;
  right_wrist ← find_point lms 16;
  left_shoulder ← find_point lms 11;
  right_shoulder ← find_point lms 12;
  let left_leg_angle := angle_calc left_hip left_knee left_ankle in
  let right_leg_angle := angle_calc right_hip right_knee right_ankle in
  let left_arm_raised :=
    Rltb (IZR (snd left_wrist)) (IZR (snd left_shoulder) - torso_dist * 0.4) in
  let right_arm_raised :=
    Rltb (IZR (snd right_wrist)) (IZR (snd right_shoulder) - torso_dist * 0.4) in
  let leg_bend_accuracy :=
    Rmax 0.0 (40.0 * (1.0 -
      IZR (Z.abs (Z.min left_leg_angle right_leg_angle - 90)) / 90.0)) in
  let arms_accuracy :=
    if left_arm_raised || right_arm_raised then 30.0 else 0.0 in
  let stance_accuracy :=
    if (Z.abs (left_leg_angle - right_leg_angle) <? 50)%Z then 30.0 else 10.0 in
  let sub_scores : gmap string R :=
    {[ "leg_bend_accuracy" := leg_bend_accuracy; "arms_accuracy" := arms_accuracy;
       "stance_accuracy" := stance_accuracy ]} in
  let accuracy := leg_bend_accuracy + arms_accuracy + stance_accuracy in
  Ok (sub_scores, clamp_accuracy accuracy).

(** [pose_level == 4]. *)
Definition child_pose (lms : list Landmark) (torso_dist : R) : result Scored :=
  nose ← find_point lms 0;
  left_hip ← find_point lms 23;
  right_hip ← find_point lms 24;
  left_knee ← find_point lms 25;
  right_knee ← find_point lms 26;
  let hip_center_y := IZR (snd left_hip + snd right_hip) / 2 in
  let knees_bent :=
    Rltb (IZR (snd left_hip) + torso_dist * 0.2) (IZR (snd left_knee)) &&
    Rltb (IZR (snd right_hip) + torso_dist * 0.2) (IZR (snd right_knee)) in
  fold_ratio ←
    py_div (Rmax 0.0 (hip_center_y - IZR (snd nose))) (torso_dist * 0.6);
  let fold_accuracy := Rmax 0.0 (50.0 * (1.0 - fold_ratio)) in
  knee_accuracy ←
    (if knees_bent then Ok 50.0
     else
       knee_ratio ←
         py_div (IZR (Z.abs (snd left_knee - snd left_hip))) (torso_dist * 0.6);
       Ok (Rmax 0.0 (50.0 * (1.0 - knee_ratio))));
  let sub_scores : gmap string R :=
    {[ "fold_accuracy" := fold_accuracy; "knee_accuracy" := knee_accuracy ]} in
  let accuracy := fold_accuracy + knee_accuracy in
  Ok (sub_scores, clamp_accuracy accuracy).

(** [pose_level == 5]. *)
Definition lotus_pose (lms : list Landmark) (torso_dist : R) : result Scored :=
  left_hip ← find_point lms 23;
  right_hip ← find_point lms 24;
  nose ← find_point lms 0;
  left_shoulder ← find_point lms 11;
  right_shoulder ← find_point lms 12;
  left_knee ← find_point lms 25;
  right_knee ← find_point lms 26;
  let hip_center_y := IZR (snd left_hip + snd right_hip) / 2 in
  let shoulder_y := IZR (snd left_shoulder + snd right_shoulder) / 2 in
  upright_ratio ←
    py_div (Rabs (IZR (snd nose) - hip_center_y)) (torso_dist * 0.6);
  let upright_accuracy := Rmax 0.0 (50.0 * (1.0 - upright_ratio)) in
  spine_ratio ←
    py_div (Rabs (shoulder_y - IZR (snd nose))) (torso_dist * 0.6);
  let spine_accuracy := Rmax 0.0 (30.0 * (1.0 - spine_ratio)) in
  let legs_accuracy :=
    if (snd left_hip <? snd left_knee)%Z && (snd right_hip <? snd right_knee)%Z
    then 20.0 else 5.0 in
  let sub_scores : gmap string R :=
    {[ "upright_accuracy" := upright_accuracy; "spine_accuracy" := spine_accuracy;
       "legs_accuracy" := legs_accuracy ]} in
  let accuracy := upright_accuracy + spine_accuracy + legs_accuracy in
  Ok (sub_scores, clamp_accuracy accuracy).

(** The dispatch on [pose_level]; any other level leaves [accuracy = 0.0]
    and [sub_scores] empty. *)
Definition score_level (pose_level : Z) (lms : list Landmark)
    (left_shoulder right_shoulder : Point) (torso_dist : R) : result Scored :=
  let cfg := py_get POSE_CONFIG pose_level ∅ in
  if (pose_level =? 1)%Z then
    mountain_pose cfg lms left_shoulder right_shoulder torso_dist
  else if (pose_level =? 2)%Z then tree_pose lms torso_dist
  else if (pose_level =? 3)%Z then warrior_pose lms torso_dist
  else if (pose_level =? 4)%Z then child_pose lms torso_dist
  else if (pose_level =? 5)%Z then lotus_pose lms torso_dist
  else Ok (∅, 0.0).

(** [results] is [None] for a missing results object. *)
Definition check_pose_accuracy (pose_level : Z) (results : option Results)
    : result (bool * R) :=
  match results ≫= pose_landmarks with
  | None => Ok (false, 0.0)
  | Some lms =>
      left_shoulder ← find_point lms 11;
      right_shoulder ← find_point lms 12;
      left_hip ← find_point lms 23;
      right_hip ← find_point lms 24;
      torso_dist ← torso_distance left_shoulder right_shoulder left_hip right_hip;
      '(sub_scores, accuracy) ←
        score_level pose_level lms left_shoulder right_shoulder torso_dist;
      let is_correct := Rleb ACCURACY_THRESHOLD accuracy in
      Ok (is_correct, accuracy)
  end.

End Scorer.

(** ** Progression state machine: the body of the main loop *)

Definition timing_settings : gmap Z R :=
  {[ 1%Z := 2.0; 2%Z := 3.0; 3%Z := 2.5; 4%Z := 2.0; 5%Z := 3.0 ]}.

Definition pose_sounds : gmap Z string :=
  {[ 1%Z := "Starting Mountain Pose"; 2%Z := "Starting Tree Pose";
     3%Z := "Starting Warrior Pose"; 4%Z := "Starting Child's Pose";
     5%Z := "Starting Lotus Pose" ]}.

Definition voice_instructions : gmap Z string :=
  {[ 1%Z := "Stand tall with feet together and arms at your sides.";
     2%Z := "Balance on one leg and place the other foot on the inner thigh.";
     3%Z := "Lunge forward with front knee bent and extend your arms.";
     4%Z := "Kneel and fold forward, resting your forehead towards the mat.";
     5%Z := "Sit cross-legged with a straight spine and rest your hands on your knees." ]}.

Definition restart_message : string :=
  "Congratulations! You have completed all levels. Restarting from Level 1.".

Definition reset_message : string :=
  "Reset to Level 1. Mountain Pose. Stand straight with your feet together and arms at your sides.".

(** What the loop hands to the speech queue, in order. *)
Inductive Event : Type :=
  | SpeakPoseFeedback (is_correct : bool) (level : Z)
  | SpeakLevelComplete (level : Z)
  | SpeakDebug (enabled : bool)
  | SpeakText (text : string).

(** [deque(maxlen=...)]: [append] on a full deque drops the leftmost item. *)
Definition deque_append (maxlen : nat) (d : list R) (x : R) : list R :=
  if (maxlen =? 0)%nat then []
  else if (length d <? maxlen)%nat then d ++ [x]
  else tail d ++ [x].

(** [sum(d)]. *)
Definition py_sum (d : list R) : R := foldl Rplus 0 d.

(** The session variables of the main loop. *)
Record State : Type := mkState {
  current_level : Z;
  pose_hold_time : R;
  pose_correct : bool;
  level_complete : bool;
  last_incorrect_feedback_time : R;
  accuracy_history : gmap Z (list R);
  DEBUG_METRICS : bool;
}.

(** [accuracy_history = {i: deque(maxlen=SMOOTHING_WINDOW) for i in range(1, 6)}]
    and the other initial assignments. *)
Definition initial_state : State :=
  {| current_level := 1;
     pose_hold_time := 0;
     pose_correct := false;
     level_complete := false;
     last_incorrect_feedback_time := 0;
     accuracy_history :=
       {[ 1%Z := []; 2%Z := []; 3%Z := []; 4%Z := []; 5%Z := [] ]};
     DEBUG_METRICS := false |}.

(** What one iteration reads from outside: the frame size, the detector's
    answer, the clock at each [time.time()] call that the session variables
    depend on, and the key code [cv2.waitKey(1) & 0xFF]. *)
Record Frame : Type := mkFrame {
  frame_width : Z;
  frame_height : Z;
  frame_results : Results;
  t_hold_start : R;   (* line 713 *)
  t_hold_check : R;   (* line 716 *)
  t_incorrect : R;    (* line 755 *)
  key : Z;
}.

(** What one iteration leaves behind. *)
Record Outcome : Type := mkOutcome {
  next_state : State;
  spoken : list Event;
  smoothed_accuracy : R;
  is_correct : bool;
  hold_duration : option R;
  quit : bool;
}.

(** Lines 671-682, which read only [current_level] and [accuracy_history]
    among the session variables. *)
Definition smooth (current_level : Z) (accuracy_history : gmap Z (list R))
    (f : Frame) : result (gmap Z (list R) * R) :=
  '(is_correct_raw, accuracy) ←
    check_pose_accuracy (frame_width f) (frame_height f)
      current_level (Some (frame_results f));
  let accuracy :=
    match pose_landmarks (frame_results f) with
    | Some _ => accuracy
    | None => 0.0
    end in
  let adjusted_accuracy := Rmin 100.0 (accuracy * SENSITIVITY) in
  history ← py_getitem accuracy_history current_level;
  let history := deque_append SMOOTHING_WINDOW history adjusted_accuracy in
  let accuracy_history := <[current_level := history]> accuracy_history in
  smoothed_accuracy ← py_div (py_sum history) (INR (length history));
  Ok (accuracy_history, smoothed_accuracy).

(** Lines 710-752, the [if is_correct:] branch. *)
Definition on_correct (st : State) (f : Frame) (history : gmap Z (list R))
    : result (State * list Event * R) :=
  let level := current_level st in
  let '(hold_time, said) :=
    if pose_correct st then (pose_hold_time st, [])
    else (t_hold_start f, [SpeakPoseFeedback true level]) in
  let hold_duration := t_hold_check f - hold_time in
  required_time ← py_getitem timing_settings level;
  progress ← py_div hold_duration required_time;
  if Rleb required_time hold_duration && negb (level_complete st) then
    if (level <? 5)%Z then
      sound ← py_getitem pose_sounds (level + 1)%Z;
      instruction ← py_getitem voice_instructions (level + 1)%Z;
      Ok (mkState (level + 1) hold_time false false 0 history (DEBUG_METRICS st),
          said ++ [SpeakLevelComplete level; SpeakText sound; SpeakText instruction],
          hold_duration)
    else
      Ok (mkState 1 hold_time false false 0 history (DEBUG_METRICS st),
          said ++ [SpeakLevelComplete level; SpeakText restart_message],
          hold_duration)
  else
    Ok (mkState level hold_time true (level_complete st) 0 history (DEBUG_METRICS st),
        said, hold_duration).

(** Lines 753-763, the [else:] branch. *)
Definition on_incorrect (st : State) (f : Frame) (history : gmap Z (list R))
    : State * list Event :=
  let level := current_level st in
  let now := t_incorrect f in
  let '(last, said) :=
    if pose_correct st then (now, [SpeakPoseFeedback false level])
    else if Reqb (last_incorrect_feedback_time st) 0
            || Rltb 2.0 (now - last_incorrect_feedback_time st)
    then (now, [SpeakPoseFeedback false level])
    else (last_incorrect_feedback_time st, []) in
  (mkState level (pose_hold_time st) false false last history (DEBUG_METRICS st),
   said).

(** Lines 780-802: the key commands.  The boolean is [true] on [break]. *)
Definition on_key (st : State) (k : Z) : result (State * list Event * bool) :=
  if (k =? 113)%Z then Ok (st, [], true)                       (* ord('q') *)
  else if (k =? 114)%Z then                                    (* ord('r') *)
    Ok (mkState 1 (pose_hold_time st) false false
          (last_incorrect_feedback_time st) (accuracy_history st)
          (DEBUG_METRICS st),
        [SpeakText reset_message], false)
  else if (k =? 100)%Z then                                    (* ord('d') *)
    Ok (mkState (current_level st) (pose_hold_time st) (pose_correct st)
          (level_complete st) (last_incorrect_feedback_time st)
          (accuracy_history st) (negb (DEBUG_METRICS st)),
        [SpeakDebug (negb (DEBUG_METRICS st))], false)
  else if (49 <=? k)%Z && (k <=? 53)%Z then                    (* ord('1')..ord('5') *)
    let new_level := (k - 48)%Z in
    if (1 <=? new_level)%Z && (new_level <=? 5)%Z then
      sound ← py_getitem pose_sounds new_level;
      instruction ← py_getitem voice_instructions new_level;
      Ok (mkState new_level (pose_hold_time st) false false
            (last_incorrect_feedback_time st) (accuracy_history st)
            (DEBUG_METRICS st),
          [SpeakText sound; SpeakText instruction], false)
    else Ok (st, [], false)
  else Ok (st, [], false).

(** One iteration of [while True:].  The drawing calls are left out, and with
    them the frame-rate readout of line 767; the dict lookups they make on
    [current_level] ([pose_names], [pose_instructions], [timing_settings], all
    with keys 1 to 5) are kept as the lookup in [timing_settings] on line
    706. *)
Definition loop_body (st : State) (f : Frame) : result Outcome :=
  '(history, smoothed) ← smooth (current_level st) (accuracy_history st) f;
  let correct := Rleb ACCURACY_THRESHOLD smoothed in
  shown_time ← py_getitem timing_settings (current_level st);
  '(st1, said1, held) ←
    (if correct then
       '(st1, said1, hold) ← on_correct st f history;
       Ok (st1, said1, Some hold)
     else
       let '(st1, said1) := on_incorrect st f history in
       Ok (st1, said1, None));
  '(st2, said2, stop) ← on_key st1 (key f);
  Ok (mkOutcome st2 (said1 ++ said2) smoothed correct held stop).

(** The loop over a finite sequence of frames, until [break]. *)
Fixpoint run (st : State) (frames : list Frame) : result (State * list Event) :=
  match frames with
  | [] => Ok (st, [])
  | f :: rest =>
      out ← loop_body st f;
      if quit out then Ok (next_state out, spoken out)
      else
        '(st', said) ← run (next_state out) rest;
        Ok (st', spoken out ++ said)
  end.

(** ** Text wrapping *)

(** Python strings are modelled as [string], that is, with code points below
    256.  [is_space] is [str.isspace] on one such character. *)
Definition is_space (c : ascii) : bool :=
  match c with
  | "009" | "010" | "011" | "012" | "013"
  | "028" | "029" | "030" | "031" | " " | "133" | "160" => true
  | _ => false
  end%char.

(** [s.split()], with the word read so far. *)
Fixpoint split_from (word s : string) : list string :=
  match s with
  | EmptyString => if decide (word = "") then [] else [word]
  | String c rest =>
      if is_space c then
        if decide (word = "") then split_from "" rest
        else word :: split_from "" rest
      else split_from (word +:+ String c "") rest
  end.

Definition py_split (s : string) : list string := split_from "" s.

Fixpoint lstrip (s : string) : string :=
  match s with
  | EmptyString => ""
  | String c rest => if is_space c then lstrip rest else s
  end.

Fixpoint rstrip (s : string) : string :=
  match s with
  | EmptyString => ""
  | String c rest =>
      match rstrip rest with
      | EmptyString => if is_space c then "" else String c ""
      | kept => String c kept
      end
  end.

(** [s.strip()]. *)
Definition py_strip (s : string) : string := lstrip (rstrip s).

(** [len(s)]. *)
Definition py_len (s : string) : Z := Z.of_nat (String.length s).

(** The body of the [for word in words:] loop, on [(lines, current_line)]. *)
Definition wrap_step (max_chars : Z) (state : list string * string)
    (word : string) : list string * string :=
  let '(lines, current_line) := state in
  if (py_len (current_line +:+ word) + 1 <=? max_chars)%Z
  then (lines, current_line +:+ word +:+ " ")
  else (lines ++ [py_strip current_line], word +:+ " ").

Definition wrap_text (text : string) (max_chars : Z) : list string :=
  let words := py_split text in
  let '(lines, current_line) := foldl (wrap_step max_chars) ([], "") words in
  if decide (current_line = "") then lines
  else lines ++ [py_strip current_line].

(** The texts that [wrap_text] is called on, line 557. *)
Definition pose_instructions : gmap Z string :=
  {[ 1%Z := "Stand straight with arms at sides, feet together";
     2%Z := "Balance on one leg, place foot on opposite thigh";
     3%Z := "Bend one knee deeply, extend arms overhead";
     4%Z := "Kneel and fold forward, arms extended";
     5%Z := "Sit cross-legged with straight spine, hands on knees" ]}.

(** ** Reference figures and skeleton drawing *)

(** A colour tuple, one [int] per channel. *)
Definition Color : Type := list Z.

(** The OpenCV drawing calls, in the order the code makes them. *)
Inductive Draw : Type :=
  | Circle (center : Point) (radius : Z) (color : Color) (thickness : Z)
  | Ellipse (center axes : Point) (angle start_angle end_angle : Z)
      (color : Color) (thickness : Z)
  | Rectangle (corner1 corner2 : Point) (color : Color) (thickness : Z)
  | Line (pt1 pt2 : Point) (color : Color) (thickness : Z).

Definition draw_3d_cylinder (center : Point) (radius height : Z) (color : Color)
    (thickness : Z) : list Draw :=
  let '(x, y) := center in
  let darker := (fun c => Z.max 0 (c - 50)) <$> color in
  [ Ellipse (x, y) (radius, radius / 3)%Z 0 0 180 color thickness;
    Ellipse (x, y + height)%Z (radius, radius / 3)%Z 0 180 360 color thickness;
    Rectangle (x - radius, y)%Z (x + radius, y + height)%Z color thickness;
    Ellipse (x + 2, y)%Z (radius, radius / 3)%Z 0 0 180 darker thickness;
    Ellipse (x + 2, y + height)%Z (radius, radius / 3)%Z 0 180 360 darker
      thickness ].

Definition draw_3d_sphere (center : Point) (radius : Z) (color : Color)
    : list Draw :=
  let '(x, y) := center in
  let highlight := (fun c => Z.min 255 (c + 80)) <$> color in
  let shadow := (fun c => Z.max 0 (c - 60)) <$> color in
  [ Circle (x, y) radius color (-1);
    Circle (x - radius / 3, y - radius / 3)%Z (radius / 3) highlight (-1);
    Circle (x + radius / 4, y + radius / 4)%Z (radius / 2) shadow (-1) ].

Definition POSE_CONNECTIONS : list (Z * Z) :=
  [ (0, 1); (1, 2); (2, 3); (3, 7);
    (0, 4); (4, 5); (5, 6); (6, 8);
    (9, 10);
    (11, 12); (11, 13); (13, 15); (15, 17); (15, 19); (15, 21);
    (17, 19); (12, 14); (14, 16); (16, 18); (16, 20); (16, 22); (18, 20);
    (11, 23); (12, 24); (23, 24); (23, 25); (24, 26); (25, 27); (26, 28);
    (27, 29); (28, 30); (29, 31); (30, 32) ]%Z.

Definition interpolate_skeleton (kf1 kf2 : list FPoint) (t : R) : list FPoint :=
  (fun '((x1, y1), (x2, y2)) => ((1 - t) * x1 + t * x2, (1 - t) * y1 + t * y2))
    <$> zip kf1 kf2.

Section Canvas.

(** [h, w = img.shape[:2]]. *)
Variables (w h : Z).

(** [(int(landmarks[i][0]*w), int(landmarks[i][1]*h))]. *)
Definition pixel_at (landmarks : list FPoint) (i : Z) : result Point :=
  landmark ← py_index landmarks i;
  Ok (int_of_float (fst landmark * IZR w), int_of_float (snd landmark * IZR h)).

(** The first loop of both skeleton functions, with what is drawn per bone. *)
Fixpoint draw_connections (bone : Point -> Point -> list Draw)
    (landmarks : list FPoint) (connections : list (Z * Z)) : result (list Draw) :=
  match connections with
  | [] => Ok []
  | (i, j) :: rest =>
      let n := Z.of_nat (length landmarks) in
      drawn ←
        (if (i <? n)%Z && (j <? n)%Z then
           pt1 ← pixel_at landmarks i;
           pt2 ← pixel_at landmarks j;
           Ok (bone pt1 pt2)
         else Ok []);
      more ← draw_connections bone landmarks rest;
      Ok (drawn ++ more)
  end.

Definition draw_skeleton (landmarks : list FPoint) (color : Color)
    : result (list Draw) :=
  bones ←
    draw_connections (fun pt1 pt2 => [Line pt1 pt2 color 8]) landmarks
      POSE_CONNECTIONS;
  let joints :=
    landmarks ≫= (fun '(x, y) =>
      let pt := (int_of_float (x * IZR w), int_of_float (y * IZR h)) in
      [Circle pt 14 [255; 255; 255]%Z (-1); Circle pt 10 color (-1)]) in
  Ok (bones ++ joints).

Definition draw_realistic_skeleton (landmarks : list FPoint) (color : Color)
    : result (list Draw) :=
  p11 ← py_index landmarks 11;
  p12 ← py_index landmarks 12;
  p23 ← py_index landmarks 23;
  p24 ← py_index landmarks 24;
  let cx := int_of_float ((fst p11 + fst p12 + fst p23 + fst p24) * IZR w / 4) in
  let cy := int_of_float ((snd p11 + snd p12 + snd p23 + snd p24) * IZR h / 4) in
  let torso :=
    Ellipse (cx, cy) (int_of_float (0.07 * IZR w), int_of_float (0.18 * IZR h))
      0 0 360 [180; 180; 200]%Z (-1) in
  head ← pixel_at landmarks 0;
  let head_radius := int_of_float (0.06 * IZR h) in
  let skull :=
    [ Circle head head_radius [220; 200; 180]%Z (-1);
      Circle head head_radius [0; 0; 0]%Z 2 ] in
  bones ←
    draw_connections
      (fun pt1 pt2 =>
         [ Line pt1 pt2 color 18;
           Line (fst pt1 + 4, snd pt1 + 4)%Z (fst pt2 + 4, snd pt2 + 4)%Z
             [80; 80; 80]%Z 24 ])
      landmarks POSE_CONNECTIONS;
  let joints :=
    landmarks ≫= (fun '(x, y) =>
      let px := int_of_float (x * IZR w) in
      let py := int_of_float (y * IZR h) in
      [ Circle (px, py) 18 [255; 255; 255]%Z (-1);
        Circle (px, py) 14 color (-1);
        Circle (px - 4, py - 4)%Z 8 [200; 200; 255]%Z (-1) ]) in
  Ok (torso :: skull ++ bones ++ joints).

End Canvas.

(** ** Speech worker *)

(** [_speech_worker]: [engine] is [None] when [pyttsx3.init()] failed;
    otherwise it tells for each text whether [say] and [runAndWait] returned
    ([true]) or raised ([false]).  [items] is what [speech_queue.get()]
    returns, call after call; [None] is the stop item.  The result is what was
    spoken, and whether the worker has left its loop ([false]: it is waiting
    in [get]). *)
Fixpoint speech_loop (say : string -> bool) (items : list (option string))
    : list string * bool :=
  match items with
  | [] => ([], false)
  | None :: _ => ([], true)
  | Some text :: rest =>
      if say text then
        let '(spoken, stopped) := speech_loop say rest in (text :: spoken, stopped)
      else ([], true)
  end.

Definition speech_worker (engine : option (string -> bool))
    (items : list (option string)) : list string * bool :=
  match engine with
  | None => ([], true)
  | Some say => speech_loop say items
  end.

(** * Vocabulary of the properties *)

(** The pixel position of a landmark, as [find_point] computes it. *)
Definition scaled (width height : Z) (landmark : Landmark) : Point :=
  (int_of_float (lm_x landmark * IZR width),
   int_of_float (lm_y landmark * IZR height)).

(** The interior angle in the words of the specification: the angle at the
    vertex [p1] between the rays to [p0] and to [p2]. *)
Definition dot (u v : FPoint) : R := fst u * fst v + snd u * snd v.

Definition norm (u : FPoint) : R := sqrt (dot u u).

Definition ray (vertex target : Point) : FPoint :=
  (IZR (fst target - fst vertex), IZR (snd target - snd vertex)).

Definition interior_angle (p0 p1 p2 : Point) : R :=
  acos (dot (ray p1 p0) (ray p1 p2) / (norm (ray p1 p0) * norm (ray p1 p2))).

Definition degrees (radians : R) : R := radians * 180 / PI.

(** The words of the specification: the midpoint of two pixel positions and
    the Euclidean distance between two positions. *)
Definition midpoint (p q : Point) : FPoint :=
  ((IZR (fst p) + IZR (fst q)) / 2, (IZR (snd p) + IZR (snd q)) / 2).

Definition distance (p q : FPoint) : R :=
  sqrt ((fst p - fst q) * (fst p - fst q) + (snd p - snd q) * (snd p - snd q)).

(** That distance, or a quarter of the larger frame side when it is below 1. *)
Definition torso_scale (width height : Z) (ls rs lh rh : Point) : R :=
  let d := distance (midpoint ls rs) (midpoint lh rh) in
  if Rltb d 1 then IZR (Z.max height width) / 4 else d.

(** A scoring function returned, with an accuracy between 0 and 100. *)
Definition in_range (r : result Scored) : Prop :=
  exists sub_scores accuracy, r = Ok (sub_scores, accuracy) /\ 0 <= accuracy <= 100.

(** A person standing upright in a 640 by 480 frame, arms straight down at
    the sides, feet together: the pose the first level asks for.  Landmarks
    that the scorer does not read sit at the nose. *)
Definition standing_straight : list Landmark :=
  let nose := mkLandmark 0.5 0.125 in
  [ nose; nose; nose; nose; nose; nose; nose; nose; nose; nose; nose;
    mkLandmark 0.5421875 0.25;    (* 11 left shoulder  (347, 120) *)
    mkLandmark 0.4578125 0.25;    (* 12 right shoulder (293, 120) *)
    mkLandmark 0.5421875 0.375;   (* 13 left elbow     (347, 180) *)
    mkLandmark 0.4578125 0.375;   (* 14 right elbow    (293, 180) *)
    mkLandmark 0.5421875 0.5;     (* 15 left wrist     (347, 240) *)
    mkLandmark 0.4578125 0.5;     (* 16 right wrist    (293, 240) *)
    nose; nose; nose; nose; nose; nose;
    mkLandmark 0.53125 0.5;       (* 23 left hip       (340, 240) *)
    mkLandmark 0.46875 0.5;       (* 24 right hip      (300, 240) *)
    mkLandmark 0.53125 0.75;      (* 25 left knee      (340, 360) *)
    mkLandmark 0.46875 0.75;      (* 26 right knee     (300, 360) *)
    mkLandmark 0.5 0.9375;        (* 27 left ankle     (320, 450) *)
    mkLandmark 0.5 0.9375;        (* 28 right ankle    (320, 450) *)
    nose; nose; nose; nose ].

(** The arm score in the words of the specification: the weight 15 scaled by
    one minus the deviation of the elbow angle from 170 degrees over the
    tolerance 40, not below 0. *)
Definition arm_score_at_elbow (wrist elbow shoulder : Point) : R :=
  Rmax 0 (15 * (1 - IZR (Z.abs (angle_calc wrist elbow shoulder - 170)) / 40)).

(** The arithmetic mean, in the words of the specification. *)
Definition mean (l : list R) : R := foldr Rplus 0 l / INR (length l).

(** The hold time the loop reads for a level. *)
Definition required_time (level : Z) : R := py_get timing_settings level 0.

(** The smoothed accuracy stays at or above the threshold on every frame of
    the sequence, at one level, starting from the given histories. *)
Fixpoint held (level : Z) (hist : gmap Z (list R)) (frames : list Frame) : Prop :=
  match frames with
  | [] => True
  | f :: rest =>
      exists hist' smoothed,
        smooth level hist f = Ok (hist', smoothed) /\
        ACCURACY_THRESHOLD <= smoothed /\
        held level hist' rest
  end.

(** The event of a call to [speak_level_complete]. *)
Definition is_completion (e : Event) : bool :=
  match e with
  | SpeakLevelComplete _ => true
  | _ => false
  end.

(** How many times [speak_level_complete] was called. *)
Fixpoint completions (said : list Event) : nat :=
  match said with
  | [] => 0
  | e :: rest => (if is_completion e then 1 else 0) + completions rest
  end.

(** The code of "no key": [cv2.waitKey] returns -1, masked with 0xFF. *)
Definition no_key : Z := 255.

(** What holds of the session variables between iterations. *)
Definition well_formed (st : State) : Prop :=
  (1 <= current_level st <= 5)%Z /\
  level_complete st = false /\
  forall level, (1 <= level <= 5)%Z -> is_Some (accuracy_history st !! level).

(** A 640 by 480 frame showing the upright pose, with every clock reading of
    the iteration equal to [t] and no key pressed. *)
Definition upright_frame (t : R) : Frame :=
  mkFrame 640 480 (mkResults (Some standing_straight)) t t t no_key.

(** The same frame with no pose detected. *)
Definition empty_view (t : R) : Frame :=
  mkFrame 640 480 (mkResults None) t t t no_key.

(** Every history is a window of at most 4 samples between 0 and 100. *)
Definition history_bounded (hist : gmap Z (list R)) : Prop :=
  forall level h, hist !! level = Some h ->
    (length h <= 4)%nat /\ Forall (fun x => 0 <= x <= 100) h.

(** The event of a call to [speak_pose_feedback]. *)
Definition is_feedback (e : Event) : bool :=
  match e with
  | SpeakPoseFeedback _ _ => true
  | _ => false
  end.

(** The frame is not empty. *)
Definition frame_not_empty (f : Frame) : Prop :=
  (0 < Z.max (frame_height f) (frame_width f))%Z.

(** The session variables are well formed and the histories bounded. *)
Definition session_ok (st : State) : Prop :=
  well_formed st /\ history_bounded (accuracy_history st).

(** No pose was detected on the frame. *)
Definition no_pose (f : Frame) : Prop := pose_landmarks (frame_results f) = None.

(** A quarter of the larger frame side, the fallback torso distance. *)
Definition quarter_frame (width height : Z) : R := IZR (Z.max height width) / 4.

(** A frame with no pose detected and the given key pressed. *)
Definition key_frame (k : Z) : Frame :=
  mkFrame 640 480 (mkResults None) 0 0 0 k.

(** A pose whose 33 landmarks all lie at the centre of the frame. *)
Definition huddled : list Landmark := replicate 33 (mkLandmark 0.5 0.5).

(** A 640 by 480 frame showing that pose, with every clock reading of the
    iteration equal to [t] and no key pressed. *)
Definition huddled_frame (t : R) : Frame :=
  mkFrame 640 480 (mkResults (Some huddled)) t t t no_key.

(** The session after key [4] on a frame without a pose and one frame of the
    huddled pose at time 10: level 4, a hold running since 10. *)
Definition holding_state : State :=
  {| current_level := 4;
     pose_hold_time := 10;
     pose_correct := true;
     level_complete := false;
     last_incorrect_feedback_time := 0;
     accuracy_history :=
       <[4%Z := [100]]> (<[1%Z := [0]]> (accuracy_history initial_state));
     DEBUG_METRICS := false |}.

(** No character of [s] is white space. *)
Fixpoint dense (s : string) : bool :=
  match s with
  | EmptyString => true
  | String c rest => negb (is_space c) && dense rest
  end.

(** What [split] produces: a word is not empty and holds no white space. *)
Definition word_ok (w : string) : Prop := w <> "" /\ dense w = true.

(** The words of a line, each followed by one space: [current_line]. *)
Fixpoint spaced (g : list string) : string :=
  match g with
  | [] => ""
  | w :: rest => w +:+ " " +:+ spaced rest
  end.

(** [" ".join(g)]. *)
Fixpoint join_space (g : list string) : string :=
  match g with
  | [] => ""
  | [w] => w
  | w :: rest => w +:+ " " +:+ join_space rest
  end.

(** A word fits on a line of its own, an open line is within the width, and a
    closed line is a non-empty group within the width. *)
Definition word_fits (max_chars : Z) (w : string) : Prop :=
  (py_len w + 1 <= max_chars)%Z.

Definition line_fits (max_chars : Z) (g : list string) : Prop :=
  (py_len (spaced g) <= max_chars)%Z.

Definition closed_line (max_chars : Z) (g : list string) : Prop :=
  g <> [] /\ line_fits max_chars g.

(** The colours a drawing call uses. *)
Definition draw_color (d : Draw) : Color :=
  match d with
  | Circle _ _ color _ => color
  | Ellipse _ _ _ _ _ color _ => color
  | Rectangle _ _ color _ => color
  | Line _ _ color _ => color
  end.

(** Every channel is a byte. *)
Definition valid_color (color : Color) : Prop :=
  Forall (fun c => (0 <= c <= 255)%Z) color.

(** * Properties *)

(** ** Comparisons and truncation *)

Lemma Rltb_true (x y : R) : x < y -> Rltb x y = true.
Proof. intros Hxy. unfold Rltb. destruct (Rlt_dec x y); [reflexivity | contradiction]. Qed.

Lemma Rltb_false (x y : R) : y <= x -> Rltb x y = false.
Proof. intros Hyx. unfold Rltb. destruct (Rlt_dec x y); [lra | reflexivity]. Qed.

Lemma Rleb_true (x y : R) : x <= y -> Rleb x y = true.
Proof. intros Hxy. unfold Rleb. destruct (Rle_dec x y); [reflexivity | contradiction]. Qed.

Lemma Rleb_false (x y : R) : y < x -> Rleb x y = false.
Proof. intros Hyx. unfold Rleb. destruct (Rle_dec x y); [lra | reflexivity]. Qed.

Lemma Reqb_true (x y : R) : x = y -> Reqb x y = true.
Proof. intros Hxy. unfold Reqb. destruct (Req_dec_T x y); [reflexivity | contradiction]. Qed.

Lemma Reqb_false (x y : R) : x <> y -> Reqb x y = false.
Proof. intros Hxy. unfold Reqb. destruct (Req_dec_T x y); [contradiction | reflexivity]. Qed.

Lemma Rleb_spec (x y : R) : Rleb x y = true <-> x <= y.
Proof. unfold Rleb. destruct (Rle_dec x y); split; intros; (assumption || discriminate || reflexivity || contradiction). Qed.

Lemma Rleb_nspec (x y : R) : Rleb x y = false <-> y < x.
Proof. unfold Rleb. destruct (Rle_dec x y); split; intros; try discriminate; try reflexivity; lra. Qed.

Lemma Int_part_IZR (z : Z) : Int_part (IZR z) = z.
Proof. symmetry. apply Int_part_spec. lra. Qed.

Lemma int_of_float_IZR (z : Z) : int_of_float (IZR z) = z.
Proof.
  unfold int_of_float. destruct (Rleb 0 (IZR z)).
  - apply Int_part_IZR.
  - rewrite <- opp_IZR, Int_part_IZR. lia.
Qed.

Lemma int_of_float_eq (x : R) (z : Z) : x = IZR z -> int_of_float x = z.
Proof. intros ->. apply int_of_float_IZR. Qed.

(** ** [find_point] *)

Lemma py_index_nonneg {A : Type} (l : list A) (p : Z) (a : A) :
  (0 <= p)%Z -> l !! Z.to_nat p = Some a -> py_index l p = Ok a.
Proof.
  intros Hp Hl. unfold py_index.
  destruct (Z.ltb_spec p 0) as [Hneg | _]; [lia |].
  destruct (Z.ltb_spec p 0) as [Hneg | _]; [lia |].
  rewrite Hl. reflexivity.
Qed.

Lemma py_index_negative {A : Type} (l : list A) (p : Z) (a : A) :
  (- Z.of_nat (length l) <= p < 0)%Z ->
  l !! Z.to_nat (Z.of_nat (length l) + p) = Some a -> py_index l p = Ok a.
Proof.
  intros Hp Hl. unfold py_index.
  destruct (Z.ltb_spec p 0) as [_ | Hpos]; [| lia].
  destruct (Z.ltb_spec (Z.of_nat (length l) + p) 0) as [Hneg | _]; [lia |].
  rewrite Hl. reflexivity.
Qed.

Lemma py_index_below {A : Type} (l : list A) (p : Z) :
  (p < - Z.of_nat (length l))%Z -> py_index l p = Raise IndexError.
Proof.
  intros Hp. unfold py_index.
  destruct (Z.ltb_spec p 0) as [_ | Hpos]; [| lia].
  destruct (Z.ltb_spec (Z.of_nat (length l) + p) 0) as [_ | Hge]; [reflexivity | lia].
Qed.

Lemma find_point_beyond (width height : Z) (lms : list Landmark) (p : Z) :
  (Z.of_nat (length lms) <= p)%Z -> find_point width height lms p = Ok (0, 0)%Z.
Proof.
  intros Hp. unfold find_point.
  destruct (Z.ltb_spec p (Z.of_nat (length lms))); [lia | reflexivity].
Qed.

Lemma find_point_inside (width height : Z) (lms : list Landmark) (p : Z) :
  (0 <= p < Z.of_nat (length lms))%Z ->
  exists landmark, lms !! Z.to_nat p = Some landmark /\
    find_point width height lms p = Ok (scaled width height landmark).
Proof.
  intros Hp.
  destruct (lookup_lt_is_Some_2 lms (Z.to_nat p)) as [landmark Hl]; [lia |].
  exists landmark. split; [exact Hl |].
  unfold find_point.
  destruct (Z.ltb_spec p (Z.of_nat (length lms))); [| lia].
  rewrite (py_index_nonneg lms p landmark) by (lia || assumption).
  reflexivity.
Qed.

(** A landmark identifier (never negative) cannot make [find_point] raise. *)
Lemma find_point_total (width height : Z) (lms : list Landmark) (p : Z) :
  (0 <= p)%Z -> exists pt, find_point width height lms p = Ok pt.
Proof.
  intros Hp. destruct (Z.lt_ge_cases p (Z.of_nat (length lms))) as [Hlt | Hge].
  - destruct (find_point_inside width height lms p) as (landmark & _ & ->); [lia |].
    eexists; reflexivity.
  - rewrite find_point_beyond by lia. eexists; reflexivity.
Qed.

(** C10: a negative index [p] with [-L <= p < 0] passes the guard [p < L] and
    [find_point] returns the scaled coordinates of the landmark at position
    [L + p]; the guard fails, and [(0, 0)] is returned by the last line, exactly
    for the indices [p >= L]. *)
Theorem find_point_negative_index (width height : Z) (lms : list Landmark) (p : Z) :
  let L := Z.of_nat (length lms) in
  ((- L <= p < 0)%Z ->
     (p <? L)%Z = true /\
     exists landmark, lms !! Z.to_nat (L + p) = Some landmark /\
       find_point width height lms p = Ok (scaled width height landmark)) /\
  ((p <? L)%Z = false <-> (L <= p)%Z) /\
  ((L <= p)%Z -> find_point width height lms p = Ok (0, 0)%Z).
Proof.
  intros L. split; [| split].
  - intros Hp.
    assert (Hguard : (p <? L)%Z = true) by (apply Z.ltb_lt; lia).
    split; [exact Hguard |].
    destruct (lookup_lt_is_Some_2 lms (Z.to_nat (L + p))) as [landmark Hl]; [lia |].
    exists landmark. split; [exact Hl |].
    unfold find_point. fold L. rewrite Hguard.
    rewrite (py_index_negative lms p landmark) by (assumption || (fold L; lia)).
    reflexivity.
  - apply Z.ltb_ge.
  - apply find_point_beyond.
Qed.

(** C8, as stated for every index, fails below [-L]: with 33 landmarks and
    index [-34] the guard [p < len] passes and the subscript raises
    [IndexError]. *)
Theorem find_point_raises_below_range :
  find_point 640 480 (replicate 33 (mkLandmark 0.5 0.5)) (-34) = Raise IndexError.
Proof. reflexivity. Qed.

(** C8, amended: for a landmark list of length [L], [find_point] raises
    nothing at any index [p >= -L], and so at no landmark identifier
    [p >= 0], the only indices the program passes.  It returns [(0, 0)] when
    [p >= L] and otherwise the normalised coordinates of the landmark that
    Python's subscript [p] selects, scaled by the frame width and height and
    truncated to integers.  The guard has no lower bound: an index below [-L]
    raises [IndexError]. *)
Theorem find_point_returns_from_minus_length
    (width height : Z) (lms : list Landmark) (p : Z) :
  let L := Z.of_nat (length lms) in
  ((- L <= p)%Z ->
     exists pt, find_point width height lms p = Ok pt /\
       ((L <= p)%Z -> pt = (0, 0)%Z) /\
       ((p < L)%Z ->
          exists landmark,
            lms !! Z.to_nat (if (p <? 0)%Z then L + p else p) = Some landmark /\
            pt = (int_of_float (lm_x landmark * IZR width),
                  int_of_float (lm_y landmark * IZR height)))) /\
  ((p < - L)%Z -> find_point width height lms p = Raise IndexError).
Proof.
  intros L. split.
  - intros Hp. destruct (Z.lt_ge_cases p L) as [Hlt | Hge].
    + destruct (Z.ltb_spec p 0) as [Hneg | Hpos].
      * destruct (lookup_lt_is_Some_2 lms (Z.to_nat (L + p))) as [landmark Hl];
          [lia |].
        exists (scaled width height landmark). split.
        { unfold find_point. fold L.
          destruct (Z.ltb_spec p L) as [_ | Hno]; [| lia].
          rewrite (py_index_negative lms p landmark)
            by (assumption || (fold L; lia)).
          reflexivity. }
        split; [lia |]. intros _. exists landmark. split; [exact Hl | reflexivity].
      * destruct (find_point_inside width height lms p) as (landmark & Hl & Hfind);
          [fold L; lia |].
        exists (scaled width height landmark). split; [exact Hfind |].
        split; [lia |]. intros _. exists landmark. split; [exact Hl | reflexivity].
    + exists (0, 0)%Z. split; [apply find_point_beyond; fold L; lia |].
      split; [reflexivity | lia].
  - intros Hp. unfold find_point. fold L.
    destruct (Z.ltb_spec p L) as [_ | Hno]; [| lia].
    rewrite py_index_below by (fold L; lia). reflexivity.
Qed.

(** C2: without a results object, or without pose landmarks in it,
    [check_pose_accuracy] returns [(False, 0.0)] at every level. *)
Theorem check_pose_accuracy_absent (width height pose_level : Z) :
  check_pose_accuracy width height pose_level None = Ok (false, 0.0) /\
  check_pose_accuracy width height pose_level (Some (mkResults None))
    = Ok (false, 0.0).
Proof. split; reflexivity. Qed.

(** ** [angle_calc] *)

Lemma IZR_sq_sum (dx dy : Z) :
  IZR (dx ^ 2 + dy ^ 2) = IZR dx * IZR dx + IZR dy * IZR dy.
Proof. rewrite !Z.pow_2_r, plus_IZR, !mult_IZR. reflexivity. Qed.

Lemma sq_dist_pos (p q : Point) :
  p <> q -> (0 < (fst q - fst p) ^ 2 + (snd q - snd p) ^ 2)%Z.
Proof.
  destruct p as [px py], q as [qx qy]. cbn [fst snd]. intros Hne.
  assert (Hd : (qx - px <> 0 \/ qy - py <> 0)%Z).
  { destruct (Z.eq_dec qx px) as [-> | Hx]; [| left; lia].
    destruct (Z.eq_dec qy py) as [-> | Hy]; [congruence | right; lia]. }
  nia.
Qed.

Lemma sqrt_4_mult (A B : R) :
  0 <= A -> 0 <= B -> sqrt (4 * A * B) = 2 * sqrt A * sqrt B.
Proof.
  intros HA HB.
  rewrite Rmult_assoc, sqrt_mult by nra.
  rewrite sqrt_mult by assumption.
  replace 4 with (2 * 2) by lra. rewrite sqrt_square by lra. ring.
Qed.

(** Cauchy-Schwarz in the plane, in the form the cosine needs. *)
Lemma cosine_in_range (ux uy vx vy : R) :
  0 < ux * ux + uy * uy -> 0 < vx * vx + vy * vy ->
  -1 <= (ux * vx + uy * vy)
        / (sqrt (ux * ux + uy * uy) * sqrt (vx * vx + vy * vy)) <= 1.
Proof.
  intros HA HB.
  set (A := ux * ux + uy * uy) in *. set (B := vx * vx + vy * vy) in *.
  set (d := ux * vx + uy * vy).
  pose proof (sqrt_lt_R0 A HA) as HnA. pose proof (sqrt_lt_R0 B HB) as HnB.
  pose proof (sqrt_sqrt A (Rlt_le _ _ HA)) as HsA.
  pose proof (sqrt_sqrt B (Rlt_le _ _ HB)) as HsB.
  set (n := sqrt A * sqrt B).
  assert (Hn : 0 < n) by (unfold n; nra).
  assert (Hnn : n * n = A * B).
  { transitivity ((sqrt A * sqrt A) * (sqrt B * sqrt B)); [unfold n; ring |].
    rewrite HsA, HsB. reflexivity. }
  assert (Hdd : d * d <= n * n).
  { rewrite Hnn. pose proof (pow2_ge_0 (ux * vy - uy * vx)) as Hsq.
    replace (A * B) with (d * d + (ux * vy - uy * vx) ^ 2) by (unfold A, B, d; ring).
    lra. }
  assert (Hq : d / n * n = d) by (field; lra).
  clearbody n d. clear HsA HsB HnA HnB Hnn.
  assert (Hd : - n <= d <= n) by (split; nra).
  split; nra.
Qed.

Lemma angle_calc_try_proper (p0 p1 p2 : Point) :
  p0 <> p1 -> p2 <> p1 ->
  angle_calc_try p0 p1 p2 = Ok (degrees (interior_angle p0 p1 p2)).
Proof.
  intros H0 H2.
  pose proof (sq_dist_pos p0 p1 H0) as Ha.
  pose proof (sq_dist_pos p2 p1 H2) as Hb.
  destruct p0 as [x0 y0], p1 as [x1 y1], p2 as [x2 y2].
  unfold angle_calc_try, interior_angle, degrees, norm, dot, ray.
  cbn [fst snd] in *.
  set (a := ((x1 - x0) ^ 2 + (y1 - y0) ^ 2)%Z) in *.
  set (b := ((x1 - x2) ^ 2 + (y1 - y2) ^ 2)%Z) in *.
  set (c := ((x2 - x0) ^ 2 + (y2 - y0) ^ 2)%Z).
  set (ux := IZR (x0 - x1)). set (uy := IZR (y0 - y1)).
  set (vx := IZR (x2 - x1)). set (vy := IZR (y2 - y1)).
  assert (HA : IZR a = ux * ux + uy * uy).
  { unfold a, ux, uy. rewrite IZR_sq_sum, !minus_IZR. ring. }
  assert (HB : IZR b = vx * vx + vy * vy).
  { unfold b, vx, vy. rewrite IZR_sq_sum, !minus_IZR. ring. }
  assert (HC : IZR (a + b - c) = 2 * (ux * vx + uy * vy)).
  { unfold a, b, c, ux, uy, vx, vy.
    rewrite minus_IZR, plus_IZR, !IZR_sq_sum, !minus_IZR. ring. }
  assert (HApos : 0 < ux * ux + uy * uy) by (rewrite <- HA; apply IZR_lt; lia).
  assert (HBpos : 0 < vx * vx + vy * vy) by (rewrite <- HB; apply IZR_lt; lia).
  assert (Hroot : sqrt (IZR (4 * a * b))
                  = 2 * sqrt (ux * ux + uy * uy) * sqrt (vx * vx + vy * vy)).
  { rewrite !mult_IZR, HA, HB. apply sqrt_4_mult; lra. }
  pose proof (sqrt_lt_R0 _ HApos) as HnA. pose proof (sqrt_lt_R0 _ HBpos) as HnB.
  pose proof (cosine_in_range ux uy vx vy HApos HBpos) as Hcos.
  unfold math_sqrt. rewrite Rltb_false by (apply IZR_le; nia).
  cbn [mbind result_bind]. unfold py_div.
  rewrite Reqb_false by (rewrite Hroot; nra).
  cbn [mbind result_bind]. rewrite Hroot, HC.
  replace (2 * (ux * vx + uy * vy)
           / (2 * sqrt (ux * ux + uy * uy) * sqrt (vx * vx + vy * vy)))
    with ((ux * vx + uy * vy)
          / (sqrt (ux * ux + uy * uy) * sqrt (vx * vx + vy * vy)))
    by (field; lra).
  unfold math_acos. rewrite !Rleb_true by lra.
  reflexivity.
Qed.

Lemma angle_calc_try_degenerate (p0 p1 p2 : Point) :
  p0 = p1 \/ p2 = p1 -> angle_calc_try p0 p1 p2 = Raise ZeroDivisionError.
Proof.
  intros Hdeg. unfold angle_calc_try.
  set (a := ((fst p1 - fst p0) ^ 2 + (snd p1 - snd p0) ^ 2)%Z).
  set (b := ((fst p1 - fst p2) ^ 2 + (snd p1 - snd p2) ^ 2)%Z).
  assert (Hzero : (4 * a * b = 0)%Z).
  { destruct Hdeg as [-> | ->]; [unfold a | unfold b]; rewrite !Z.sub_diag; lia. }
  rewrite Hzero. unfold math_sqrt. rewrite Rltb_false by lra.
  cbn [mbind result_bind]. unfold py_div.
  rewrite Reqb_true by apply sqrt_0. reflexivity.
Qed.

(** C7: [angle_calc p0 p1 p2] is the interior angle at the vertex [p1] between
    the rays to [p0] and [p2], in degrees and truncated to an integer; when a
    ray has length zero the division inside the [try] raises and the function
    returns 0. *)
Theorem angle_calc_interior_angle (p0 p1 p2 : Point) :
  (p0 <> p1 -> p2 <> p1 ->
     angle_calc p0 p1 p2 = int_of_float (degrees (interior_angle p0 p1 p2))) /\
  (p0 = p1 \/ p2 = p1 ->
     angle_calc_try p0 p1 p2 = Raise ZeroDivisionError /\
     angle_calc p0 p1 p2 = 0%Z).
Proof.
  split.
  - intros H0 H2. unfold angle_calc.
    rewrite angle_calc_try_proper by assumption. reflexivity.
  - intros Hdeg. unfold angle_calc.
    rewrite angle_calc_try_degenerate by assumption. split; reflexivity.
Qed.

(** ** Torso distance *)

Lemma euclidian_distance (p q : FPoint) : euclidian p q = Ok (distance p q).
Proof.
  unfold euclidian, math_sqrt, distance.
  pose proof (pow2_ge_0 (fst p - fst q)) as Hx.
  pose proof (pow2_ge_0 (snd p - snd q)) as Hy.
  rewrite Rltb_false by lra.
  f_equal. f_equal. ring.
Qed.

Lemma torso_distance_scale (width height : Z) (ls rs lh rh : Point) :
  torso_distance width height ls rs lh rh = Ok (torso_scale width height ls rs lh rh).
Proof.
  unfold torso_distance, torso_scale. rewrite euclidian_distance.
  cbn [mbind result_bind].
  assert (Hmid : forall p q : Point,
            (IZR (fst p + fst q) / 2.0, IZR (snd p + snd q) / 2.0) = midpoint p q).
  { intros p q. unfold midpoint. rewrite !plus_IZR. f_equal; lra. }
  rewrite !Hmid.
  destruct (Rltb (distance (midpoint ls rs) (midpoint lh rh)) 1).
  - f_equal. lra.
  - reflexivity.
Qed.

Lemma torso_scale_pos (width height : Z) (ls rs lh rh : Point) :
  (0 < Z.max height width)%Z -> 0 < torso_scale width height ls rs lh rh.
Proof.
  intros Hframe. unfold torso_scale, Rltb.
  destruct (Rlt_dec (distance (midpoint ls rs) (midpoint lh rh)) 1) as [Hlt | Hge].
  - apply IZR_lt in Hframe. lra.
  - lra.
Qed.

(** Lines 104-121 and 270-275 of [check_pose_accuracy] when landmarks are
    present: the four lookups succeed and the score is computed with the
    torso scale. *)
Lemma check_pose_accuracy_present
    (width height pose_level : Z) (lms : list Landmark) :
  exists ls rs lh rh,
    find_point width height lms 11 = Ok ls /\
    find_point width height lms 12 = Ok rs /\
    find_point width height lms 23 = Ok lh /\
    find_point width height lms 24 = Ok rh /\
    check_pose_accuracy width height pose_level (Some (mkResults (Some lms))) =
      ('(sub_scores, accuracy) ←
         score_level width height pose_level lms ls rs
           (torso_scale width height ls rs lh rh);
       Ok (Rleb ACCURACY_THRESHOLD accuracy, accuracy)).
Proof.
  destruct (find_point_total width height lms 11) as [ls Hls]; [lia |].
  destruct (find_point_total width height lms 12) as [rs Hrs]; [lia |].
  destruct (find_point_total width height lms 23) as [lh Hlh]; [lia |].
  destruct (find_point_total width height lms 24) as [rh Hrh]; [lia |].
  exists ls, rs, lh, rh. repeat (split; [assumption |]).
  unfold check_pose_accuracy. cbn [mbind option_bind pose_landmarks].
  rewrite Hls, Hrs, Hlh, Hrh. cbn [mbind result_bind].
  rewrite torso_distance_scale. reflexivity.
Qed.

(** C9: the torso distance used by [check_pose_accuracy] is the Euclidean
    distance between the shoulder midpoint and the hip midpoint, replaced by
    [max(height, width) / 4] when that distance is below 1. *)
Theorem torso_distance_is_midpoint_distance
    (width height pose_level : Z) (lms : list Landmark) :
  exists ls rs lh rh,
    find_point width height lms 11 = Ok ls /\
    find_point width height lms 12 = Ok rs /\
    find_point width height lms 23 = Ok lh /\
    find_point width height lms 24 = Ok rh /\
    let d := distance (midpoint ls rs) (midpoint lh rh) in
    let torso_dist := if Rltb d 1 then IZR (Z.max height width) / 4 else d in
    torso_distance width height ls rs lh rh = Ok torso_dist /\
    check_pose_accuracy width height pose_level (Some (mkResults (Some lms))) =
      ('(sub_scores, accuracy) ← score_level width height pose_level lms ls rs torso_dist;
       Ok (Rleb ACCURACY_THRESHOLD accuracy, accuracy)).
Proof.
  destruct (check_pose_accuracy_present width height pose_level lms)
    as (ls & rs & lh & rh & Hls & Hrs & Hlh & Hrh & Hcheck).
  exists ls, rs, lh, rh. repeat (split; [assumption |]).
  cbv zeta. split; [apply torso_distance_scale | exact Hcheck].
Qed.

(** ** The accuracy stays within 0 and 100 *)

Lemma clamp_accuracy_range (accuracy : R) : 0 <= clamp_accuracy accuracy <= 100.
Proof.
  unfold clamp_accuracy, Rmin, Rmax.
  destruct (Rle_dec 0.0 accuracy) as [H0 | H0];
    [destruct (Rle_dec 100.0 accuracy) | destruct (Rle_dec 100.0 0.0)]; lra.
Qed.

Lemma py_div_ok (x y : R) : y <> 0 -> py_div x y = Ok (x / y).
Proof. intros Hy. unfold py_div. rewrite Reqb_false by assumption. reflexivity. Qed.

(** Runs a scoring function up to its [return]: every landmark lookup uses a
    landmark identifier, every distance is defined, no divisor is zero. *)
Ltac run_scorer :=
  repeat first
    [ match goal with
      | |- context [find_point ?w ?h ?l ?k] =>
          let pt := fresh "pt" in
          destruct (find_point_total w h l k) as [pt ->]; [lia |]
      end
    | rewrite euclidian_distance
    | rewrite py_div_ok by lra
    | progress cbn [mbind result_bind] ].

Lemma in_range_clamp (sub_scores : gmap string R) (accuracy : R) :
  in_range (Ok (sub_scores, clamp_accuracy accuracy)).
Proof. eexists _, _. split; [reflexivity | apply clamp_accuracy_range]. Qed.

Section ScorerRange.

Variables (width height : Z) (lms : list Landmark) (torso_dist : R).
Hypothesis torso_pos : 0 < torso_dist.

Lemma mountain_pose_range (cfg : gmap string R) (ls rs : Point) :
  py_get cfg "arm_tolerance" 40.0 <> 0 ->
  in_range (mountain_pose width height cfg lms ls rs torso_dist).
Proof using torso_pos.
  intros Htol. unfold mountain_pose. run_scorer. apply in_range_clamp.
Qed.

Lemma tree_pose_range : in_range (tree_pose width height lms torso_dist).
Proof using torso_pos.
  unfold tree_pose. run_scorer.
  match goal with
  | |- context [if ?b then _ else if ?c then _ else _] => destruct b, c
  end; run_scorer; apply in_range_clamp.
Qed.

Lemma warrior_pose_range : in_range (warrior_pose width height lms torso_dist).
Proof using Type.
  unfold warrior_pose. run_scorer. apply in_range_clamp.
Qed.

Lemma child_pose_range : in_range (child_pose width height lms torso_dist).
Proof using torso_pos.
  unfold child_pose. run_scorer.
  match goal with
  | |- context [if ?b then Ok _ else _] => destruct b
  end; run_scorer; apply in_range_clamp.
Qed.

Lemma lotus_pose_range : in_range (lotus_pose width height lms torso_dist).
Proof using torso_pos.
  unfold lotus_pose. run_scorer. apply in_range_clamp.
Qed.

Lemma score_level_range (pose_level : Z) (ls rs : Point) :
  in_range (score_level width height pose_level lms ls rs torso_dist).
Proof using torso_pos.
  unfold score_level.
  destruct (Z.eqb_spec pose_level 1) as [-> | _].
  { apply mountain_pose_range.
    replace (py_get (py_get POSE_CONFIG 1%Z ∅) "arm_tolerance" 40.0) with 40.0
      by reflexivity.
    lra. }
  destruct (Z.eqb_spec pose_level 2) as [_ | _]; [apply tree_pose_range |].
  destruct (Z.eqb_spec pose_level 3) as [_ | _]; [apply warrior_pose_range |].
  destruct (Z.eqb_spec pose_level 4) as [_ | _]; [apply child_pose_range |].
  destruct (Z.eqb_spec pose_level 5) as [_ | _]; [apply lotus_pose_range |].
  exists ∅, 0.0. split; [reflexivity | lra].
Qed.

End ScorerRange.

Lemma check_pose_accuracy_returns
    (width height pose_level : Z) (results : option Results) :
  (0 < Z.max height width)%Z ->
  exists is_correct accuracy,
    check_pose_accuracy width height pose_level results = Ok (is_correct, accuracy) /\
    0 <= accuracy <= 100.
Proof.
  intros Hframe.
  destruct results as [[[lms |]] |];
    [| exists false, 0.0; split; [reflexivity | lra] ..].
  destruct (check_pose_accuracy_present width height pose_level lms)
    as (ls & rs & lh & rh & _ & _ & _ & _ & ->).
  destruct (score_level_range width height lms _
              (torso_scale_pos width height ls rs lh rh Hframe) pose_level ls rs)
    as (sub_scores & accuracy & -> & Hrange).
  cbn [mbind result_bind]. eexists _, _. split; [reflexivity | exact Hrange].
Qed.

(** C1: on a frame that is not empty, [check_pose_accuracy] returns, at every
    level and for every landmark input (absent, short or complete), and the
    accuracy it returns lies between 0 and 100. *)
Theorem check_pose_accuracy_range
    (width height pose_level : Z) (results : option Results) :
  (0 < Z.max height width)%Z ->
  exists is_correct accuracy,
    check_pose_accuracy width height pose_level results = Ok (is_correct, accuracy) /\
    0 <= accuracy <= 100.
Proof. apply check_pose_accuracy_returns. Qed.

(** ** Worked inputs *)

Lemma find_point_at (width height : Z) (lms : list Landmark) (p : Z)
    (landmark : Landmark) (x y : Z) :
  (0 <= p)%Z ->
  lms !! Z.to_nat p = Some landmark ->
  lm_x landmark * IZR width = IZR x ->
  lm_y landmark * IZR height = IZR y ->
  find_point width height lms p = Ok (x, y).
Proof.
  intros Hp Hl Hx Hy.
  destruct (find_point_inside width height lms p) as (landmark' & Hl' & ->).
  { split; [exact Hp |]. apply lookup_lt_Some in Hl. lia. }
  rewrite Hl in Hl'. injection Hl' as <-.
  unfold scaled. rewrite (int_of_float_eq _ x Hx), (int_of_float_eq _ y Hy).
  reflexivity.
Qed.

(** The cosine is 1: [p0] and [p2] lie on the same ray from [p1]. *)
Lemma angle_calc_aligned (p0 p1 p2 : Point) (n : Z) :
  let a := ((fst p1 - fst p0) ^ 2 + (snd p1 - snd p0) ^ 2)%Z in
  let b := ((fst p1 - fst p2) ^ 2 + (snd p1 - snd p2) ^ 2)%Z in
  let c := ((fst p2 - fst p0) ^ 2 + (snd p2 - snd p0) ^ 2)%Z in
  (0 < n)%Z -> (4 * a * b = n * n)%Z -> (a + b - c = n)%Z ->
  angle_calc p0 p1 p2 = 0%Z.
Proof.
  intros a b c Hn Hab Hc. unfold angle_calc, angle_calc_try.
  fold a b c. rewrite Hab, Hc, mult_IZR.
  apply IZR_lt in Hn.
  unfold math_sqrt. rewrite Rltb_false by nra. cbn [mbind result_bind].
  rewrite sqrt_square by lra.
  rewrite py_div_ok by lra. cbn [mbind result_bind].
  replace (IZR n / IZR n) with 1 by (field; lra).
  unfold math_acos. rewrite !Rleb_true by lra. cbn [andb mbind result_bind].
  rewrite acos_1. apply int_of_float_eq. unfold Rdiv. ring.
Qed.

(** The cosine is -1: [p1] lies between [p0] and [p2]. *)
Lemma angle_calc_opposite (p0 p1 p2 : Point) (n : Z) :
  let a := ((fst p1 - fst p0) ^ 2 + (snd p1 - snd p0) ^ 2)%Z in
  let b := ((fst p1 - fst p2) ^ 2 + (snd p1 - snd p2) ^ 2)%Z in
  let c := ((fst p2 - fst p0) ^ 2 + (snd p2 - snd p0) ^ 2)%Z in
  (0 < n)%Z -> (4 * a * b = n * n)%Z -> (a + b - c = - n)%Z ->
  angle_calc p0 p1 p2 = 180%Z.
Proof.
  intros a b c Hn Hab Hc. unfold angle_calc, angle_calc_try.
  fold a b c. rewrite Hab, Hc, mult_IZR, opp_IZR.
  apply IZR_lt in Hn.
  unfold math_sqrt. rewrite Rltb_false by nra. cbn [mbind result_bind].
  rewrite sqrt_square by lra.
  rewrite py_div_ok by lra. cbn [mbind result_bind].
  replace (- IZR n / IZR n) with (- (1)) by (field; lra).
  unfold math_acos. rewrite !Rleb_true by lra. cbn [andb mbind result_bind].
  rewrite acos_opp, acos_1. apply int_of_float_eq.
  pose proof PI_neq0. field. assumption.
Qed.

Ltac find_at px py :=
  eapply find_point_at with (x := px) (y := py);
  [lia | reflexivity | cbn [lm_x lm_y]; lra | cbn [lm_x lm_y]; lra].

Lemma standing_straight_points :
  let find := find_point 640 480 standing_straight in
  find 11%Z = Ok (347, 120)%Z /\ find 12%Z = Ok (293, 120)%Z /\
  find 13%Z = Ok (347, 180)%Z /\ find 14%Z = Ok (293, 180)%Z /\
  find 15%Z = Ok (347, 240)%Z /\ find 16%Z = Ok (293, 240)%Z /\
  find 23%Z = Ok (340, 240)%Z /\ find 24%Z = Ok (300, 240)%Z /\
  find 27%Z = Ok (320, 450)%Z /\ find 28%Z = Ok (320, 450)%Z.
Proof.
  cbv zeta. repeat split.
  - find_at 347%Z 120%Z.
  - find_at 293%Z 120%Z.
  - find_at 347%Z 180%Z.
  - find_at 293%Z 180%Z.
  - find_at 347%Z 240%Z.
  - find_at 293%Z 240%Z.
  - find_at 340%Z 240%Z.
  - find_at 300%Z 240%Z.
  - find_at 320%Z 450%Z.
  - find_at 320%Z 450%Z.
Qed.

(** What [mountain_pose] computes with the weights of [POSE_CONFIG]: each arm
    angle is [angle_calc wrist shoulder elbow], the angle at the shoulder. *)
Lemma mountain_pose_formula (width height : Z) (lms : list Landmark)
    (ls rs la ra lw rw le re : Point) (torso_dist : R) :
  find_point width height lms 27 = Ok la ->
  find_point width height lms 28 = Ok ra ->
  find_point width height lms 15 = Ok lw ->
  find_point width height lms 16 = Ok rw ->
  find_point width height lms 13 = Ok le ->
  find_point width height lms 14 = Ok re ->
  torso_dist <> 0 ->
  let feet_score :=
    Rmax 0.0 (50.0 * (1.0 - IZR (Z.abs (fst la - fst ra)) / (torso_dist * 0.6))) in
  let shoulder_score :=
    Rmax 0.0 (20.0 * (1.0 - IZR (Z.abs (fst ls - fst rs)) / (torso_dist * 0.9))) in
  let left_arm_score :=
    Rmax 0.0 (15.0 * (1.0 - IZR (Z.abs (angle_calc lw ls le - 170)) / 40.0)) in
  let right_arm_score :=
    Rmax 0.0 (15.0 * (1.0 - IZR (Z.abs (angle_calc rw rs re - 170)) / 40.0)) in
  mountain_pose width height (py_get POSE_CONFIG 1%Z ∅) lms ls rs torso_dist =
    Ok ({[ "feet_score" := feet_score; "shoulder_score" := shoulder_score;
           "left_arm_score" := left_arm_score;
           "right_arm_score" := right_arm_score ]},
        clamp_accuracy
          (feet_score + shoulder_score + left_arm_score + right_arm_score)).
Proof.
  intros Hla Hra Hlw Hrw Hle Hre Ht. cbv zeta. unfold mountain_pose.
  rewrite Hla, Hra, Hlw, Hrw, Hle, Hre. cbn [mbind result_bind].
  change (py_get (py_get POSE_CONFIG 1%Z ∅) "arm_tolerance" 40.0) with 40.0.
  rewrite !py_div_ok by lra. reflexivity.
Qed.

Lemma arm_penalty_zero (angle : Z) :
  (angle <= 130)%Z ->
  Rmax 0.0 (15.0 * (1.0 - IZR (Z.abs (angle - 170)) / 40.0)) = 0.
Proof.
  intros Hangle.
  assert (H40 : 40 <= IZR (Z.abs (angle - 170))) by (apply IZR_le; lia).
  rewrite Rmax_left; lra.
Qed.

Lemma standing_straight_torso :
  torso_scale 640 480 (347, 120)%Z (293, 120)%Z (340, 240)%Z (300, 240)%Z = 120.
Proof.
  unfold torso_scale.
  assert (Hd : distance (midpoint (347, 120)%Z (293, 120)%Z)
                 (midpoint (340, 240)%Z (300, 240)%Z) = 120).
  { unfold distance, midpoint. cbn [fst snd].
    match goal with |- sqrt ?x = _ => replace x with (120 * 120) by lra end.
    apply sqrt_square. lra. }
  rewrite Hd, Rltb_false by lra. reflexivity.
Qed.

Lemma standing_straight_shoulder_angles :
  angle_calc (347, 240)%Z (347, 120)%Z (347, 180)%Z = 0%Z /\
  angle_calc (293, 240)%Z (293, 120)%Z (293, 180)%Z = 0%Z.
Proof. split; apply (angle_calc_aligned _ _ _ 14400); reflexivity. Qed.

Lemma standing_straight_elbow_angles :
  angle_calc (347, 240)%Z (347, 180)%Z (347, 120)%Z = 180%Z /\
  angle_calc (293, 240)%Z (293, 180)%Z (293, 120)%Z = 180%Z.
Proof. split; apply (angle_calc_opposite _ _ _ 7200); reflexivity. Qed.

Lemma standing_straight_mountain :
  mountain_pose 640 480 (py_get POSE_CONFIG 1%Z ∅) standing_straight
    (347, 120)%Z (293, 120)%Z 120
  = Ok ({[ "feet_score" := 50; "shoulder_score" := 10;
           "left_arm_score" := 0; "right_arm_score" := 0 ]}, 60).
Proof.
  destruct standing_straight_points
    as (Hls & Hrs & Hle & Hre & Hlw & Hrw & Hlh & Hrh & Hla & Hra).
  destruct standing_straight_shoulder_angles as [Hleft Hright].
  rewrite (mountain_pose_formula 640 480 standing_straight _ _ _ _ _ _ _ _ 120
             Hla Hra Hlw Hrw Hle Hre) by lra.
  cbn [fst snd]. rewrite Hleft, Hright.
  rewrite !arm_penalty_zero by lia.
  change (Z.abs (320 - 320)) with 0%Z. change (Z.abs (347 - 293)) with 54%Z.
  replace (Rmax 0.0 (50.0 * (1.0 - 0 / (120 * 0.6)))) with 50
    by (rewrite Rmax_right; lra).
  replace (Rmax 0.0 (20.0 * (1.0 - 54 / (120 * 0.9)))) with 10
    by (rewrite Rmax_right; lra).
  replace (clamp_accuracy (50 + 10 + 0 + 0)) with 60; [reflexivity |].
  unfold clamp_accuracy. rewrite (Rmax_right 0.0) by lra.
  rewrite Rmin_right; lra.
Qed.

Lemma standing_straight_accuracy :
  check_pose_accuracy 640 480 1 (Some (mkResults (Some standing_straight)))
  = Ok (true, 60).
Proof.
  destruct standing_straight_points
    as (Hls & Hrs & _ & _ & _ & _ & Hlh & Hrh & _ & _).
  destruct (check_pose_accuracy_present 640 480 1 standing_straight)
    as (ls & rs & lh & rh & Hls' & Hrs' & Hlh' & Hrh' & ->).
  rewrite Hls in Hls'. rewrite Hrs in Hrs'. rewrite Hlh in Hlh'. rewrite Hrh in Hrh'.
  injection Hls' as <-. injection Hrs' as <-. injection Hlh' as <-. injection Hrh' as <-.
  rewrite standing_straight_torso.
  change (score_level 640 480 1 standing_straight (347, 120)%Z (293, 120)%Z 120)
    with (mountain_pose 640 480 (py_get POSE_CONFIG 1%Z ∅) standing_straight
            (347, 120)%Z (293, 120)%Z 120).
  rewrite standing_straight_mountain. cbn [mbind result_bind].
  unfold ACCURACY_THRESHOLD. rewrite Rleb_true by lra. reflexivity.
Qed.

(** C6 on an upright body with straight arms: the interior angle at each
    elbow is 180 degrees, for which the stated formula gives 11.25 points per
    arm, but [mountain_pose] measures the angle at the shoulder (0 degrees)
    and gives each arm 0 points; the frame scores 60 instead of 82.5. *)
Theorem mountain_arm_angle_taken_at_shoulder :
  exists sub_scores,
    mountain_pose 640 480 (py_get POSE_CONFIG 1%Z ∅) standing_straight
      (347, 120)%Z (293, 120)%Z 120 = Ok (sub_scores, 60) /\
    sub_scores !! "left_arm_score" = Some 0 /\
    sub_scores !! "right_arm_score" = Some 0 /\
    angle_calc (347, 240)%Z (347, 180)%Z (347, 120)%Z = 180%Z /\
    angle_calc (293, 240)%Z (293, 180)%Z (293, 120)%Z = 180%Z /\
    arm_score_at_elbow (347, 240)%Z (347, 180)%Z (347, 120)%Z = 11.25 /\
    arm_score_at_elbow (293, 240)%Z (293, 180)%Z (293, 120)%Z = 11.25 /\
    check_pose_accuracy 640 480 1 (Some (mkResults (Some standing_straight)))
      = Ok (true, 60).
Proof.
  destruct standing_straight_elbow_angles as [Hleft_elbow Hright_elbow].
  assert (Hclaimed : Rmax 0 (15 * (1 - IZR (Z.abs (180 - 170)) / 40)) = 11.25).
  { change (Z.abs (180 - 170)) with 10%Z. rewrite Rmax_right; lra. }
  eexists. split; [exact standing_straight_mountain |].
  split; [reflexivity |]. split; [reflexivity |].
  split; [exact Hleft_elbow |]. split; [exact Hright_elbow |].
  unfold arm_score_at_elbow. rewrite Hleft_elbow, Hright_elbow.
  split; [exact Hclaimed |]. split; [exact Hclaimed |].
  exact standing_straight_accuracy.
Qed.

(** ** Smoothing *)

Lemma foldl_Rplus (l : list R) (a : R) : foldl Rplus a l = a + foldr Rplus 0 l.
Proof.
  revert a. induction l as [| x l IH]; intros a; cbn [foldl foldr].
  - ring.
  - rewrite IH. ring.
Qed.

Lemma py_sum_foldr (l : list R) : py_sum l = foldr Rplus 0 l.
Proof. unfold py_sum. rewrite foldl_Rplus. ring. Qed.

Lemma deque_append_window (h : list R) (x : R) :
  deque_append SMOOTHING_WINDOW h x =
  if (length h <? 4)%nat then h ++ [x] else tail h ++ [x].
Proof. reflexivity. Qed.

Lemma deque_append_length (h : list R) (x : R) :
  (1 <= length (deque_append SMOOTHING_WINDOW h x))%nat /\
  ((length h <= 4)%nat -> (length (deque_append SMOOTHING_WINDOW h x) <= 4)%nat).
Proof.
  rewrite deque_append_window.
  destruct (Nat.ltb_spec (length h) 4) as [Hlt | Hge].
  - rewrite length_app. cbn [length]. lia.
  - rewrite length_app. destruct h; cbn [tail length] in *; lia.
Qed.

Lemma py_mean (h : list R) :
  (1 <= length h)%nat -> py_div (py_sum h) (INR (length h)) = Ok (mean h).
Proof.
  intros Hlen. rewrite py_div_ok.
  - unfold mean. rewrite py_sum_foldr. reflexivity.
  - apply not_0_INR. lia.
Qed.

(** What [smooth] does, once the scorer has returned [raw]. *)
Lemma smooth_step (level : Z) (hist : gmap Z (list R)) (h : list R) (f : Frame)
    (is_correct_raw : bool) (raw : R) :
  check_pose_accuracy (frame_width f) (frame_height f) level
    (Some (frame_results f)) = Ok (is_correct_raw, raw) ->
  hist !! level = Some h ->
  let h' := deque_append SMOOTHING_WINDOW h (Rmin 100 (raw * 1.08)) in
  smooth level hist f = Ok (<[level := h']> hist, mean h').
Proof.
  intros Hcheck Hh h'. unfold smooth. rewrite Hcheck. cbn [mbind result_bind].
  assert (Hraw : match pose_landmarks (frame_results f) with
                 | Some _ => raw
                 | None => 0.0
                 end = raw).
  { destruct (frame_results f) as [[lms |]]; cbn [pose_landmarks] in *;
      [reflexivity |].
    cbn in Hcheck. injection Hcheck as _ <-. reflexivity. }
  rewrite Hraw. unfold py_getitem. rewrite Hh. cbn [mbind result_bind].
  replace (Rmin 100.0 (raw * SENSITIVITY)) with (Rmin 100 (raw * 1.08))
    by (f_equal; lra).
  fold h'. rewrite py_mean by apply deque_append_length. reflexivity.
Qed.

(** C3: the smoothing step appends [min(100, raw * 1.08)] to the history of
    the current level, a window of the last 4 values, and the smoothed
    accuracy is the arithmetic mean of that window; four values 80 appended to
    an empty window give mean 80, and a fifth value 0 drops the first 80 and
    gives mean 60. *)
Theorem smoothing_window_mean
    (level : Z) (hist : gmap Z (list R)) (h : list R) (f : Frame) :
  (0 < Z.max (frame_height f) (frame_width f))%Z ->
  hist !! level = Some h ->
  (exists is_correct_raw raw,
     check_pose_accuracy (frame_width f) (frame_height f) level
       (Some (frame_results f)) = Ok (is_correct_raw, raw) /\
     let adjusted := Rmin 100 (raw * 1.08) in
     let h' := if (length h <? 4)%nat then h ++ [adjusted]
               else tail h ++ [adjusted] in
     smooth level hist f = Ok (<[level := h']> hist, mean h') /\
     adjusted <= 100 /\
     ((length h <= 4)%nat -> (length h' <= 4)%nat)) /\
  (let window := foldl (deque_append SMOOTHING_WINDOW) [] [80; 80; 80; 80] in
   window = [80; 80; 80; 80] /\
   py_div (py_sum window) (INR (length window)) = Ok 80 /\
   deque_append SMOOTHING_WINDOW window 0 = [80; 80; 80; 0] /\
   py_div (py_sum [80; 80; 80; 0]) (INR (length [80; 80; 80; 0])) = Ok 60).
Proof.
  intros Hframe Hh. split.
  - destruct (check_pose_accuracy_returns (frame_width f) (frame_height f) level
                (Some (frame_results f))) as (is_correct_raw & raw & Hcheck & _);
      [assumption |].
    exists is_correct_raw, raw. split; [exact Hcheck |]. cbv zeta.
    rewrite <- deque_append_window.
    split; [apply (smooth_step _ _ _ _ _ _ Hcheck Hh) |].
    split; [apply Rmin_l | apply deque_append_length].
  - cbv zeta. split; [reflexivity |].
    change (foldl (deque_append SMOOTHING_WINDOW) [] [80; 80; 80; 80])
      with [80; 80; 80; 80].
    split; [| split; [reflexivity |]].
    + rewrite py_mean by (cbn; lia). f_equal. unfold mean. cbn. lra.
    + rewrite py_mean by (cbn; lia). f_equal. unfold mean. cbn. lra.
Qed.

(** ** Level progression *)

Lemma completions_app (said1 said2 : list Event) :
  completions (said1 ++ said2) = (completions said1 + completions said2)%nat.
Proof.
  induction said1 as [| e said1 IH]; cbn [app completions]; [reflexivity |].
  rewrite IH. lia.
Qed.

Lemma required_time_table :
  required_time 1 = 2 /\ required_time 2 = 3 /\ required_time 3 = 2.5 /\
  required_time 4 = 2 /\ required_time 5 = 3.
Proof.
  change (required_time 1) with 2.0. change (required_time 2) with 3.0.
  change (required_time 3) with 2.5. change (required_time 4) with 2.0.
  change (required_time 5) with 3.0.
  repeat split; lra.
Qed.

Lemma level_cases (level : Z) :
  (1 <= level <= 5)%Z ->
  level = 1%Z \/ level = 2%Z \/ level = 3%Z \/ level = 4%Z \/ level = 5%Z.
Proof. lia. Qed.

Lemma timing_settings_level (level : Z) :
  (1 <= level <= 5)%Z ->
  py_getitem timing_settings level = Ok (required_time level) /\
  0 < required_time level.
Proof.
  intros Hlevel. pose proof required_time_table as (H1 & H2 & H3 & H4 & H5).
  destruct (level_cases level Hlevel) as [-> | [-> | [-> | [-> | ->]]]];
    (split; [reflexivity | lra]).
Qed.

Lemma timing_settings_inv (level : Z) (r : R) :
  py_getitem timing_settings level = Ok r -> r = required_time level.
Proof.
  unfold py_getitem, required_time, py_get.
  destruct (timing_settings !! level); [| discriminate].
  intros [= ->]. reflexivity.
Qed.

Lemma announcements_level (level : Z) :
  (1 <= level <= 5)%Z ->
  exists sound instruction,
    py_getitem pose_sounds level = Ok sound /\
    py_getitem voice_instructions level = Ok instruction.
Proof.
  intros Hlevel.
  destruct (level_cases level Hlevel) as [-> | [-> | [-> | [-> | ->]]]];
    eexists _, _; split; reflexivity.
Qed.

Lemma on_key_no_key (st : State) : on_key st no_key = Ok (st, [], false).
Proof. reflexivity. Qed.

(** A correct frame on which the hold is still too short. *)
Lemma loop_body_holding (st : State) (f : Frame)
    (hist' : gmap Z (list R)) (smoothed : R) :
  let level := current_level st in
  let start := if pose_correct st then pose_hold_time st else t_hold_start f in
  smooth level (accuracy_history st) f = Ok (hist', smoothed) ->
  ACCURACY_THRESHOLD <= smoothed ->
  key f = no_key ->
  (1 <= level <= 5)%Z ->
  t_hold_check f - start < required_time level ->
  loop_body st f =
    Ok (mkOutcome
          (mkState level start true (level_complete st) 0 hist' (DEBUG_METRICS st))
          (if pose_correct st then [] else [SpeakPoseFeedback true level])
          smoothed true (Some (t_hold_check f - start)) false).
Proof.
  intros level start Hsmooth Hcorrect Hkey Hlevel Hshort.
  destruct (timing_settings_level level Hlevel) as [Htime Hpos].
  unfold loop_body. fold level. rewrite Hsmooth. cbn [mbind result_bind].
  rewrite Rleb_true by assumption. rewrite Htime. cbn [mbind result_bind].
  unfold on_correct. fold level. subst start.
  destruct (pose_correct st); rewrite Htime; cbn [mbind result_bind];
    rewrite py_div_ok by lra; cbn [mbind result_bind];
    rewrite Rleb_false by assumption; cbn [andb mbind result_bind];
    rewrite Hkey, on_key_no_key; cbn [mbind result_bind];
    rewrite app_nil_r; reflexivity.
Qed.

(** A correct frame on which the hold has lasted long enough. *)
Lemma loop_body_firing (st : State) (f : Frame)
    (hist' : gmap Z (list R)) (smoothed : R) :
  let level := current_level st in
  let start := if pose_correct st then pose_hold_time st else t_hold_start f in
  smooth level (accuracy_history st) f = Ok (hist', smoothed) ->
  ACCURACY_THRESHOLD <= smoothed ->
  key f = no_key ->
  (1 <= level <= 5)%Z ->
  level_complete st = false ->
  required_time level <= t_hold_check f - start ->
  exists said,
    loop_body st f =
      Ok (mkOutcome
            (mkState (if (level <? 5)%Z then level + 1 else 1) start false false 0
               hist' (DEBUG_METRICS st))
            said smoothed true (Some (t_hold_check f - start)) false) /\
    completions said = 1%nat /\
    (level = 5%Z -> SpeakText restart_message ∈ said).
Proof.
  intros level start Hsmooth Hcorrect Hkey Hlevel Hflag Hlong.
  destruct (timing_settings_level level Hlevel) as [Htime Hpos].
  unfold loop_body. fold level. rewrite Hsmooth. cbn [mbind result_bind].
  rewrite Rleb_true by assumption. rewrite Htime. cbn [mbind result_bind].
  unfold on_correct. fold level. subst start. rewrite Hflag.
  destruct (Z.ltb_spec level 5) as [Hlt | Hge].
  - destruct (announcements_level (level + 1)) as (sound & instruction & Hs & Hi);
      [lia |].
    destruct (pose_correct st); rewrite Htime; cbn [mbind result_bind];
      rewrite py_div_ok by lra; cbn [mbind result_bind];
      rewrite Rleb_true by assumption; cbn [andb negb mbind result_bind];
      rewrite Hs, Hi; cbn [mbind result_bind];
      rewrite Hkey, on_key_no_key; cbn [mbind result_bind];
      rewrite app_nil_r; eexists; (split; [reflexivity |]);
      (split; [reflexivity | intros Hfive; lia]).
  - destruct (pose_correct st); rewrite Htime; cbn [mbind result_bind];
      rewrite py_div_ok by lra; cbn [mbind result_bind];
      rewrite Rleb_true by assumption; cbn [andb negb mbind result_bind];
      rewrite Hkey, on_key_no_key; cbn [mbind result_bind];
      rewrite app_nil_r; eexists; (split; [reflexivity |]);
      (split; [reflexivity | intros _; rewrite elem_of_app, !elem_of_cons; auto]).
Qed.

Lemma on_key_completions (st st' : State) (k : Z) (said : list Event) (stop : bool) :
  on_key st k = Ok (st', said, stop) ->
  completions said = 0%nat /\
  pose_hold_time st' = pose_hold_time st /\
  (pose_correct st = false -> pose_correct st' = false) /\
  (level_complete st = false -> level_complete st' = false).
Proof.
  unfold on_key.
  destruct (k =? 113)%Z; [intros [= <- <- <-]; auto |].
  destruct (k =? 114)%Z; [intros [= <- <- <-]; auto |].
  destruct (k =? 100)%Z; [intros [= <- <- <-]; auto |].
  destruct ((49 <=? k)%Z && (k <=? 53)%Z); [| intros [= <- <- <-]; auto].
  destruct ((1 <=? k - 48)%Z && (k - 48 <=? 5)%Z); [| intros [= <- <- <-]; auto].
  destruct (py_getitem pose_sounds (k - 48)%Z); [| discriminate].
  destruct (py_getitem voice_instructions (k - 48)%Z); [| discriminate].
  cbn [mbind result_bind]. intros [= <- <- <-]. auto.
Qed.

(** A frame that starts a new hold completes the level only if the clock
    moves by the whole required time between lines 713 and 716. *)
Lemma no_completion_on_fresh_hold (st : State) (f : Frame) (out : Outcome) :
  pose_correct st = false ->
  loop_body st f = Ok out ->
  t_hold_check f - t_hold_start f < required_time (current_level st) ->
  completions (spoken out) = 0%nat.
Proof.
  intros Hfresh Hloop Hshort. unfold loop_body in Hloop.
  destruct (smooth _ _ f) as [[hist smoothed] |]; [| discriminate].
  cbn [mbind result_bind] in Hloop.
  destruct (py_getitem timing_settings (current_level st)) as [shown |] eqn:Htime;
    [| discriminate].
  cbn [mbind result_bind] in Hloop.
  apply timing_settings_inv in Htime as Hshown.
  destruct (Rleb ACCURACY_THRESHOLD smoothed).
  - unfold on_correct in Hloop. rewrite Hfresh, Htime in Hloop.
    cbn [mbind result_bind] in Hloop.
    destruct (py_div _ shown); [| discriminate].
    cbn [mbind result_bind] in Hloop.
    rewrite Rleb_false in Hloop by (subst shown; assumption).
    cbn [andb mbind result_bind] in Hloop.
    destruct (on_key _ (key f)) as [[[st2 said2] stop] |] eqn:Hkey; [| discriminate].
    cbn [mbind result_bind] in Hloop. injection Hloop as <-.
    cbn [spoken]. rewrite ?completions_app. cbn [app completions is_completion].
    apply on_key_completions in Hkey as [Hzero _]. rewrite ?Hzero. reflexivity.
  - unfold on_incorrect in Hloop. rewrite Hfresh in Hloop.
    destruct (Reqb (last_incorrect_feedback_time st) 0
              || Rltb 2.0 (t_incorrect f - last_incorrect_feedback_time st));
      cbn [mbind result_bind] in Hloop;
      (destruct (on_key _ (key f)) as [[[st2 said2] stop] |] eqn:Hkey;
         [| discriminate]);
      cbn [mbind result_bind] in Hloop; injection Hloop as <-;
      cbn [spoken]; rewrite ?completions_app; cbn [app completions is_completion];
      apply on_key_completions in Hkey as [Hzero _]; rewrite ?Hzero; reflexivity.
Qed.

(** One hold, from its first correct frame to the frame on which the required
    time has passed. *)
Lemma run_one_hold (frames : list Frame) (last : Frame) (st : State) :
  let level := current_level st in
  let start := if pose_correct st then pose_hold_time st
               else t_hold_start (hd last frames) in
  (1 <= level <= 5)%Z ->
  level_complete st = false ->
  Forall (fun f => key f = no_key) (frames ++ [last]) ->
  held level (accuracy_history st) (frames ++ [last]) ->
  Forall (fun f => t_hold_check f - start < required_time level) frames ->
  required_time level <= t_hold_check last - start ->
  exists st' said,
    run st (frames ++ [last]) = Ok (st', said) /\
    completions said = 1%nat /\
    current_level st' = (if (level <? 5)%Z then level + 1 else 1)%Z /\
    pose_correct st' = false /\
    level_complete st' = false /\
    (level = 5%Z -> SpeakText restart_message ∈ said).
Proof.
  revert st. induction frames as [| f rest IH];
    intros st level start Hlevel Hflag Hkeys Hheld Hshort Hlong.
  - cbn [app hd] in *. destruct Hheld as (hist' & smoothed & Hsmooth & Hcorrect & _).
    apply Forall_cons in Hkeys as [Hkey _].
    destruct (loop_body_firing st last hist' smoothed
                Hsmooth Hcorrect Hkey Hlevel Hflag Hlong)
      as (said & Hloop & Hcount & Hrestart).
    cbn [run]. rewrite Hloop. cbn [mbind result_bind quit next_state spoken].
    eexists _, _. split; [reflexivity |].
    rewrite app_nil_r. cbn [current_level pose_correct level_complete]. auto.
  - cbn [app hd] in *.
    destruct Hheld as (hist' & smoothed & Hsmooth & Hcorrect & Hheld).
    apply Forall_cons in Hkeys as [Hkey Hkeys].
    apply Forall_cons in Hshort as [Hshort_f Hshort].
    pose proof (loop_body_holding st f hist' smoothed
                  Hsmooth Hcorrect Hkey Hlevel Hshort_f) as Hloop.
    fold level start in Hloop.
    cbn [run]. rewrite Hloop. cbn [mbind result_bind quit next_state spoken].
    rewrite Hflag.
    destruct (IH (mkState level start true false 0 hist' (DEBUG_METRICS st)))
      as (st' & said & Hrun & Hcount & Hnext & Hpc & Hlc & Hrestart);
      cbn [current_level pose_correct pose_hold_time level_complete accuracy_history];
      try assumption; try reflexivity.
    rewrite Hrun. cbn [mbind result_bind].
    eexists _, _. split; [reflexivity |].
    rewrite completions_app, Hcount.
    split; [destruct (pose_correct st); reflexivity |].
    split; [exact Hnext |]. split; [exact Hpc |]. split; [exact Hlc |].
    intros Hfive. apply elem_of_app. right. auto.
Qed.

(** C4: while the smoothed accuracy stays at or above 55, the first frame on
    which the hold has lasted the required time of the level (2, 3, 2.5, 2 and
    3 seconds for levels 1 to 5) completes the level exactly once: the level
    becomes the next one, or 1 after level 5 with the restart message, both
    flags are cleared, and the next frame cannot complete a level again
    without a new hold of the required time. *)
Theorem level_completion_fires_once
    (st : State) (frames : list Frame) (last : Frame) :
  let level := current_level st in
  let start := if pose_correct st then pose_hold_time st
               else t_hold_start (hd last frames) in
  (1 <= level <= 5)%Z ->
  level_complete st = false ->
  Forall (fun f => key f = no_key) (frames ++ [last]) ->
  held level (accuracy_history st) (frames ++ [last]) ->
  Forall (fun f => t_hold_check f - start < required_time level) frames ->
  required_time level <= t_hold_check last - start ->
  (required_time 1 = 2 /\ required_time 2 = 3 /\ required_time 3 = 2.5 /\
   required_time 4 = 2 /\ required_time 5 = 3) /\
  exists st' said,
    run st (frames ++ [last]) = Ok (st', said) /\
    completions said = 1%nat /\
    current_level st' = (if (level <? 5)%Z then level + 1 else 1)%Z /\
    pose_correct st' = false /\
    level_complete st' = false /\
    (level = 5%Z -> SpeakText restart_message ∈ said) /\
    (forall f out,
       loop_body st' f = Ok out ->
       t_hold_check f - t_hold_start f < required_time (current_level st') ->
       completions (spoken out) = 0%nat).
Proof.
  intros level start Hlevel Hflag Hkeys Hheld Hshort Hlong.
  split; [exact required_time_table |].
  destruct (run_one_hold frames last st Hlevel Hflag Hkeys Hheld Hshort Hlong)
    as (st' & said & Hrun & Hcount & Hnext & Hpc & Hlc & Hrestart).
  exists st', said. repeat (split; [assumption |]).
  intros f out Hloop Hfresh.
  exact (no_completion_on_fresh_hold st' f out Hpc Hloop Hfresh).
Qed.

(** ** Losing the pose *)

(** The parts of an iteration that returned. *)
Lemma loop_body_inv (st : State) (f : Frame) (out : Outcome) :
  loop_body st f = Ok out ->
  exists hist st1 said1 said2,
    smooth (current_level st) (accuracy_history st) f
      = Ok (hist, smoothed_accuracy out) /\
    is_correct out = Rleb ACCURACY_THRESHOLD (smoothed_accuracy out) /\
    (if is_correct out
     then exists hold, on_correct st f hist = Ok (st1, said1, hold) /\
                       hold_duration out = Some hold
     else on_incorrect st f hist = (st1, said1) /\ hold_duration out = None) /\
    on_key st1 (key f) = Ok (next_state out, said2, quit out) /\
    spoken out = said1 ++ said2.
Proof.
  intros Hloop. unfold loop_body in Hloop.
  destruct (smooth _ _ f) as [[hist smoothed] |] eqn:Hsmooth; [| discriminate].
  cbn [mbind result_bind] in Hloop.
  destruct (py_getitem timing_settings (current_level st)); [| discriminate].
  cbn [mbind result_bind] in Hloop.
  destruct (Rleb ACCURACY_THRESHOLD smoothed) eqn:Hcorrect.
  - destruct (on_correct st f hist) as [[[st1 said1] hold] |] eqn:Hbranch;
      [| discriminate].
    cbn [mbind result_bind] in Hloop.
    destruct (on_key st1 (key f)) as [[[st2 said2] stop] |] eqn:Hkey;
      [| discriminate].
    cbn [mbind result_bind] in Hloop. injection Hloop as <-.
    exists hist, st1, said1, said2.
    cbn [smoothed_accuracy is_correct hold_duration next_state quit spoken].
    rewrite Hcorrect. split; [reflexivity |]. split; [reflexivity |].
    split; [exists hold; split; [exact Hbranch | reflexivity] |].
    split; [exact Hkey | reflexivity].
  - destruct (on_incorrect st f hist) as [st1 said1] eqn:Hbranch.
    cbn [mbind result_bind] in Hloop.
    destruct (on_key st1 (key f)) as [[[st2 said2] stop] |] eqn:Hkey;
      [| discriminate].
    cbn [mbind result_bind] in Hloop. injection Hloop as <-.
    exists hist, st1, said1, said2.
    cbn [smoothed_accuracy is_correct hold_duration next_state quit spoken].
    rewrite Hcorrect. split; [reflexivity |]. split; [reflexivity |].
    split; [split; [exact Hbranch | reflexivity] |].
    split; [exact Hkey | reflexivity].
Qed.

Lemma on_incorrect_flags (st : State) (f : Frame) (hist : gmap Z (list R))
    (st1 : State) (said1 : list Event) :
  on_incorrect st f hist = (st1, said1) ->
  pose_correct st1 = false /\ level_complete st1 = false.
Proof.
  unfold on_incorrect.
  destruct (pose_correct st);
    [| destruct (Reqb (last_incorrect_feedback_time st) 0
                 || Rltb 2.0 (t_incorrect f - last_incorrect_feedback_time st))];
    intros [= <- <-]; auto.
Qed.

Lemma on_correct_fresh (st : State) (f : Frame) (hist : gmap Z (list R))
    (st1 : State) (said1 : list Event) (hold : R) :
  pose_correct st = false ->
  on_correct st f hist = Ok (st1, said1, hold) ->
  hold = t_hold_check f - t_hold_start f /\ pose_hold_time st1 = t_hold_start f.
Proof.
  intros Hfresh. unfold on_correct. rewrite Hfresh.
  destruct (py_getitem timing_settings (current_level st)) as [required |];
    [| discriminate].
  cbn [mbind result_bind].
  destruct (py_div _ required); [| discriminate].
  cbn [mbind result_bind].
  destruct (Rleb required _ && negb (level_complete st)).
  - destruct (current_level st <? 5)%Z.
    + destruct (py_getitem pose_sounds _); [| discriminate].
      destruct (py_getitem voice_instructions _); [| discriminate].
      cbn [mbind result_bind]. intros [= <- <- <-]. auto.
    + intros [= <- <- <-]. auto.
  - intros [= <- <- <-]. auto.
Qed.

Lemma incorrect_frame_clears (st : State) (f : Frame) (out : Outcome) :
  loop_body st f = Ok out ->
  smoothed_accuracy out < ACCURACY_THRESHOLD ->
  is_correct out = false /\
  pose_correct (next_state out) = false /\
  level_complete (next_state out) = false.
Proof.
  intros Hloop Hlow.
  destruct (loop_body_inv st f out Hloop)
    as (hist & st1 & said1 & said2 & _ & Hjudged & Hbranch & Hkey & _).
  rewrite Rleb_false in Hjudged by assumption.
  rewrite Hjudged in Hbranch. destruct Hbranch as [Hbranch _].
  apply on_incorrect_flags in Hbranch as [Hpc Hlc].
  apply on_key_completions in Hkey as (_ & _ & Hpc' & Hlc').
  auto.
Qed.

Lemma fresh_hold_starts_now (st : State) (f : Frame) (out : Outcome) :
  pose_correct st = false ->
  loop_body st f = Ok out ->
  ACCURACY_THRESHOLD <= smoothed_accuracy out ->
  hold_duration out = Some (t_hold_check f - t_hold_start f) /\
  pose_hold_time (next_state out) = t_hold_start f.
Proof.
  intros Hfresh Hloop Hhigh.
  destruct (loop_body_inv st f out Hloop)
    as (hist & st1 & said1 & said2 & _ & Hjudged & Hbranch & Hkey & _).
  rewrite Rleb_true in Hjudged by assumption.
  rewrite Hjudged in Hbranch. destruct Hbranch as (hold & Hbranch & ->).
  apply (on_correct_fresh _ _ _ _ _ _ Hfresh) in Hbranch as [-> Hstart].
  apply on_key_completions in Hkey as (_ & -> & _ & _).
  auto.
Qed.

(** C5: a frame whose smoothed accuracy is below 55 is judged incorrect and
    leaves both the pose-correct flag and the level-completion flag cleared,
    whatever they were; the next frame judged correct records its own hold
    start, so its hold duration counts from that frame alone. *)
Theorem incorrect_frame_resets_hold (st : State) (f : Frame) (out : Outcome) :
  loop_body st f = Ok out ->
  smoothed_accuracy out < ACCURACY_THRESHOLD ->
  is_correct out = false /\
  pose_correct (next_state out) = false /\
  level_complete (next_state out) = false /\
  forall f2 out2,
    loop_body (next_state out) f2 = Ok out2 ->
    ACCURACY_THRESHOLD <= smoothed_accuracy out2 ->
    hold_duration out2 = Some (t_hold_check f2 - t_hold_start f2) /\
    pose_hold_time (next_state out2) = t_hold_start f2.
Proof.
  intros Hloop Hlow.
  destruct (incorrect_frame_clears st f out Hloop Hlow) as (Hjudged & Hpc & Hlc).
  repeat (split; [assumption |]).
  intros f2 out2 Hloop2 Hhigh.
  exact (fresh_hold_starts_now _ f2 out2 Hpc Hloop2 Hhigh).
Qed.

(** ** The loop keeps running *)

Lemma initial_state_well_formed : well_formed initial_state.
Proof.
  split; [cbn; lia |]. split; [reflexivity |].
  intros level Hlevel.
  destruct (level_cases level Hlevel) as [-> | [-> | [-> | [-> | ->]]]];
    eexists; reflexivity.
Qed.

Lemma on_correct_returns (st : State) (f : Frame) (hist : gmap Z (list R)) :
  (1 <= current_level st <= 5)%Z ->
  level_complete st = false ->
  exists st1 said1 hold,
    on_correct st f hist = Ok (st1, said1, hold) /\
    (1 <= current_level st1 <= 5)%Z /\
    level_complete st1 = false /\
    accuracy_history st1 = hist.
Proof.
  intros Hlevel Hflag.
  destruct (timing_settings_level _ Hlevel) as [Htime Hpos].
  unfold on_correct. rewrite Hflag.
  destruct (pose_correct st); rewrite Htime; cbn [mbind result_bind];
    rewrite py_div_ok by lra; cbn [mbind result_bind];
    (destruct (Rleb (required_time (current_level st)) _);
       cbn [andb negb];
       [destruct (Z.ltb_spec (current_level st) 5) as [Hlt | Hge];
          [destruct (announcements_level (current_level st + 1))
             as (sound & instruction & -> & ->); [lia |];
           cbn [mbind result_bind] |] |]);
    eexists _, _, _; (split; [reflexivity |]);
    cbn [current_level level_complete accuracy_history];
    (split; [lia |]); split; reflexivity.
Qed.

Lemma on_key_returns (st : State) (k : Z) :
  (1 <= current_level st <= 5)%Z ->
  exists st' said stop,
    on_key st k = Ok (st', said, stop) /\
    (1 <= current_level st' <= 5)%Z /\
    accuracy_history st' = accuracy_history st.
Proof.
  intros Hlevel. unfold on_key.
  destruct (k =? 113)%Z; [eexists _, _, _; split; [reflexivity | auto] |].
  destruct (k =? 114)%Z;
    [eexists _, _, _; split; [reflexivity | cbn; split; [lia | reflexivity]] |].
  destruct (k =? 100)%Z; [eexists _, _, _; split; [reflexivity | auto] |].
  destruct ((49 <=? k)%Z && (k <=? 53)%Z);
    [| eexists _, _, _; split; [reflexivity | auto]].
  destruct ((1 <=? k - 48)%Z && (k - 48 <=? 5)%Z) eqn:Hnew;
    [| eexists _, _, _; split; [reflexivity | auto]].
  apply andb_prop in Hnew as [Hlow Hhigh].
  apply Z.leb_le in Hlow, Hhigh.
  destruct (announcements_level (k - 48)) as (sound & instruction & -> & ->);
    [lia |].
  cbn [mbind result_bind].
  eexists _, _, _. split; [reflexivity |]. cbn. split; [lia | reflexivity].
Qed.

(** On a frame that is not empty the iteration returns, and what it leaves
    is well formed again. *)
Lemma loop_body_returns (st : State) (f : Frame) :
  well_formed st ->
  (0 < Z.max (frame_height f) (frame_width f))%Z ->
  exists out, loop_body st f = Ok out /\ well_formed (next_state out).
Proof.
  intros (Hlevel & Hflag & Hhist) Hframe.
  destruct (Hhist _ Hlevel) as [h Hh].
  destruct (check_pose_accuracy_returns (frame_width f) (frame_height f)
              (current_level st) (Some (frame_results f)) Hframe)
    as (is_correct_raw & raw & Hcheck & _).
  pose proof (smooth_step _ _ _ _ _ _ Hcheck Hh) as Hsmooth. cbv zeta in Hsmooth.
  destruct (timing_settings_level _ Hlevel) as [Htime _].
  set (hist' := <[current_level st := _]> (accuracy_history st)) in Hsmooth.
  assert (Hhist' : forall level, (1 <= level <= 5)%Z -> is_Some (hist' !! level)).
  { intros level Hl. unfold hist'.
    destruct (Z.eq_dec (current_level st) level) as [-> | Hne].
    - rewrite lookup_insert_eq. eauto.
    - rewrite lookup_insert_ne by assumption. auto. }
  unfold loop_body. rewrite Hsmooth. cbn [mbind result_bind].
  rewrite Htime. cbn [mbind result_bind].
  assert (Hbranch : exists st1 said1 held1,
            (if Rleb ACCURACY_THRESHOLD
                  (mean (deque_append SMOOTHING_WINDOW h (Rmin 100 (raw * 1.08))))
             then '(st1, said1, hold) ← on_correct st f hist';
                  Ok (st1, said1, Some hold)
             else let '(st1, said1) := on_incorrect st f hist' in
                  Ok (st1, said1, None)) = Ok (st1, said1, held1) /\
            (1 <= current_level st1 <= 5)%Z /\
            level_complete st1 = false /\
            accuracy_history st1 = hist').
  { destruct (Rleb ACCURACY_THRESHOLD _).
    - destruct (on_correct_returns st f hist' Hlevel Hflag)
        as (st1 & said1 & hold & -> & H1 & H2 & H3).
      cbn [mbind result_bind]. eexists _, _, _. split; [reflexivity | auto].
    - destruct (on_incorrect st f hist') as [st1 said1] eqn:Hinc.
      eexists _, _, _. split; [reflexivity |].
      apply on_incorrect_flags in Hinc as Hflags. destruct Hflags as [_ Hlc].
      unfold on_incorrect in Hinc.
      destruct (pose_correct st);
        [| destruct (Reqb (last_incorrect_feedback_time st) 0
                     || Rltb 2.0 (t_incorrect f - last_incorrect_feedback_time st))];
        injection Hinc as <- _; cbn; auto. }
  destruct Hbranch as (st1 & said1 & held1 & -> & Hlevel1 & Hflag1 & Hhist1).
  cbn [mbind result_bind].
  destruct (on_key_returns st1 (key f) Hlevel1)
    as (st2 & said2 & stop & Hkey & Hlevel2 & Hhist2).
  rewrite Hkey. cbn [mbind result_bind].
  eexists. split; [reflexivity |]. cbn [next_state].
  split; [exact Hlevel2 |].
  split; [apply on_key_completions in Hkey as (_ & _ & _ & Hlc); auto |].
  rewrite Hhist2, Hhist1. exact Hhist'.
Qed.

(** ** The theorems at concrete inputs *)

Lemma mean_singleton (x : R) : mean [x] = x.
Proof. unfold mean. cbn [foldr length INR]. field. Qed.

Lemma mean_pair (x y : R) : mean [x; y] = (x + y) / 2.
Proof. unfold mean. cbn [foldr length INR]. field. Qed.

Lemma upright_frames_held :
  held 1 (accuracy_history initial_state) [upright_frame 10; upright_frame 12].
Proof.
  assert (Hadjusted : Rmin 100 (60 * 1.08) = 64.8) by (rewrite Rmin_right; lra).
  cbn [held]. eexists _, _. split.
  { apply (smooth_step 1 _ [] (upright_frame 10) true 60);
      [exact standing_straight_accuracy | reflexivity]. }
  rewrite Hadjusted.
  change (deque_append SMOOTHING_WINDOW [] 64.8) with [64.8].
  rewrite mean_singleton. split; [unfold ACCURACY_THRESHOLD; lra |].
  eexists _, _. split.
  { apply (smooth_step 1 _ [64.8] (upright_frame 12) true 60);
      [exact standing_straight_accuracy | apply lookup_insert_eq]. }
  rewrite Hadjusted.
  change (deque_append SMOOTHING_WINDOW [64.8] 64.8) with [64.8; 64.8].
  rewrite mean_pair. split; [unfold ACCURACY_THRESHOLD; lra | exact I].
Qed.

Lemma check_pose_accuracy_range_witness :
  exists is_correct accuracy,
    check_pose_accuracy 640 480 1 (Some (mkResults (Some standing_straight)))
      = Ok (is_correct, accuracy) /\
    0 <= accuracy <= 100.
Proof.
  apply (check_pose_accuracy_range 640 480 1
           (Some (mkResults (Some standing_straight)))).
  reflexivity.
Defined.

Lemma level_completion_fires_once_witness :
  exists st' said,
    run initial_state [upright_frame 10; upright_frame 12] = Ok (st', said) /\
    completions said = 1%nat /\
    current_level st' = 2%Z.
Proof.
  pose proof required_time_table as (Htwo & _).
  destruct (level_completion_fires_once initial_state
              [upright_frame 10] (upright_frame 12))
    as (_ & st' & said & Hrun & Hcount & Hlevel & _).
  - cbn. lia.
  - reflexivity.
  - repeat constructor.
  - exact upright_frames_held.
  - constructor; [| constructor].
    change (current_level initial_state) with 1%Z. rewrite Htwo.
    cbn [initial_state pose_correct hd upright_frame t_hold_check t_hold_start].
    lra.
  - change (current_level initial_state) with 1%Z. rewrite Htwo.
    cbn [initial_state pose_correct hd upright_frame t_hold_check t_hold_start].
    lra.
  - exists st', said. auto.
Defined.

Lemma angle_calc_interior_angle_witness :
  angle_calc (1, 0)%Z (0, 0)%Z (0, 1)%Z = 90%Z /\
  angle_calc (3, 4)%Z (3, 4)%Z (0, 1)%Z = 0%Z.
Proof.
  destruct (angle_calc_interior_angle (1, 0)%Z (0, 0)%Z (0, 1)%Z) as [Hproper _].
  destruct (angle_calc_interior_angle (3, 4)%Z (3, 4)%Z (0, 1)%Z) as [_ Hdegenerate].
  split.
  - rewrite Hproper by discriminate.
    apply int_of_float_eq. unfold degrees, interior_angle, dot, ray, norm.
    cbn [fst snd]. rewrite !minus_IZR.
    match goal with
    | |- acos ?x * _ / _ = _ => replace x with 0 by (unfold Rdiv; ring)
    end.
    rewrite acos_0. pose proof PI_neq0. field. assumption.
  - apply Hdegenerate. left. reflexivity.
Defined.

Lemma find_point_negative_index_witness :
  find_point 640 480 standing_straight (-33)
  = Ok (scaled 640 480 (mkLandmark 0.5 0.125)).
Proof.
  destruct (find_point_negative_index 640 480 standing_straight (-33))
    as [Hnegative _].
  destruct Hnegative as (_ & landmark & Hlookup & ->); [cbn; lia |].
  injection Hlookup as <-. reflexivity.
Defined.

Lemma find_point_returns_from_minus_length_witness :
  find_point 640 480 standing_straight 40 = Ok (0, 0)%Z /\
  find_point 640 480 standing_straight (-40) = Raise IndexError /\
  exists pt, find_point 640 480 standing_straight 11 = Ok pt /\
    pt = (int_of_float (0.5421875 * 640), int_of_float (0.25 * 480)).
Proof.
  destruct (find_point_returns_from_minus_length 640 480 standing_straight 40)
    as [Hbeyond _].
  destruct (find_point_returns_from_minus_length 640 480 standing_straight (-40))
    as [_ Hbelow].
  destruct (find_point_returns_from_minus_length 640 480 standing_straight 11)
    as [Hinside _].
  split; [| split].
  - destruct Hbeyond as (pt & Hfind & Hzero & _); [cbn; lia |].
    rewrite Hfind, Hzero by (cbn; lia). reflexivity.
  - apply Hbelow. cbn. lia.
  - destruct Hinside as (pt & Hfind & _ & Hlandmark); [cbn; lia |].
    exists pt. split; [exact Hfind |].
    destruct Hlandmark as (landmark & Hl & ->); [cbn; lia |].
    injection Hl as <-. reflexivity.
Defined.

(** * Further properties of the code *)

(** ** More on the geometry toolkit *)

Lemma int_of_float_bounds (x : R) (lo hi : Z) :
  IZR lo <= x <= IZR hi -> (lo <= int_of_float x <= hi)%Z.
Proof.
  intros [Hlo Hhi]. unfold int_of_float.
  destruct (Rleb 0 x).
  - destruct (base_Int_part x) as [Hfloor Hfrac].
    split.
    + apply Z.lt_succ_r. apply lt_IZR. rewrite succ_IZR. lra.
    + apply le_IZR. lra.
  - destruct (base_Int_part (- x)) as [Hfloor Hfrac].
    assert (Hup : (Int_part (- x) <= - lo)%Z) by (apply le_IZR; rewrite opp_IZR; lra).
    assert (Hdown : (- hi <= Int_part (- x))%Z).
    { apply Z.lt_succ_r. apply lt_IZR. rewrite succ_IZR, opp_IZR. lra. }
    lia.
Qed.

(** X1: for a landmark identifier [p >= 0], [find_point] never raises: it
    returns the pixel coordinates of the landmark at position [p] when the
    pose has that many landmarks, and [(0, 0)] otherwise. *)
Theorem find_point_landmark_identifier
    (width height : Z) (lms : list Landmark) (p : Z) :
  (0 <= p)%Z ->
  find_point width height lms p =
    match lms !! Z.to_nat p with
    | Some landmark => Ok (scaled width height landmark)
    | None => Ok (0, 0)%Z
    end.
Proof.
  intros Hp. destruct (lms !! Z.to_nat p) as [landmark |] eqn:Hl.
  - destruct (find_point_inside width height lms p) as (landmark' & Hl' & ->).
    { apply lookup_lt_Some in Hl. lia. }
    congruence.
  - apply find_point_beyond. apply lookup_ge_None in Hl. lia.
Qed.

Lemma scaled_inside (width height : Z) (landmark : Landmark) :
  (0 <= width)%Z -> (0 <= height)%Z ->
  0 <= lm_x landmark <= 1 -> 0 <= lm_y landmark <= 1 ->
  (0 <= fst (scaled width height landmark) <= width)%Z /\
  (0 <= snd (scaled width height landmark) <= height)%Z.
Proof.
  intros Hw Hh Hx Hy. apply IZR_le in Hw, Hh. unfold scaled. cbn [fst snd].
  split; apply int_of_float_bounds; split; nra.
Qed.

(** X2: when every landmark has normalised coordinates between 0 and 1 and
    the frame sides are not negative, each point that [find_point] returns lies
    inside the frame: [0 <= x <= width] and [0 <= y <= height]. *)
Theorem find_point_inside_frame
    (width height : Z) (lms : list Landmark) (p : Z) (pt : Point) :
  (0 <= width)%Z -> (0 <= height)%Z ->
  Forall (fun landmark => 0 <= lm_x landmark <= 1 /\ 0 <= lm_y landmark <= 1) lms ->
  find_point width height lms p = Ok pt ->
  (0 <= fst pt <= width)%Z /\ (0 <= snd pt <= height)%Z.
Proof.
  intros Hw Hh Hall. unfold find_point.
  destruct (p <? Z.of_nat (length lms))%Z; [| intros [= <-]; cbn; lia].
  unfold py_index.
  destruct (_ <? 0)%Z; [discriminate |].
  destruct (lms !! _) as [landmark |] eqn:Hl; [| discriminate].
  cbn [mbind result_bind]. intros [= <-].
  rewrite Forall_forall in Hall.
  destruct (Hall landmark) as [Hx Hy]; [eapply list_elem_of_lookup_2; exact Hl |].
  apply (scaled_inside width height landmark Hw Hh Hx Hy).
Qed.

Lemma angle_calc_try_range (p0 p1 p2 : Point) (angle : R) :
  angle_calc_try p0 p1 p2 = Ok angle -> 0 <= angle <= 180.
Proof.
  unfold angle_calc_try.
  destruct (math_sqrt _) as [root |]; [| discriminate]. cbn [mbind result_bind].
  destruct (py_div _ root) as [ratio |]; [| discriminate]. cbn [mbind result_bind].
  unfold math_acos. destruct (_ && _); [| discriminate]. cbn [mbind result_bind].
  intros [= <-]. pose proof (acos_bound ratio) as [Hlow Hhigh].
  pose proof PI_RGT_0 as Hpi.
  split.
  - apply Rmult_le_pos; [nra | left; apply Rinv_0_lt_compat; lra].
  - apply (Rmult_le_reg_r PI); [lra |].
    replace (acos ratio * 180 / PI * PI) with (acos ratio * 180) by (field; lra).
    nra.
Qed.

(** X3: [angle_calc] returns an integer between 0 and 180, for all points,
    the degenerate ones included. *)
Theorem angle_calc_range (p0 p1 p2 : Point) :
  (0 <= angle_calc p0 p1 p2 <= 180)%Z.
Proof.
  unfold angle_calc. destruct (angle_calc_try p0 p1 p2) as [angle |] eqn:Htry; [| lia].
  apply int_of_float_bounds. apply (angle_calc_try_range _ _ _ _ Htry).
Qed.

(** X4: [angle_calc] does not depend on the order of the two outer points:
    exchanging [p0] and [p2] around the same vertex gives the same angle. *)
Theorem angle_calc_symmetric (p0 p1 p2 : Point) :
  angle_calc p0 p1 p2 = angle_calc p2 p1 p0.
Proof.
  unfold angle_calc, angle_calc_try.
  set (a := ((fst p1 - fst p0) ^ 2 + (snd p1 - snd p0) ^ 2)%Z).
  set (b := ((fst p1 - fst p2) ^ 2 + (snd p1 - snd p2) ^ 2)%Z).
  replace ((fst p0 - fst p2) ^ 2 + (snd p0 - snd p2) ^ 2)%Z
    with ((fst p2 - fst p0) ^ 2 + (snd p2 - snd p0) ^ 2)%Z by ring.
  set (c := ((fst p2 - fst p0) ^ 2 + (snd p2 - snd p0) ^ 2)%Z).
  replace (4 * b * a)%Z with (4 * a * b)%Z by ring.
  replace (b + a - c)%Z with (a + b - c)%Z by ring.
  reflexivity.
Qed.

(** X5: [euclidian] never raises; the distance is the same in both
    directions, is not negative, and is zero exactly when the two points are
    equal. *)
Theorem euclidian_metric (p q : FPoint) :
  exists d,
    euclidian p q = Ok d /\ euclidian q p = Ok d /\ 0 <= d /\
    (d = 0 <-> p = q).
Proof.
  exists (distance p q). split; [apply euclidian_distance |].
  assert (Hsym : distance q p = distance p q).
  { unfold distance. f_equal. ring. }
  split; [rewrite euclidian_distance, Hsym; reflexivity |].
  split; [apply sqrt_pos |].
  unfold distance. destruct p as [px py], q as [qx qy]. cbn [fst snd].
  split.
  - intros Hzero. pose proof (Rle_0_sqr (px - qx)) as Hsx. pose proof (Rle_0_sqr (py - qy)) as Hsy.
    unfold Rsqr in Hsx, Hsy.
    apply sqrt_eq_0 in Hzero; [| lra].
    destruct (Rplus_sqr_eq_0 (px - qx) (py - qy) Hzero) as [Hx Hy].
    f_equal; lra.
  - intros [= -> ->]. replace ((qx - qx) * (qx - qx) + (qy - qy) * (qy - qy)) with 0 by ring.
    apply sqrt_0.
Qed.

(** ** The sub-scores of each pose *)

Lemma penalty_bounds (weight ratio : R) :
  0 <= weight -> 0 <= ratio ->
  0 <= Rmax 0.0 (weight * (1.0 - ratio)) <= weight.
Proof.
  intros Hw Hr. unfold Rmax.
  destruct (Rle_dec 0.0 (weight * (1.0 - ratio))); nra.
Qed.

Lemma ratio_nonneg (x y : R) : 0 <= x -> 0 < y -> 0 <= x / y.
Proof.
  intros Hx Hy. apply Rmult_le_pos; [assumption |].
  left. apply Rinv_0_lt_compat. assumption.
Qed.

Lemma clamp_accuracy_id (accuracy : R) :
  0 <= accuracy <= 100 -> clamp_accuracy accuracy = accuracy.
Proof.
  intros Hrange. unfold clamp_accuracy.
  rewrite (Rmax_right 0.0) by lra. rewrite Rmin_right by lra. reflexivity.
Qed.

Lemma IZR_abs_nonneg (z : Z) : 0 <= IZR (Z.abs z).
Proof. apply IZR_le. lia. Qed.

Ltac penalty_bound weight :=
  match goal with
  | |- 0 <= ?score <= _ =>
      assert (0 <= score <= weight);
      [apply penalty_bounds; [lra |];
       apply ratio_nonneg;
       [first [apply IZR_abs_nonneg | apply Rabs_pos
              | eapply Rle_trans; [| apply Rmax_l]; lra] | lra]
      | lra]
  end.

Section SubScores.

Variables (width height : Z) (lms : list Landmark) (torso_dist : R).
Hypothesis torso_pos : 0 < torso_dist.

(** X6: with a positive torso distance the mountain scorer returns without
    raising; the accuracy is the sum of the four sub-scores it records, and the
    feet, shoulder, left arm and right arm scores lie in [0, 50], [0, 20],
    [0, 15] and [0, 15]. *)
Theorem mountain_pose_sub_scores (ls rs : Point) :
  exists sub_scores feet shoulder left_arm right_arm,
    mountain_pose width height (py_get POSE_CONFIG 1%Z ∅) lms ls rs torso_dist
      = Ok (sub_scores, feet + shoulder + left_arm + right_arm) /\
    sub_scores !! "feet_score" = Some feet /\
    sub_scores !! "shoulder_score" = Some shoulder /\
    sub_scores !! "left_arm_score" = Some left_arm /\
    sub_scores !! "right_arm_score" = Some right_arm /\
    0 <= feet <= 50 /\ 0 <= shoulder <= 20 /\
    0 <= left_arm <= 15 /\ 0 <= right_arm <= 15.
Proof using torso_pos.
  destruct (find_point_total width height lms 27) as [la Hla]; [lia |].
  destruct (find_point_total width height lms 28) as [ra Hra]; [lia |].
  destruct (find_point_total width height lms 15) as [lw Hlw]; [lia |].
  destruct (find_point_total width height lms 16) as [rw Hrw]; [lia |].
  destruct (find_point_total width height lms 13) as [le Hle]; [lia |].
  destruct (find_point_total width height lms 14) as [re Hre]; [lia |].
  rewrite (mountain_pose_formula width height lms ls rs la ra lw rw le re torso_dist
             Hla Hra Hlw Hrw Hle Hre) by lra.
  set (feet := Rmax 0.0 (50.0 * _)). set (shoulder := Rmax 0.0 (20.0 * _)).
  set (left_arm := Rmax 0.0 (15.0 * (1.0 - IZR (Z.abs (angle_calc lw ls le - 170)) / _))).
  set (right_arm := Rmax 0.0 (15.0 * _)).
  assert (Hfeet : 0 <= feet <= 50).
  { penalty_bound 50.0. }
  assert (Hshoulder : 0 <= shoulder <= 20).
  { penalty_bound 20.0. }
  assert (Hleft : 0 <= left_arm <= 15).
  { penalty_bound 15.0. }
  assert (Hright : 0 <= right_arm <= 15).
  { penalty_bound 15.0. }
  rewrite clamp_accuracy_id by lra.
  eexists _, feet, shoulder, left_arm, right_arm.
  split; [reflexivity |]. repeat (split; [reflexivity |]). auto.
Qed.

(** X7: with a positive torso distance the tree scorer returns without
    raising; the accuracy is the sum of the three sub-scores it records: the
    leg score is 0 or 40, the balance and standing scores lie in [0, 30]. *)
Theorem tree_pose_sub_scores :
  exists sub_scores leg balance standing,
    tree_pose width height lms torso_dist
      = Ok (sub_scores, leg + balance + standing) /\
    sub_scores !! "leg_accuracy" = Some leg /\
    sub_scores !! "balance_accuracy" = Some balance /\
    sub_scores !! "standing_accuracy" = Some standing /\
    (leg = 0 \/ leg = 40) /\ 0 <= balance <= 30 /\ 0 <= standing <= 30.
Proof using torso_pos.
  unfold tree_pose. run_scorer.
  match goal with
  | |- context [if ?b then _ else if ?c then _ else _] => destruct b, c
  end; run_scorer;
    match goal with
    | |- context [clamp_accuracy (?l + ?b + ?s)] =>
        assert (Hb : 0 <= b <= 30) by penalty_bound 30.0;
        assert (Hs : 0 <= s <= 30) by penalty_bound 30.0;
        rewrite clamp_accuracy_id by lra;
        eexists _, l, b, s
    end;
    (split; [reflexivity |]); repeat (split; [reflexivity |]);
    (split; [(left; lra) || (right; lra) | auto]).
Qed.

(** X8: the warrior scorer returns without raising for every torso distance;
    the accuracy is the sum of the three sub-scores it records: the leg bend
    score lies in [0, 40], the arms score is 0 or 30 and the stance score is 10
    or 30, so no warrior accuracy is below 10. *)
Theorem warrior_pose_sub_scores :
  exists sub_scores leg_bend arms stance,
    warrior_pose width height lms torso_dist
      = Ok (sub_scores, leg_bend + arms + stance) /\
    sub_scores !! "leg_bend_accuracy" = Some leg_bend /\
    sub_scores !! "arms_accuracy" = Some arms /\
    sub_scores !! "stance_accuracy" = Some stance /\
    0 <= leg_bend <= 40 /\ (arms = 0 \/ arms = 30) /\
    (stance = 10 \/ stance = 30) /\
    10 <= leg_bend + arms + stance.
Proof using Type.
  unfold warrior_pose. run_scorer.
  match goal with
  | |- context [clamp_accuracy (?l + (if ?a then _ else _) + (if ?s then _ else _))] =>
      assert (Hl : 0 <= l <= 40) by penalty_bound 40.0;
      destruct a, s
  end;
    rewrite clamp_accuracy_id by lra;
    eexists _, _, _, _;
    (split; [reflexivity |]); repeat (split; [reflexivity |]);
    (split; [exact Hl |]);
    (split; [(left; lra) || (right; lra) |]);
    (split; [(left; lra) || (right; lra) | lra]).
Qed.

(** X9: with a positive torso distance the child scorer returns without
    raising; the accuracy is the sum of the fold and knee scores it records,
    each in [0, 50]. *)
Theorem child_pose_sub_scores :
  exists sub_scores fold knee,
    child_pose width height lms torso_dist = Ok (sub_scores, fold + knee) /\
    sub_scores !! "fold_accuracy" = Some fold /\
    sub_scores !! "knee_accuracy" = Some knee /\
    0 <= fold <= 50 /\ 0 <= knee <= 50.
Proof using torso_pos.
  unfold child_pose. run_scorer.
  match goal with
  | |- context [if ?b then Ok _ else _] => destruct b
  end; run_scorer;
    match goal with
    | |- context [clamp_accuracy (?f + ?k)] =>
        assert (Hf : 0 <= f <= 50) by penalty_bound 50.0;
        assert (Hk : 0 <= k <= 50) by (lra || penalty_bound 50.0);
        rewrite clamp_accuracy_id by lra;
        eexists _, f, k
    end;
    (split; [reflexivity |]); repeat (split; [reflexivity |]); auto.
Qed.

(** X10: with a positive torso distance the lotus scorer returns without
    raising; the accuracy is the sum of the three sub-scores it records: the
    upright score lies in [0, 50], the spine score in [0, 30] and the legs score
    is 5 or 20, so no lotus accuracy is below 5. *)
Theorem lotus_pose_sub_scores :
  exists sub_scores upright spine legs,
    lotus_pose width height lms torso_dist
      = Ok (sub_scores, upright + spine + legs) /\
    sub_scores !! "upright_accuracy" = Some upright /\
    sub_scores !! "spine_accuracy" = Some spine /\
    sub_scores !! "legs_accuracy" = Some legs /\
    0 <= upright <= 50 /\ 0 <= spine <= 30 /\ (legs = 5 \/ legs = 20) /\
    5 <= upright + spine + legs.
Proof using torso_pos.
  unfold lotus_pose. run_scorer.
  match goal with
  | |- context [clamp_accuracy (?u + ?s + (if ?l then _ else _))] =>
      assert (Hu : 0 <= u <= 50) by penalty_bound 50.0;
      assert (Hs : 0 <= s <= 30) by penalty_bound 30.0;
      destruct l
  end;
    rewrite clamp_accuracy_id by lra;
    eexists _, _, _, _;
    (split; [reflexivity |]); repeat (split; [reflexivity |]);
    (split; [exact Hu |]); (split; [exact Hs |]);
    (split; [(left; lra) || (right; lra) | lra]).
Qed.

End SubScores.

(** ** A skeleton collapsed to one pixel *)

Lemma distance_same (p : FPoint) : distance p p = 0.
Proof.
  unfold distance.
  replace ((fst p - fst p) * (fst p - fst p) + (snd p - snd p) * (snd p - snd p))
    with 0 by ring.
  apply sqrt_0.
Qed.

Lemma angle_calc_same (p : Point) : angle_calc p p p = 0%Z.
Proof.
  unfold angle_calc. rewrite angle_calc_try_degenerate by (left; reflexivity).
  reflexivity.
Qed.

Lemma full_penalty (weight ratio : R) :
  0 <= weight -> 1 <= ratio -> Rmax 0.0 (weight * (1.0 - ratio)) = 0.
Proof. intros Hw Hr. rewrite Rmax_left; nra. Qed.

Lemma no_penalty (weight divisor : R) :
  0 <= weight -> Rmax 0.0 (weight * (1.0 - 0 / divisor)) = weight.
Proof.
  intros Hw. replace (0 / divisor) with 0 by (unfold Rdiv; ring).
  rewrite Rmax_right; lra.
Qed.

Section Collapsed.

Variables (width height : Z) (lms : list Landmark) (pt : Point).
Hypothesis frame_has_pixels : (0 < Z.max height width)%Z.
Hypothesis collapsed :
  forall p, (p = 0 \/ 11 <= p <= 16 \/ 23 <= p <= 28)%Z ->
    find_point width height lms p = Ok pt.

#[local] Abbreviation torso_dist := (quarter_frame width height).

Lemma collapsed_torso : torso_scale width height pt pt pt pt = torso_dist.
Proof using Type.
  unfold torso_scale. rewrite distance_same, Rltb_true by lra. reflexivity.
Qed.

Lemma collapsed_torso_pos : 0 < torso_dist.
Proof using frame_has_pixels.
  unfold quarter_frame. apply IZR_lt in frame_has_pixels. lra.
Qed.

Lemma collapsed_check (pose_level : Z) :
  check_pose_accuracy width height pose_level (Some (mkResults (Some lms))) =
    ('(sub_scores, accuracy) ←
       score_level width height pose_level lms pt pt torso_dist;
     Ok (Rleb ACCURACY_THRESHOLD accuracy, accuracy)).
Proof using collapsed.
  destruct (check_pose_accuracy_present width height pose_level lms)
    as (ls & rs & lh & rh & Hls & Hrs & Hlh & Hrh & ->).
  rewrite collapsed in Hls, Hrs, Hlh, Hrh by lia.
  injection Hls as <-. injection Hrs as <-. injection Hlh as <-. injection Hrh as <-.
  rewrite collapsed_torso. reflexivity.
Qed.

Lemma collapsed_mountain :
  exists sub_scores,
    score_level width height 1 lms pt pt torso_dist = Ok (sub_scores, 70).
Proof using frame_has_pixels collapsed.
  pose proof collapsed_torso_pos as Ht.
  change (score_level width height 1 lms pt pt torso_dist)
    with (mountain_pose width height (py_get POSE_CONFIG 1%Z ∅) lms pt pt torso_dist).
  rewrite (mountain_pose_formula width height lms pt pt pt pt pt pt pt pt torso_dist)
    by (lra || (apply collapsed; lia)).
  rewrite Z.sub_diag, angle_calc_same. change (Z.abs 0) with 0%Z.
  rewrite !no_penalty by lra.
  rewrite full_penalty by (change (Z.abs (0 - 170)) with 170%Z; lra).
  eexists. f_equal. f_equal. rewrite clamp_accuracy_id; lra.
Qed.

Lemma collapsed_tree :
  exists sub_scores,
    score_level width height 2 lms pt pt torso_dist = Ok (sub_scores, 30).
Proof using frame_has_pixels collapsed.
  pose proof collapsed_torso_pos as Ht.
  change (score_level width height 2 lms pt pt torso_dist)
    with (tree_pose width height lms torso_dist).
  unfold tree_pose. rewrite !collapsed by lia. cbn [mbind result_bind].
  rewrite !euclidian_distance, distance_same. cbn [mbind result_bind].
  rewrite Rltb_false by nra.
  rewrite !py_div_ok by lra. cbn [mbind result_bind].
  rewrite Rminus_diag, Rabs_R0, no_penalty by lra.
  replace (Rmax 0 0) with 0 by (rewrite Rmax_left; lra).
  rewrite full_penalty.
  - eexists. f_equal. f_equal. rewrite clamp_accuracy_id; lra.
  - lra.
  - rewrite Rminus_0_l, Rabs_Ropp, Rabs_right by lra.
    right. field. lra.
Qed.

Lemma collapsed_warrior :
  exists sub_scores,
    score_level width height 3 lms pt pt torso_dist = Ok (sub_scores, 30).
Proof using frame_has_pixels collapsed.
  pose proof collapsed_torso_pos as Ht.
  change (score_level width height 3 lms pt pt torso_dist)
    with (warrior_pose width height lms torso_dist).
  unfold warrior_pose. rewrite !collapsed by lia. cbn [mbind result_bind].
  rewrite angle_calc_same, Rltb_false by nra.
  change (Z.abs (Z.min 0 0 - 90)) with 90%Z.
  change (Z.abs (0 - 0) <? 50)%Z with true. cbn [orb].
  rewrite full_penalty by lra.
  eexists. f_equal. f_equal. rewrite clamp_accuracy_id; lra.
Qed.

Lemma collapsed_child :
  exists sub_scores,
    score_level width height 4 lms pt pt torso_dist = Ok (sub_scores, 100).
Proof using frame_has_pixels collapsed.
  pose proof collapsed_torso_pos as Ht.
  change (score_level width height 4 lms pt pt torso_dist)
    with (child_pose width height lms torso_dist).
  unfold child_pose. rewrite !collapsed by lia. cbn [mbind result_bind].
  rewrite Rltb_false by nra. cbn [andb].
  rewrite !py_div_ok by lra. cbn [mbind result_bind].
  rewrite Z.sub_diag. change (Z.abs 0) with 0%Z.
  replace (Rmax 0.0 (IZR (snd pt + snd pt) / 2 - IZR (snd pt))) with 0
    by (rewrite plus_IZR, Rmax_left; lra).
  rewrite !no_penalty by lra.
  eexists. f_equal. f_equal. rewrite clamp_accuracy_id; lra.
Qed.

Lemma collapsed_lotus :
  exists sub_scores,
    score_level width height 5 lms pt pt torso_dist = Ok (sub_scores, 85).
Proof using frame_has_pixels collapsed.
  pose proof collapsed_torso_pos as Ht.
  change (score_level width height 5 lms pt pt torso_dist)
    with (lotus_pose width height lms torso_dist).
  unfold lotus_pose. rewrite !collapsed by lia. cbn [mbind result_bind].
  rewrite !py_div_ok by lra. cbn [mbind result_bind].
  rewrite Z.ltb_irrefl. cbn [andb].
  replace (Rabs (IZR (snd pt) - IZR (snd pt + snd pt) / 2)) with 0
    by (rewrite plus_IZR;
        replace (IZR (snd pt) - (IZR (snd pt) + IZR (snd pt)) / 2) with 0 by lra;
        rewrite Rabs_R0; reflexivity).
  replace (Rabs (IZR (snd pt + snd pt) / 2 - IZR (snd pt))) with 0
    by (rewrite plus_IZR;
        replace ((IZR (snd pt) + IZR (snd pt)) / 2 - IZR (snd pt)) with 0 by lra;
        rewrite Rabs_R0; reflexivity).
  rewrite !no_penalty by lra.
  eexists. f_equal. f_equal. rewrite clamp_accuracy_id; lra.
Qed.

(** X11: when every landmark the scorer reads (identifiers 0, 11 to 16 and 23
    to 28) is found at one and the same point, as for a body huddled into one
    spot or a pose with an empty landmark list, [check_pose_accuracy] accepts
    levels 1, 4 and 5 with accuracies 70, 100 and 85, and rejects levels 2 and 3
    with accuracy 30, in every frame with a positive side. *)
Theorem collapsed_skeleton_scores :
  check_pose_accuracy width height 1 (Some (mkResults (Some lms))) = Ok (true, 70) /\
  check_pose_accuracy width height 2 (Some (mkResults (Some lms))) = Ok (false, 30) /\
  check_pose_accuracy width height 3 (Some (mkResults (Some lms))) = Ok (false, 30) /\
  check_pose_accuracy width height 4 (Some (mkResults (Some lms))) = Ok (true, 100) /\
  check_pose_accuracy width height 5 (Some (mkResults (Some lms))) = Ok (true, 85).
Proof using frame_has_pixels collapsed.
  rewrite !collapsed_check.
  destruct collapsed_mountain as [s1 ->]. destruct collapsed_tree as [s2 ->].
  destruct collapsed_warrior as [s3 ->]. destruct collapsed_child as [s4 ->].
  destruct collapsed_lotus as [s5 ->].
  cbn [mbind result_bind]. unfold ACCURACY_THRESHOLD.
  rewrite (Rleb_true 55.0 70), (Rleb_true 55.0 100), (Rleb_true 55.0 85),
    (Rleb_false 55.0 30) by lra.
  repeat split; reflexivity.
Qed.

End Collapsed.

(** The huddled pose is such a skeleton. *)
Lemma huddled_points (p : Z) :
  (p = 0 \/ 11 <= p <= 16 \/ 23 <= p <= 28)%Z ->
  find_point 640 480 huddled p = Ok (320, 240)%Z.
Proof.
  intros Hp.
  destruct (find_point_inside 640 480 huddled p) as (landmark & Hl & ->).
  { unfold huddled. rewrite length_replicate. lia. }
  unfold huddled in Hl. apply lookup_replicate in Hl as [-> _].
  unfold scaled. cbn [lm_x lm_y].
  f_equal. f_equal; apply int_of_float_eq; lra.
Qed.

Lemma huddled_child :
  check_pose_accuracy 640 480 4 (Some (mkResults (Some huddled))) = Ok (true, 100).
Proof.
  rewrite (collapsed_check 640 480 huddled (320, 240)%Z huddled_points).
  destruct (collapsed_child 640 480 huddled (320, 240)%Z) as [sub_scores ->];
    [reflexivity | exact huddled_points |].
  cbn [mbind result_bind]. unfold ACCURACY_THRESHOLD.
  rewrite Rleb_true by lra. reflexivity.
Qed.

(** ** Levels the scorer does not know *)

(** X12: for a pose level outside 1..5, [check_pose_accuracy] on a frame with
    landmarks returns [(False, 0.0)] and does not raise. *)
Theorem check_pose_accuracy_unknown_level
    (width height pose_level : Z) (lms : list Landmark) :
  (pose_level < 1 \/ 5 < pose_level)%Z ->
  check_pose_accuracy width height pose_level (Some (mkResults (Some lms)))
    = Ok (false, 0.0).
Proof.
  intros Hlevel.
  destruct (check_pose_accuracy_present width height pose_level lms)
    as (ls & rs & lh & rh & _ & _ & _ & _ & ->).
  unfold score_level.
  destruct (Z.eqb_spec pose_level 1) as [-> | _]; [lia |].
  destruct (Z.eqb_spec pose_level 2) as [-> | _]; [lia |].
  destruct (Z.eqb_spec pose_level 3) as [-> | _]; [lia |].
  destruct (Z.eqb_spec pose_level 4) as [-> | _]; [lia |].
  destruct (Z.eqb_spec pose_level 5) as [-> | _]; [lia |].
  cbn [mbind result_bind]. unfold ACCURACY_THRESHOLD.
  rewrite Rleb_false by lra. reflexivity.
Qed.

(** ** The window of samples *)

Lemma deque_append_drop (h : list R) (x : R) :
  (length h <= 4)%nat ->
  deque_append SMOOTHING_WINDOW h x
    = drop (length (h ++ [x]) - 4) (h ++ [x]).
Proof.
  intros Hlen. rewrite deque_append_window, length_app. cbn [length].
  destruct (Nat.ltb_spec (length h) 4) as [Hlt | Hge].
  - replace (length h + 1 - 4)%nat with 0%nat by lia. reflexivity.
  - replace (length h + 1 - 4)%nat with 1%nat by lia.
    destruct h as [| y h]; [cbn in Hge; lia |]. reflexivity.
Qed.

(** X13: appending samples one by one to a history of at most four entries
    leaves exactly the last four of all samples, or all of them when there are
    fewer than four. *)
Theorem window_keeps_last_four (h xs : list R) :
  (length h <= 4)%nat ->
  foldl (deque_append SMOOTHING_WINDOW) h xs
    = drop (length (h ++ xs) - 4) (h ++ xs).
Proof.
  revert h. induction xs as [| x xs IH]; intros h Hlen.
  - cbn [foldl]. rewrite app_nil_r.
    replace (length h - 4)%nat with 0%nat by lia. reflexivity.
  - cbn [foldl]. rewrite IH by apply deque_append_length, Hlen.
    rewrite deque_append_drop by assumption.
    set (k := (length (h ++ [x]) - 4)%nat).
    assert (Hk : (k <= length (h ++ [x]))%nat) by (unfold k; lia).
    rewrite <- drop_app_le by exact Hk.
    rewrite <- (assoc_L app h [x] xs). cbn [app].
    rewrite drop_drop. f_equal.
    rewrite length_drop. rewrite !length_app in *. cbn [length] in *.
    unfold k. rewrite length_app. cbn [length]. lia.
Qed.

Lemma mean_bounds (h : list R) :
  (1 <= length h)%nat -> Forall (fun x => 0 <= x <= 100) h ->
  0 <= mean h <= 100.
Proof.
  intros Hlen Hall.
  assert (Hsum : 0 <= foldr Rplus 0 h <= 100 * INR (length h)).
  { clear Hlen. induction Hall as [| x h Hx _ IH].
    - cbn. lra.
    - cbn [foldr length]. rewrite S_INR. lra. }
  assert (Hn : 0 < INR (length h)) by (apply lt_0_INR; lia).
  unfold mean. split.
  - apply ratio_nonneg; lra.
  - apply (Rmult_le_reg_r (INR (length h))); [exact Hn |].
    replace (foldr Rplus 0 h / INR (length h) * INR (length h))
      with (foldr Rplus 0 h) by (field; lra).
    lra.
Qed.

Lemma deque_append_bounded (h : list R) (x : R) :
  Forall (fun y => 0 <= y <= 100) h -> 0 <= x <= 100 ->
  Forall (fun y => 0 <= y <= 100) (deque_append SMOOTHING_WINDOW h x).
Proof.
  intros Hall Hx. rewrite deque_append_window.
  destruct (length h <? 4)%nat.
  - apply Forall_app. split; [assumption | constructor; [exact Hx | constructor]].
  - apply Forall_app. split; [| constructor; [exact Hx | constructor]].
    destruct Hall; [constructor | assumption].
Qed.

Lemma smooth_inv (level : Z) (hist hist' : gmap Z (list R)) (f : Frame)
    (smoothed : R) :
  smooth level hist f = Ok (hist', smoothed) ->
  exists h raw is_correct_raw,
    check_pose_accuracy (frame_width f) (frame_height f) level
      (Some (frame_results f)) = Ok (is_correct_raw, raw) /\
    hist !! level = Some h /\
    hist' = <[level := deque_append SMOOTHING_WINDOW h (Rmin 100 (raw * 1.08))]> hist /\
    smoothed = mean (deque_append SMOOTHING_WINDOW h (Rmin 100 (raw * 1.08))).
Proof.
  intros Hsmooth.
  destruct (check_pose_accuracy (frame_width f) (frame_height f) level
              (Some (frame_results f))) as [[is_correct_raw raw] |] eqn:Hcheck.
  2: { unfold smooth in Hsmooth. rewrite Hcheck in Hsmooth. discriminate. }
  destruct (hist !! level) as [h |] eqn:Hh.
  2: { unfold smooth, py_getitem in Hsmooth. rewrite Hcheck, Hh in Hsmooth.
       discriminate. }
  rewrite (smooth_step level hist h f is_correct_raw raw Hcheck Hh) in Hsmooth.
  injection Hsmooth as <- <-. eauto 10.
Qed.

Lemma on_correct_history (st : State) (f : Frame) (hist : gmap Z (list R))
    (st1 : State) (said1 : list Event) (hold : R) :
  on_correct st f hist = Ok (st1, said1, hold) ->
  accuracy_history st1 = hist /\
  last_incorrect_feedback_time st1 = 0.
Proof.
  unfold on_correct.
  destruct (pose_correct st);
    (destruct (py_getitem timing_settings (current_level st)) as [required |];
       [| discriminate]);
    cbn [mbind result_bind];
    (destruct (py_div _ required); [| discriminate]);
    cbn [mbind result_bind];
    (destruct (Rleb required _ && negb (level_complete st));
       [destruct (current_level st <? 5)%Z;
          [destruct (py_getitem pose_sounds _); [| discriminate];
           destruct (py_getitem voice_instructions _); [| discriminate];
           cbn [mbind result_bind] |] |]);
    intros [= <- <- <-]; cbn; auto.
Qed.

Lemma on_incorrect_history (st : State) (f : Frame) (hist : gmap Z (list R)) :
  accuracy_history (fst (on_incorrect st f hist)) = hist /\
  current_level (fst (on_incorrect st f hist)) = current_level st.
Proof.
  unfold on_incorrect.
  destruct (pose_correct st);
    [| destruct (Reqb (last_incorrect_feedback_time st) 0
                 || Rltb 2.0 (t_incorrect f - last_incorrect_feedback_time st))];
    cbn; auto.
Qed.

Lemma on_key_history (st st' : State) (k : Z) (said : list Event) (stop : bool) :
  on_key st k = Ok (st', said, stop) ->
  accuracy_history st' = accuracy_history st /\
  last_incorrect_feedback_time st' = last_incorrect_feedback_time st /\
  forallb (fun e => negb (is_feedback e)) said = true.
Proof.
  unfold on_key.
  destruct (k =? 113)%Z; [intros [= <- <- <-]; auto |].
  destruct (k =? 114)%Z; [intros [= <- <- <-]; auto |].
  destruct (k =? 100)%Z; [intros [= <- <- <-]; auto |].
  destruct ((49 <=? k)%Z && (k <=? 53)%Z); [| intros [= <- <- <-]; auto].
  destruct ((1 <=? k - 48)%Z && (k - 48 <=? 5)%Z); [| intros [= <- <- <-]; auto].
  destruct (py_getitem pose_sounds (k - 48)%Z); [| discriminate].
  destruct (py_getitem voice_instructions (k - 48)%Z); [| discriminate].
  cbn [mbind result_bind]. intros [= <- <- <-]. auto.
Qed.

(** The histories an iteration leaves are those [smooth] computed. *)
Lemma loop_body_history (st : State) (f : Frame) (out : Outcome) :
  loop_body st f = Ok out ->
  exists h raw is_correct_raw,
    check_pose_accuracy (frame_width f) (frame_height f) (current_level st)
      (Some (frame_results f)) = Ok (is_correct_raw, raw) /\
    accuracy_history st !! current_level st = Some h /\
    accuracy_history (next_state out) =
      <[current_level st :=
          deque_append SMOOTHING_WINDOW h (Rmin 100 (raw * 1.08))]>
        (accuracy_history st) /\
    smoothed_accuracy out
      = mean (deque_append SMOOTHING_WINDOW h (Rmin 100 (raw * 1.08))).
Proof.
  intros Hloop.
  destruct (loop_body_inv st f out Hloop)
    as (hist & st1 & said1 & said2 & Hsmooth & _ & Hbranch & Hkey & _).
  destruct (smooth_inv _ _ _ _ _ Hsmooth)
    as (h & raw & is_correct_raw & Hcheck & Hh & Hhist & Hmean).
  exists h, raw, is_correct_raw. split; [exact Hcheck |]. split; [exact Hh |].
  split; [| exact Hmean].
  apply on_key_history in Hkey as [-> _].
  destruct (is_correct out).
  - destruct Hbranch as (hold & Hbranch & _).
    apply on_correct_history in Hbranch as [-> _]. exact Hhist.
  - destruct Hbranch as [Hbranch _].
    pose proof (on_incorrect_history st f hist) as [Hh1 _].
    rewrite Hbranch in Hh1. cbn [fst] in Hh1. rewrite Hh1. exact Hhist.
Qed.

(** X15: one iteration of the main loop changes the accuracy history of no
    level other than the current one. *)
Theorem other_levels_keep_their_history
    (st : State) (f : Frame) (out : Outcome) (level : Z) :
  loop_body st f = Ok out ->
  level <> current_level st ->
  accuracy_history (next_state out) !! level = accuracy_history st !! level.
Proof.
  intros Hloop Hother.
  destruct (loop_body_history st f out Hloop) as (h & raw & b & _ & _ & -> & _).
  apply lookup_insert_ne. congruence.
Qed.

(** ** What every iteration keeps *)

Lemma adjusted_bounds (raw : R) :
  0 <= raw <= 100 -> 0 <= Rmin 100 (raw * 1.08) <= 100.
Proof.
  intros Hraw. split; [apply Rmin_glb; lra | apply Rmin_l].
Qed.

Lemma loop_body_keeps_session (st : State) (f : Frame) :
  session_ok st -> frame_not_empty f ->
  exists out,
    loop_body st f = Ok out /\ session_ok (next_state out) /\
    0 <= smoothed_accuracy out <= 100.
Proof.
  intros [Hwf Hbounded] Hframe.
  destruct (loop_body_returns st f Hwf Hframe) as (out & Hloop & Hwf').
  exists out. split; [exact Hloop |].
  destruct (loop_body_history st f out Hloop)
    as (h & raw & is_raw & Hcheck & Hh & Hhist & Hmean).
  destruct (check_pose_accuracy_returns (frame_width f) (frame_height f)
              (current_level st) (Some (frame_results f)) Hframe)
    as (is_raw' & raw' & Hcheck' & Hraw).
  rewrite Hcheck in Hcheck'. injection Hcheck' as _ <-.
  destruct (Hbounded _ _ Hh) as [Hlen Hall].
  pose proof (adjusted_bounds raw Hraw) as Hadj.
  pose proof (deque_append_length h (Rmin 100 (raw * 1.08))) as [Hone Hfour].
  pose proof (deque_append_bounded h _ Hall Hadj) as Hall'.
  split; [split; [exact Hwf' |] |].
  - rewrite Hhist. intros level h' Hlookup.
    destruct (Z.eq_dec (current_level st) level) as [<- | Hne].
    + rewrite lookup_insert_eq in Hlookup. injection Hlookup as <-. auto.
    + rewrite lookup_insert_ne in Hlookup by assumption. eauto.
  - rewrite Hmean. apply mean_bounds; assumption.
Qed.

(** X14: from well-formed session variables with bounded histories, the
    scoring, smoothing, progression and key handling of one main-loop iteration
    on a frame with a positive side raise nothing; afterwards the level is in 1..5, [level_complete] is [False], every history
    still holds at most four samples between 0 and 100, and the displayed
    smoothed accuracy lies between 0 and 100. *)
Theorem iteration_keeps_session (st : State) (f : Frame) :
  session_ok st -> frame_not_empty f ->
  exists out,
    loop_body st f = Ok out /\
    (1 <= current_level (next_state out) <= 5)%Z /\
    level_complete (next_state out) = false /\
    history_bounded (accuracy_history (next_state out)) /\
    0 <= smoothed_accuracy out <= 100.
Proof.
  intros Hok Hframe.
  destruct (loop_body_keeps_session st f Hok Hframe)
    as (out & Hloop & [(Hlevel & Hflag & _) Hbounded] & Hshown).
  exists out. auto.
Qed.

Lemma initial_state_session_ok : session_ok initial_state.
Proof.
  split; [exact initial_state_well_formed |].
  intros level h Hlookup.
  assert (Hempty : h = []).
  { unfold initial_state in Hlookup. cbn [accuracy_history] in Hlookup.
    repeat (apply lookup_insert_Some in Hlookup
              as [[_ Hlookup] | [_ Hlookup]]; [congruence |]).
    apply lookup_singleton_Some in Hlookup as [_ Hlookup]. congruence. }
  subst h. split; [cbn; lia | constructor].
Qed.

(** X16: from well-formed session variables with bounded histories, the
    scoring, smoothing, progression and key handling of the main loop raise
    nothing over any sequence of frames with a positive side, and the loop ends
    in such a session state again. *)
Theorem run_never_raises (frames : list Frame) (st : State) :
  session_ok st -> Forall frame_not_empty frames ->
  exists st' said, run st frames = Ok (st', said) /\ session_ok st'.
Proof.
  revert st. induction frames as [| f rest IH]; intros st Hok Hframes.
  - exists st, []. split; [reflexivity | exact Hok].
  - apply Forall_cons in Hframes as [Hframe Hrest].
    destruct (loop_body_keeps_session st f Hok Hframe)
      as (out & Hloop & Hok' & _).
    cbn [run]. rewrite Hloop. cbn [mbind result_bind].
    destruct (quit out); [eexists _, _; split; [reflexivity | exact Hok'] |].
    destruct (IH (next_state out) Hok' Hrest) as (st' & said & -> & Hok'').
    cbn [mbind result_bind]. eexists _, _. split; [reflexivity | exact Hok''].
Qed.

(** ** Losing the body *)

Lemma smooth_no_pose (level : Z) (hist hist' : gmap Z (list R)) (f : Frame)
    (smoothed : R) :
  no_pose f ->
  smooth level hist f = Ok (hist', smoothed) ->
  exists h,
    hist !! level = Some h /\
    hist' = <[level := deque_append SMOOTHING_WINDOW h 0]> hist /\
    smoothed = mean (deque_append SMOOTHING_WINDOW h 0).
Proof.
  intros Hnone Hsmooth.
  destruct (smooth_inv _ _ _ _ _ Hsmooth)
    as (h & raw & is_raw & Hcheck & Hh & Hhist & Hmean).
  unfold check_pose_accuracy in Hcheck. cbn [mbind option_bind] in Hcheck.
  unfold no_pose in Hnone. rewrite Hnone in Hcheck. injection Hcheck as _ <-.
  replace (Rmin 100 (0.0 * 1.08)) with 0 in Hhist, Hmean
    by (rewrite Rmin_right; lra).
  eauto.
Qed.

Lemma zeros_fill_window (h : list R) :
  (length h <= 4)%nat ->
  deque_append SMOOTHING_WINDOW
    (deque_append SMOOTHING_WINDOW
       (deque_append SMOOTHING_WINDOW
          (deque_append SMOOTHING_WINDOW h 0) 0) 0) 0
  = [0; 0; 0; 0].
Proof.
  intros Hlen.
  destruct h as [| a [| b [| c [| d [| e h]]]]]; cbn in Hlen; try lia;
    reflexivity.
Qed.

(** An iteration on a frame without a pose appends 0 to the history of the
    current level, whatever the branch taken and the key pressed. *)
Lemma loop_body_no_pose (st : State) (f : Frame) (out : Outcome) :
  no_pose f ->
  loop_body st f = Ok out ->
  exists h,
    accuracy_history st !! current_level st = Some h /\
    accuracy_history (next_state out)
      = <[current_level st := deque_append SMOOTHING_WINDOW h 0]>
          (accuracy_history st) /\
    smoothed_accuracy out = mean (deque_append SMOOTHING_WINDOW h 0).
Proof.
  intros Hnone Hloop.
  destruct (loop_body_inv st f out Hloop)
    as (hist & st1 & said1 & said2 & Hsmooth & _ & _ & _ & _).
  destruct (smooth_no_pose _ _ _ _ _ Hnone Hsmooth) as (h & Hh & _ & Hmean).
  destruct (loop_body_history st f out Hloop)
    as (h' & raw & is_correct_raw & Hcheck & Hh' & Hhist & _).
  rewrite Hh in Hh'. injection Hh' as <-.
  unfold check_pose_accuracy in Hcheck. cbn [mbind option_bind] in Hcheck.
  unfold no_pose in Hnone. rewrite Hnone in Hcheck. injection Hcheck as _ <-.
  replace (Rmin 100 (0.0 * 1.08)) with 0 in Hhist by (rewrite Rmin_right; lra).
  exists h. auto.
Qed.

(** X17: when four consecutive iterations of the main loop see no pose and
    the level is the same after each of the first three, the history of that
    level is [0, 0, 0, 0] after the fourth, whatever window of at most four
    samples it held before; the fourth smoothed accuracy is 0, the frame is
    judged incorrect and [pose_correct] is [False]. *)
Theorem four_frames_without_pose
    (st : State) (h : list R) (f1 f2 f3 f4 : Frame) (out1 out2 out3 out4 : Outcome) :
  accuracy_history st !! current_level st = Some h -> (length h <= 4)%nat ->
  no_pose f1 -> no_pose f2 -> no_pose f3 -> no_pose f4 ->
  loop_body st f1 = Ok out1 ->
  loop_body (next_state out1) f2 = Ok out2 ->
  loop_body (next_state out2) f3 = Ok out3 ->
  loop_body (next_state out3) f4 = Ok out4 ->
  current_level (next_state out1) = current_level st ->
  current_level (next_state out2) = current_level st ->
  current_level (next_state out3) = current_level st ->
  accuracy_history (next_state out4) !! current_level st = Some [0; 0; 0; 0] /\
  smoothed_accuracy out4 = 0 /\
  is_correct out4 = false /\
  pose_correct (next_state out4) = false.
Proof.
  intros Hh Hlen Hn1 Hn2 Hn3 Hn4 H1 H2 H3 H4 Hl1 Hl2 Hl3.
  destruct (loop_body_no_pose _ _ _ Hn1 H1) as (h0 & Hh0 & Hhist1 & _).
  rewrite Hh in Hh0. injection Hh0 as <-.
  destruct (loop_body_no_pose _ _ _ Hn2 H2) as (h1 & Hh1 & Hhist2 & _).
  rewrite Hl1, Hhist1, lookup_insert_eq in Hh1. injection Hh1 as <-.
  destruct (loop_body_no_pose _ _ _ Hn3 H3) as (h2 & Hh2 & Hhist3 & _).
  rewrite Hl2, Hhist2, Hl1, lookup_insert_eq in Hh2. injection Hh2 as <-.
  destruct (loop_body_no_pose _ _ _ Hn4 H4) as (h3 & Hh3 & Hhist4 & Hmean).
  rewrite Hl3, Hhist3, Hl2, lookup_insert_eq in Hh3. injection Hh3 as <-.
  rewrite zeros_fill_window in Hhist4, Hmean by assumption.
  assert (Hzero : smoothed_accuracy out4 = 0).
  { rewrite Hmean. unfold mean. cbn [foldr length INR]. field. }
  split; [rewrite Hhist4, Hl3; apply lookup_insert_eq |].
  split; [exact Hzero |].
  destruct (incorrect_frame_clears _ _ _ H4) as (Hjudged & Hpc & _);
    [rewrite Hzero; unfold ACCURACY_THRESHOLD; lra | auto].
Qed.

(** ** Spoken feedback on an incorrect pose *)

Lemma on_incorrect_speaks (st : State) (f : Frame) (hist : gmap Z (list R)) :
  pose_correct st = true \/ last_incorrect_feedback_time st = 0 \/
    2 < t_incorrect f - last_incorrect_feedback_time st ->
  snd (on_incorrect st f hist) = [SpeakPoseFeedback false (current_level st)] /\
  last_incorrect_feedback_time (fst (on_incorrect st f hist)) = t_incorrect f.
Proof.
  intros Hwhy. unfold on_incorrect.
  destruct (pose_correct st); [cbn; auto |].
  destruct Hwhy as [Habs | [Hzero | Hlate]]; [discriminate | |].
  - rewrite Reqb_true by assumption. cbn. auto.
  - rewrite (Rltb_true 2.0) by lra. rewrite orb_true_r. cbn. auto.
Qed.

Lemma on_incorrect_silent (st : State) (f : Frame) (hist : gmap Z (list R)) :
  pose_correct st = false -> last_incorrect_feedback_time st <> 0 ->
  t_incorrect f - last_incorrect_feedback_time st <= 2 ->
  snd (on_incorrect st f hist) = [] /\
  last_incorrect_feedback_time (fst (on_incorrect st f hist))
    = last_incorrect_feedback_time st.
Proof.
  intros Hpc Hlast Hsoon. unfold on_incorrect. rewrite Hpc.
  rewrite Reqb_false by assumption. rewrite (Rltb_false 2.0) by lra.
  cbn. auto.
Qed.

Lemma no_feedback_app (said1 said2 : list Event) :
  forallb (fun e => negb (is_feedback e)) (said1 ++ said2)
  = forallb (fun e => negb (is_feedback e)) said1
    && forallb (fun e => negb (is_feedback e)) said2.
Proof. apply forallb_app. Qed.

(** X18: the first incorrect frame after a correct one speaks the negative
    pose feedback for the level then current, whatever the time since the last
    such feedback. *)
Theorem first_incorrect_frame_speaks
    (st : State) (f1 f2 : Frame) (out1 out2 : Outcome) :
  loop_body st f1 = Ok out1 -> is_correct out1 = true ->
  loop_body (next_state out1) f2 = Ok out2 -> is_correct out2 = false ->
  SpeakPoseFeedback false (current_level (next_state out1)) ∈ spoken out2.
Proof.
  intros Hloop1 Hc1 Hloop2 Hc2.
  destruct (loop_body_inv st f1 out1 Hloop1)
    as (hist1 & st1 & said1 & said1' & _ & _ & Hbranch1 & Hkey1 & _).
  rewrite Hc1 in Hbranch1. destruct Hbranch1 as (hold & Hbranch1 & _).
  apply on_correct_history in Hbranch1 as [_ Hzero].
  apply on_key_history in Hkey1 as (_ & Hlast & _). rewrite Hzero in Hlast.
  destruct (loop_body_inv _ f2 out2 Hloop2)
    as (hist2 & st2 & said2 & said2' & _ & _ & Hbranch2 & _ & ->).
  rewrite Hc2 in Hbranch2. destruct Hbranch2 as [Hbranch2 _].
  destruct (on_incorrect_speaks (next_state out1) f2 hist2) as [Hsaid _];
    [auto |].
  rewrite Hbranch2 in Hsaid. cbn [snd] in Hsaid. subst said2.
  apply elem_of_app. left. apply list_elem_of_singleton. reflexivity.
Qed.

(** X19: on an incorrect frame met while [pose_correct] is [False], the
    negative feedback is spoken, and its time recorded, when none was recorded or more
    than two seconds have passed since the recorded one; otherwise no pose
    feedback is spoken and the recorded time is kept. *)
Theorem incorrect_feedback_every_two_seconds
    (st : State) (f : Frame) (out : Outcome) :
  pose_correct st = false ->
  loop_body st f = Ok out -> is_correct out = false ->
  let last := last_incorrect_feedback_time st in
  let now := t_incorrect f in
  (last = 0 \/ 2 < now - last ->
     SpeakPoseFeedback false (current_level st) ∈ spoken out /\
     last_incorrect_feedback_time (next_state out) = now) /\
  (last <> 0 -> now - last <= 2 ->
     forallb (fun e => negb (is_feedback e)) (spoken out) = true /\
     last_incorrect_feedback_time (next_state out) = last).
Proof.
  intros Hpc Hloop Hc last now.
  destruct (loop_body_inv st f out Hloop)
    as (hist & st1 & said1 & said2 & _ & _ & Hbranch & Hkey & ->).
  rewrite Hc in Hbranch. destruct Hbranch as [Hbranch _].
  apply on_key_history in Hkey as (_ & -> & Hquiet).
  split.
  - intros Hwhy.
    destruct (on_incorrect_speaks st f hist) as [Hsaid Hlast]; [auto |].
    rewrite Hbranch in Hsaid, Hlast. cbn [fst snd] in Hsaid, Hlast. subst said1.
    split; [| exact Hlast].
    apply elem_of_app. left. apply list_elem_of_singleton. reflexivity.
  - intros Hnonzero Hsoon.
    destruct (on_incorrect_silent st f hist Hpc Hnonzero Hsoon) as [Hsaid Hlast].
    rewrite Hbranch in Hsaid, Hlast. cbn [fst snd] in Hsaid, Hlast. subst said1.
    split; [exact Hquiet | exact Hlast].
Qed.

(** ** Key commands *)

Lemma on_key_level_command (st st' : State) (k : Z) (said : list Event)
    (stop : bool) :
  on_key st k = Ok (st', said, stop) ->
  (k = 114%Z -> current_level st' = 1%Z /\ pose_correct st' = false /\
                level_complete st' = false /\ stop = false) /\
  ((49 <= k <= 53)%Z ->
     current_level st' = (k - 48)%Z /\ pose_correct st' = false /\
     level_complete st' = false /\ stop = false) /\
  (k = 113%Z -> st' = st /\ stop = true) /\
  (k <> 113%Z -> k <> 114%Z -> k <> 100%Z -> ~ (49 <= k <= 53)%Z ->
     st' = st /\ said = [] /\ stop = false).
Proof.
  unfold on_key.
  destruct (Z.eqb_spec k 113) as [-> | Hq];
    [intros [= <- <- <-]; repeat split; (lia || auto) |].
  destruct (Z.eqb_spec k 114) as [-> | Hr];
    [intros [= <- <- <-]; repeat split; (lia || auto) |].
  destruct (Z.eqb_spec k 100) as [-> | Hd];
    [intros [= <- <- <-]; repeat split; (lia || auto) |].
  destruct (Z.leb_spec 49 k), (Z.leb_spec k 53); cbn [andb];
    try (intros [= <- <- <-]; repeat split; (lia || auto)).
  destruct (Z.leb_spec 1 (k - 48)); [| lia].
  destruct (Z.leb_spec (k - 48) 5); [| lia]. cbn [andb].
  destruct (py_getitem pose_sounds (k - 48)%Z); [| discriminate].
  destruct (py_getitem voice_instructions (k - 48)%Z); [| discriminate].
  cbn [mbind result_bind]. intros [= <- <- <-]. repeat split; (lia || auto).
Qed.

(** X20: when the key of an iteration is [r] or a digit from 1 to 5, the
    iteration ends at level 1 or at the level of the digit, with [pose_correct]
    and [level_complete] both [False] and without quitting, whatever the frame
    showed; the histories of the levels other than the one the iteration
    started in are unchanged. *)
Theorem level_command_overrides_frame
    (st : State) (f : Frame) (out : Outcome) :
  loop_body st f = Ok out ->
  (key f = 114%Z \/ (49 <= key f <= 53)%Z) ->
  current_level (next_state out) = (if (key f =? 114)%Z then 1 else key f - 48)%Z /\
  pose_correct (next_state out) = false /\
  level_complete (next_state out) = false /\
  quit out = false /\
  forall level, level <> current_level st ->
    accuracy_history (next_state out) !! level = accuracy_history st !! level.
Proof.
  intros Hloop Hkey.
  assert (Hhist : forall level, level <> current_level st ->
            accuracy_history (next_state out) !! level
            = accuracy_history st !! level).
  { intros level Hne.
    destruct (loop_body_history st f out Hloop) as (h & raw & b & _ & _ & -> & _).
    apply lookup_insert_ne. congruence. }
  destruct (loop_body_inv st f out Hloop)
    as (hist & st1 & said1 & said2 & _ & _ & _ & Hon_key & _).
  destruct (on_key_level_command _ _ _ _ _ Hon_key) as (Hreset & Hjump & _).
  destruct Hkey as [Hr | Hdigit].
  - rewrite Hr. destruct (Hreset Hr) as (-> & -> & -> & ->). auto.
  - destruct (Z.eqb_spec (key f) 114) as [Heq | _]; [lia |].
    destruct (Hjump Hdigit) as (-> & -> & -> & ->). auto.
Qed.

(** X21: the main loop stops at the first frame on which [q] is pressed: the
    frames after it have no effect on the result. *)
Theorem run_stops_at_quit (pre rest : list Frame) (f : Frame) (st : State) :
  key f = 113%Z ->
  run st (pre ++ f :: rest) = run st (pre ++ [f]).
Proof.
  intros Hq. revert st. induction pre as [| g pre IH]; intros st.
  - cbn [app run]. destruct (loop_body st f) as [out |] eqn:Hloop; [| reflexivity].
    cbn [mbind result_bind].
    destruct (loop_body_inv st f out Hloop)
      as (hist & st1 & said1 & said2 & _ & _ & _ & Hon_key & _).
    destruct (on_key_level_command _ _ _ _ _ Hon_key) as (_ & _ & Hquit & _).
    destruct (Hquit Hq) as [_ ->]. reflexivity.
  - cbn [app run]. destruct (loop_body st g) as [out |]; [| reflexivity].
    cbn [mbind result_bind]. destruct (quit out); [reflexivity |].
    rewrite IH. reflexivity.
Qed.

(** ** How the level moves *)

Lemma on_correct_level (st : State) (f : Frame) (hist : gmap Z (list R))
    (st1 : State) (said1 : list Event) (hold : R) :
  on_correct st f hist = Ok (st1, said1, hold) ->
  (completions said1 = 0%nat /\ current_level st1 = current_level st) \/
  (completions said1 = 1%nat /\
   current_level st1
   = (if (current_level st <? 5)%Z then current_level st + 1 else 1)%Z /\
   required_time (current_level st) <= hold).
Proof.
  unfold on_correct.
  destruct (py_getitem timing_settings (current_level st)) as [required |] eqn:Htime.
  2: { destruct (pose_correct st); discriminate. }
  apply timing_settings_inv in Htime as ->.
  destruct (pose_correct st); cbn [mbind result_bind];
    (destruct (py_div _ _); [| discriminate]); cbn [mbind result_bind];
    (destruct (Rleb (required_time (current_level st)) _) eqn:Hlong;
       cbn [andb];
       [apply Rleb_spec in Hlong;
        destruct (negb (level_complete st));
          [destruct (current_level st <? 5)%Z;
             [destruct (py_getitem pose_sounds _); [| discriminate];
              destruct (py_getitem voice_instructions _); [| discriminate];
              cbn [mbind result_bind] |] |] |]);
    intros [= <- <- <-]; cbn; auto.
Qed.

(** X22: without a key press, an iteration either announces no completion and
    keeps the level, or announces exactly one completion on a correct frame
    held for at least the required time and moves to the next level, from level
    5 back to level 1. *)
Theorem level_moves_only_on_completion
    (st : State) (f : Frame) (out : Outcome) :
  loop_body st f = Ok out -> key f = no_key ->
  (completions (spoken out) = 0%nat /\
   current_level (next_state out) = current_level st) \/
  (completions (spoken out) = 1%nat /\
   is_correct out = true /\
   current_level (next_state out)
   = (if (current_level st <? 5)%Z then current_level st + 1 else 1)%Z /\
   exists hold, hold_duration out = Some hold /\
                required_time (current_level st) <= hold).
Proof.
  intros Hloop Hkey.
  destruct (loop_body_inv st f out Hloop)
    as (hist & st1 & said1 & said2 & _ & _ & Hbranch & Hon_key & ->).
  rewrite Hkey, on_key_no_key in Hon_key. injection Hon_key as <- <- _.
  rewrite app_nil_r.
  destruct (is_correct out).
  - destruct Hbranch as (hold & Hbranch & Hhold).
    destruct (on_correct_level _ _ _ _ _ _ Hbranch) as [[H0 Hl] | (H1 & Hl & Hlong)];
      [left; auto | right; eauto 10].
  - destruct Hbranch as [Hbranch _].
    pose proof (on_incorrect_history st f hist) as [_ Hlevel].
    rewrite Hbranch in Hlevel. cbn [fst] in Hlevel.
    left. split; [| exact Hlevel].
    unfold on_incorrect in Hbranch.
    destruct (pose_correct st);
      [| destruct (Reqb _ 0 || Rltb 2.0 _)];
      injection Hbranch as _ <-; reflexivity.
Qed.

(** ** [wrap_text] *)

Lemma str_app_cons (c : ascii) (s t : string) :
  String c s +:+ t = String c (s +:+ t).
Proof. reflexivity. Qed.

Lemma str_app_nil_l (t : string) : "" +:+ t = t.
Proof. reflexivity. Qed.

Lemma str_app_nil_r (s : string) : s +:+ "" = s.
Proof. induction s as [| c s IH]; [reflexivity |]. rewrite str_app_cons, IH. reflexivity. Qed.

Lemma str_app_assoc (s t u : string) : (s +:+ t) +:+ u = s +:+ t +:+ u.
Proof.
  induction s as [| c s IH]; [reflexivity |].
  rewrite !str_app_cons, IH. reflexivity.
Qed.

Lemma str_length_app (s t : string) :
  String.length (s +:+ t) = (String.length s + String.length t)%nat.
Proof.
  induction s as [| c s IH]; [reflexivity |].
  rewrite str_app_cons. cbn [String.length]. rewrite IH. reflexivity.
Qed.

Lemma str_app_empty (s t : string) : s +:+ t = "" -> s = "" /\ t = "".
Proof. destruct s; [auto | discriminate]. Qed.

Lemma dense_app (s t : string) : dense (s +:+ t) = dense s && dense t.
Proof.
  induction s as [| c s IH]; [reflexivity |].
  rewrite str_app_cons. cbn [dense]. rewrite IH, andb_assoc. reflexivity.
Qed.

Lemma split_from_ok (s word : string) :
  dense word = true -> Forall word_ok (split_from word s).
Proof.
  revert word. induction s as [| c s IH]; intros word Hdense; cbn [split_from].
  - destruct (decide (word = "")); [constructor |].
    constructor; [split; assumption | constructor].
  - destruct (is_space c) eqn:Hc.
    + destruct (decide (word = "")); [apply IH; reflexivity |].
      constructor; [split; assumption | apply IH; reflexivity].
    + apply IH. rewrite dense_app, Hdense. cbn [dense]. rewrite Hc. reflexivity.
Qed.

Lemma py_split_ok (s : string) : Forall word_ok (py_split s).
Proof. apply split_from_ok. reflexivity. Qed.

(** *** Stripping a line *)

Lemma rstrip_cons_dense (c : ascii) (s : string) :
  is_space c = false -> rstrip (String c s) = String c (rstrip s).
Proof.
  intros Hc. cbn [rstrip]. rewrite Hc. destruct (rstrip s); reflexivity.
Qed.

Lemma rstrip_app_dense (w s : string) :
  dense w = true -> rstrip (w +:+ s) = w +:+ rstrip s.
Proof.
  induction w as [| c w IH]; intros Hdense; [reflexivity |].
  cbn [dense] in Hdense. apply andb_prop in Hdense as [Hc Hw].
  apply negb_true_iff in Hc.
  rewrite !str_app_cons, rstrip_cons_dense, IH by assumption. reflexivity.
Qed.

Lemma rstrip_space (s : string) :
  rstrip (" " +:+ s) = if decide (rstrip s = "") then "" else " " +:+ rstrip s.
Proof.
  change (" " +:+ s) with (String " " s). cbn [rstrip].
  destruct (rstrip s); reflexivity.
Qed.

Lemma join_space_not_empty (g : list string) :
  g <> [] -> Forall word_ok g -> join_space g <> "".
Proof.
  intros Hg Hall. destruct Hall as [| w g [Hw _] _]; [congruence |].
  destruct g; [exact Hw |].
  cbn [join_space]. intros Habs. apply str_app_empty in Habs as [Habs _].
  contradiction.
Qed.

Lemma rstrip_spaced (g : list string) :
  Forall word_ok g -> rstrip (spaced g) = join_space g.
Proof.
  induction 1 as [| w g [Hw Hdense] Hall IH]; [reflexivity |].
  cbn [spaced]. rewrite rstrip_app_dense, rstrip_space, IH by assumption.
  destruct g as [| w' g].
  - cbn [join_space]. rewrite decide_True by reflexivity. apply str_app_nil_r.
  - rewrite decide_False; [reflexivity |].
    apply join_space_not_empty; [discriminate | assumption].
Qed.

Lemma lstrip_dense_head (w s : string) :
  word_ok w -> lstrip (w +:+ s) = w +:+ s.
Proof.
  intros [Hw Hdense]. destruct w as [| c w]; [contradiction |].
  cbn [dense] in Hdense. apply andb_prop in Hdense as [Hc _].
  apply negb_true_iff in Hc. rewrite str_app_cons. cbn [lstrip]. rewrite Hc.
  reflexivity.
Qed.

Lemma lstrip_join_space (g : list string) :
  Forall word_ok g -> lstrip (join_space g) = join_space g.
Proof.
  intros Hall. destruct Hall as [| w g Hw _]; [reflexivity |].
  destruct g.
  - cbn [join_space]. rewrite <- (str_app_nil_r w). apply lstrip_dense_head, Hw.
  - cbn [join_space]. apply lstrip_dense_head, Hw.
Qed.

Lemma py_strip_spaced (g : list string) :
  Forall word_ok g -> py_strip (spaced g) = join_space g.
Proof.
  intros Hall. unfold py_strip.
  rewrite rstrip_spaced, lstrip_join_space by assumption. reflexivity.
Qed.

(** *** The loop *)

Lemma spaced_app (g : list string) (w : string) :
  spaced (g ++ [w]) = spaced g +:+ w +:+ " ".
Proof.
  induction g as [| v g IH]; cbn [app spaced].
  - rewrite str_app_nil_l. reflexivity.
  - rewrite IH, !str_app_assoc. reflexivity.
Qed.

Lemma spaced_empty (g : list string) :
  Forall word_ok g -> spaced g = "" -> g = [].
Proof.
  intros Hall Hempty. destruct Hall as [| w g [Hw _] _]; [reflexivity |].
  cbn [spaced] in Hempty. apply str_app_empty in Hempty as [Habs _].
  contradiction.
Qed.

(** The state of the loop after some words: the lines are the closed groups,
    the current line is the open group. *)
Lemma wrap_loop (max_chars : Z) (words : list string) (groups : list (list string))
    (g : list string) :
  exists extra g',
    foldl (wrap_step max_chars) (py_strip ∘ spaced <$> groups, spaced g) words
      = (py_strip ∘ spaced <$> (groups ++ extra), spaced g') /\
    concat extra ++ g' = g ++ words /\
    (g <> [] \/ words <> [] -> g' <> []) /\
    (Forall (word_fits max_chars) words ->
     (g <> [] -> line_fits max_chars g) ->
     Forall (closed_line max_chars) extra /\
     (g' <> [] -> line_fits max_chars g')).
Proof.
  revert groups g. induction words as [| w words IH]; intros groups g.
  - exists [], g. rewrite !app_nil_r. split; [reflexivity |].
    split; [reflexivity |]. split; [intros [? | ?]; congruence |].
    intros _ Hg. split; [constructor | exact Hg].
  - cbn [foldl]. unfold wrap_step at 2.
    destruct (Z.leb_spec (py_len (spaced g +:+ w) + 1) max_chars) as [Hfit | Hover].
    + rewrite <- spaced_app.
      destruct (IH groups (g ++ [w]))
        as (extra & g' & Hfold & Hwords & Hopen & Hlen).
      exists extra, g'. split; [exact Hfold |].
      split; [rewrite Hwords, <- (assoc_L app); reflexivity |].
      split; [intros _; apply Hopen; left; destruct g; discriminate |].
      intros Hfits Hg. apply Forall_cons in Hfits as [_ Hfits].
      apply Hlen; [exact Hfits |]. intros _.
      unfold line_fits, py_len in *. rewrite spaced_app.
      rewrite <- str_app_assoc, str_length_app. rewrite str_length_app in *.
      cbn [String.length]. lia.
    + replace (w +:+ " ") with (spaced [w])
        by (cbn [spaced]; rewrite str_app_nil_r; reflexivity).
      replace ((py_strip ∘ spaced <$> groups) ++ [py_strip (spaced g)])
        with (py_strip ∘ spaced <$> (groups ++ [g]))
        by (rewrite fmap_app; reflexivity).
      destruct (IH (groups ++ [g]) [w])
        as (extra & g' & Hfold & Hwords & Hopen & Hlen).
      exists (g :: extra), g'.
      split; [rewrite Hfold, <- (assoc_L app); reflexivity |].
      split; [cbn [concat]; rewrite <- (assoc_L app), Hwords; reflexivity |].
      split; [intros _; apply Hopen; left; discriminate |].
      intros Hfits Hg. apply Forall_cons in Hfits as [Hw Hfits].
      assert (Hnonempty : g <> []).
      { intros ->. cbn [spaced] in Hover. rewrite str_app_nil_l in Hover.
        unfold word_fits in Hw. lia. }
      destruct Hlen as [Hextra Hg'].
      * exact Hfits.
      * intros _. unfold line_fits, word_fits, py_len in *. cbn [spaced].
        rewrite str_app_nil_r, str_length_app. cbn [String.length]. lia.
      * split; [| exact Hg'].
        constructor; [split; [exact Hnonempty | exact (Hg Hnonempty)] | exact Hextra].
Qed.

Lemma length_spaced_join (g : list string) :
  g <> [] -> String.length (spaced g) = S (String.length (join_space g)).
Proof.
  induction g as [| w g IH]; [congruence |]. intros _.
  destruct g as [| w' g].
  - cbn [spaced join_space]. rewrite str_app_nil_r, str_length_app.
    cbn [String.length]. lia.
  - change (spaced (w :: w' :: g)) with (w +:+ " " +:+ spaced (w' :: g)).
    change (join_space (w :: w' :: g)) with (w +:+ " " +:+ join_space (w' :: g)).
    rewrite !str_length_app, IH by discriminate. cbn [String.length]. lia.
Qed.

Lemma Forall_concat_inv {A : Type} (P : A -> Prop) (ls : list (list A)) :
  Forall P (concat ls) -> Forall (Forall P) ls.
Proof.
  induction ls as [| l ls IH]; cbn [concat]; intros Hall; [constructor |].
  apply Forall_app in Hall as [Hl Hls]. constructor; auto.
Qed.

Lemma spaced_not_empty (g : list string) :
  g <> [] -> spaced g <> "".
Proof.
  destruct g as [| w g]; [congruence |]. intros _ Habs.
  cbn [spaced] in Habs. apply str_app_empty in Habs as [_ Habs].
  discriminate.
Qed.

Lemma join_groups (groups : list (list string)) :
  Forall word_ok (concat groups) ->
  py_strip ∘ spaced <$> groups = join_space <$> groups.
Proof.
  intros Hall. apply Forall_concat_inv in Hall.
  apply Forall_fmap_ext_1. eapply Forall_impl; [exact Hall |].
  intros g Hg. apply py_strip_spaced, Hg.
Qed.

(** What [wrap_text] returns, as groups of the words of the text. *)
Lemma wrap_text_groups (text : string) (max_chars : Z) :
  exists groups,
    wrap_text text max_chars = join_space <$> groups /\
    concat groups = py_split text /\
    (forall w ws, py_split text = w :: ws -> ~ word_fits max_chars w ->
       exists rest, groups = [] :: rest) /\
    (Forall (word_fits max_chars) (py_split text) ->
     Forall (closed_line max_chars) groups).
Proof.
  pose proof (py_split_ok text) as Hok. unfold wrap_text.
  destruct (py_split text) as [| w ws] eqn:Hsplit.
  { exists []. cbn. repeat split; try discriminate. constructor. }
  cbn [foldl].
  assert (Hfirst : wrap_step max_chars ([], "") w =
            if (py_len w + 1 <=? max_chars)%Z then ([], spaced [w])
            else (py_strip ∘ spaced <$> [[]], spaced [w])).
  { unfold wrap_step. rewrite str_app_nil_l. cbn [spaced].
    rewrite str_app_nil_r. reflexivity. }
  rewrite Hfirst. clear Hfirst.
  destruct (Z.leb_spec (py_len w + 1) max_chars) as [Hfit | Hover].
  - destruct (wrap_loop max_chars ws [] [w])
      as (extra & g' & Hfold & Hwords & Hopen & Hlen).
    cbn [fmap list_fmap app] in Hfold. rewrite Hfold.
    assert (Hg' : g' <> []) by (apply Hopen; left; discriminate).
    rewrite decide_False by (apply spaced_not_empty, Hg').
    exists (extra ++ [g']).
    assert (Hconcat : concat (extra ++ [g']) = w :: ws).
    { rewrite concat_app. cbn [concat]. rewrite app_nil_r. exact Hwords. }
    split.
    { rewrite <- (join_groups (extra ++ [g'])) by (rewrite Hconcat; exact Hok).
      rewrite fmap_app. reflexivity. }
    split; [exact Hconcat |].
    split.
    { intros w' ws' [= <- <-] Hlong. contradiction. }
    intros Hfits. apply Forall_cons in Hfits as [Hw Hfits].
    destruct (Hlen Hfits) as [Hextra Hlast].
    { intros _. unfold line_fits, word_fits, py_len in *. cbn [spaced].
      rewrite str_app_nil_r, str_length_app. cbn [String.length]. lia. }
    apply Forall_app. split; [exact Hextra |].
    constructor; [split; auto | constructor].
  - destruct (wrap_loop max_chars ws [[]] [w])
      as (extra & g' & Hfold & Hwords & Hopen & Hlen).
    rewrite Hfold.
    assert (Hg' : g' <> []) by (apply Hopen; left; discriminate).
    rewrite decide_False by (apply spaced_not_empty, Hg').
    exists ([] :: extra ++ [g']).
    assert (Hconcat : concat ([] :: extra ++ [g']) = w :: ws).
    { cbn [concat app]. rewrite concat_app. cbn [concat]. rewrite app_nil_r.
      exact Hwords. }
    split.
    { rewrite <- (join_groups ([] :: extra ++ [g'])) by (rewrite Hconcat; exact Hok).
      change ([] :: extra ++ [g']) with (([[]] ++ extra) ++ [g']).
      rewrite (fmap_app _ ([[]] ++ extra)). reflexivity. }
    split; [exact Hconcat |].
    split; [eauto |].
    intros Hfits. apply Forall_cons in Hfits as [Hw _].
    unfold word_fits in Hw. lia.
Qed.

(** X23: [wrap_text] loses, adds and reorders no word: its lines are groups of
    consecutive words joined by single spaces, and the groups concatenated give
    [text.split()]. *)
Theorem wrap_text_regroups_words (text : string) (max_chars : Z) :
  exists groups,
    wrap_text text max_chars = join_space <$> groups /\
    concat groups = py_split text.
Proof.
  destruct (wrap_text_groups text max_chars) as (groups & Hlines & Hwords & _).
  exists groups. auto.
Qed.

(** X24: when every word of the text is shorter than [max_chars], no line
    that [wrap_text] returns is empty and every line is shorter than
    [max_chars]. *)
Theorem wrap_text_lines_fit (text : string) (max_chars : Z) :
  Forall (fun w => (py_len w + 1 <= max_chars)%Z) (py_split text) ->
  Forall (fun line => line <> "" /\ (py_len line < max_chars)%Z)
    (wrap_text text max_chars).
Proof.
  intros Hfits.
  destruct (wrap_text_groups text max_chars)
    as (groups & -> & Hwords & _ & Hclosed).
  pose proof (py_split_ok text) as Hok. rewrite <- Hwords in Hok.
  apply Forall_concat_inv in Hok.
  specialize (Hclosed Hfits). apply Forall_fmap.
  clear Hwords Hfits. induction Hclosed as [| g groups [Hg Hlen] _ IH];
    [constructor |].
  apply Forall_cons in Hok as [Hg_ok Hok].
  constructor; [| apply IH, Hok].
  cbn [compose]. split.
  - apply join_space_not_empty; assumption.
  - unfold line_fits, py_len in *. rewrite length_spaced_join in Hlen by assumption.
    lia.
Qed.

(** X25: when the first word of the text has [max_chars] characters or more,
    the first line that [wrap_text] returns is the empty string. *)
Theorem wrap_text_long_first_word
    (text : string) (max_chars : Z) (w : string) (ws : list string) :
  py_split text = w :: ws ->
  (max_chars < py_len w + 1)%Z ->
  exists rest, wrap_text text max_chars = "" :: rest.
Proof.
  intros Hsplit Hlong.
  destruct (wrap_text_groups text max_chars) as (groups & -> & _ & Hfirst & _).
  destruct (Hfirst w ws Hsplit) as [rest ->]; [unfold word_fits; lia |].
  eexists. reflexivity.
Qed.

(** ** Interpolation, drawing and speech *)

(** X26: [interpolate_skeleton] returns as many points as the shorter
    keyframe has; at [t = 0] they are the leading points of the first keyframe
    and at [t = 1] those of the second. *)
Theorem interpolate_skeleton_ends (kf1 kf2 : list FPoint) (t : R) :
  length (interpolate_skeleton kf1 kf2 t) = (length kf1 `min` length kf2)%nat /\
  interpolate_skeleton kf1 kf2 0 = take (length kf2) kf1 /\
  interpolate_skeleton kf1 kf2 1 = take (length kf1) kf2.
Proof.
  unfold interpolate_skeleton. split; [| split].
  - rewrite length_fmap, length_zip. reflexivity.
  - revert kf2. induction kf1 as [| [x1 y1] kf1 IH]; intros [| [x2 y2] kf2];
      cbn [zip zip_with fmap list_fmap length take]; try reflexivity.
    f_equal; [f_equal; ring | apply IH].
  - revert kf2. induction kf1 as [| [x1 y1] kf1 IH]; intros [| [x2 y2] kf2];
      cbn [zip zip_with fmap list_fmap length take]; try reflexivity.
    f_equal; [f_equal; ring | apply IH].
Qed.

Lemma valid_darker (k : Z) (color : Color) :
  (0 <= k)%Z -> valid_color color ->
  valid_color ((fun c => Z.max 0 (c - k)) <$> color).
Proof.
  intros Hk Hvalid. apply Forall_fmap. eapply Forall_impl; [exact Hvalid |].
  intros c Hc. unfold compose. cbn beta in Hc |- *. lia.
Qed.

Lemma valid_lighter (k : Z) (color : Color) :
  (0 <= k)%Z -> valid_color color ->
  valid_color ((fun c => Z.min 255 (c + k)) <$> color).
Proof.
  intros Hk Hvalid. apply Forall_fmap. eapply Forall_impl; [exact Hvalid |].
  intros c Hc. unfold compose. cbn beta in Hc |- *. lia.
Qed.

(** X27: when every channel of the colour given to [draw_3d_sphere] or
    [draw_3d_cylinder] is between 0 and 255, so is every channel of every colour
    the function draws with, the highlight and shadow colours included. *)
Theorem figure_colors_stay_valid
    (center : Point) (radius height thickness : Z) (color : Color) :
  valid_color color ->
  Forall (fun d => valid_color (draw_color d)) (draw_3d_sphere center radius color) /\
  Forall (fun d => valid_color (draw_color d))
    (draw_3d_cylinder center radius height color thickness).
Proof.
  intros Hvalid. destruct center as [x y].
  pose proof (valid_darker 50 color ltac:(lia) Hvalid) as Hdarker.
  pose proof (valid_darker 60 color ltac:(lia) Hvalid) as Hshadow.
  pose proof (valid_lighter 80 color ltac:(lia) Hvalid) as Hhighlight.
  split; repeat constructor; assumption.
Qed.

(** *** Skeletons *)

Lemma pixel_at_inside (w h : Z) (landmarks : list FPoint) (i : Z) :
  (0 <= i < Z.of_nat (length landmarks))%Z ->
  exists pt, pixel_at w h landmarks i = Ok pt.
Proof.
  intros Hi. unfold pixel_at.
  destruct (lookup_lt_is_Some_2 landmarks (Z.to_nat i)) as [landmark Hl]; [lia |].
  rewrite (py_index_nonneg landmarks i landmark) by (lia || assumption).
  eexists. reflexivity.
Qed.

Lemma py_index_short {A : Type} (l : list A) (i : Z) :
  (Z.of_nat (length l) <= i)%Z -> py_index l i = Raise IndexError.
Proof.
  intros Hi. unfold py_index.
  destruct (Z.ltb_spec i 0) as [Hneg | _]; [lia |].
  destruct (Z.ltb_spec i 0) as [Hneg | _]; [lia |].
  rewrite (proj2 (lookup_ge_None l (Z.to_nat i))) by lia. reflexivity.
Qed.

Lemma py_index_error {A : Type} (l : list A) (i : Z) (e : exn) :
  py_index l i = Raise e -> e = IndexError.
Proof.
  unfold py_index. destruct (_ <? 0)%Z; [intros [= <-]; reflexivity |].
  destruct (l !! _); [discriminate | intros [= <-]; reflexivity].
Qed.

Lemma draw_connections_total (w h : Z) (bone : Point -> Point -> list Draw)
    (k : nat) (landmarks : list FPoint) (connections : list (Z * Z)) :
  (forall pt1 pt2, length (bone pt1 pt2) = k) ->
  Forall (fun c => (0 <= fst c)%Z /\ (0 <= snd c)%Z) connections ->
  exists drawn,
    draw_connections w h bone landmarks connections = Ok drawn /\
    length drawn =
      (k * length (filter (fun c => (fst c < Z.of_nat (length landmarks))%Z /\
                                    (snd c < Z.of_nat (length landmarks))%Z)
                     connections))%nat.
Proof.
  intros Hbone Hall. induction Hall as [| [i j] rest [Hi Hj] _ IH].
  - exists []. split; [reflexivity |]. cbn. lia.
  - cbn [draw_connections fst snd] in *.
    destruct IH as (more & -> & Hmore).
    destruct (Z.ltb_spec i (Z.of_nat (length landmarks))) as [Hi' | Hi'];
      [destruct (Z.ltb_spec j (Z.of_nat (length landmarks))) as [Hj' | Hj'] |];
      cbn [andb].
    + destruct (pixel_at_inside w h landmarks i) as [pt1 ->]; [lia |].
      destruct (pixel_at_inside w h landmarks j) as [pt2 ->]; [lia |].
      cbn [mbind result_bind]. eexists. split; [reflexivity |].
      rewrite filter_cons_True by (cbn; lia).
      rewrite length_app, Hbone, Hmore. cbn [length].
      set (m := length (filter _ rest)). clearbody m. lia.
    + cbn [mbind result_bind]. eexists. split; [reflexivity |].
      rewrite filter_cons_False by (cbn; lia). exact Hmore.
    + cbn [mbind result_bind]. eexists. split; [reflexivity |].
      rewrite filter_cons_False by (cbn; lia). exact Hmore.
Qed.

Lemma POSE_CONNECTIONS_nonneg :
  Forall (fun c => (0 <= fst c)%Z /\ (0 <= snd c)%Z) POSE_CONNECTIONS.
Proof. unfold POSE_CONNECTIONS. repeat constructor; cbn; lia. Qed.

Lemma length_bind_const {A B : Type} (f : A -> list B) (k : nat) (l : list A) :
  (forall a, length (f a) = k) -> length (l ≫= f) = (k * length l)%nat.
Proof.
  intros Hf. induction l as [| a l IH]; cbn; [lia |].
  rewrite length_app, Hf. cbn in IH. rewrite IH. lia.
Qed.

(** X28: [draw_skeleton] raises for no landmark list, however short: it draws
    one line for each connection with both ends among the landmarks, and two
    circles for each landmark. *)
Theorem draw_skeleton_never_raises
    (w h : Z) (landmarks : list FPoint) (color : Color) :
  exists drawn,
    draw_skeleton w h landmarks color = Ok drawn /\
    length drawn =
      (length (filter (fun c => (fst c < Z.of_nat (length landmarks))%Z /\
                                (snd c < Z.of_nat (length landmarks))%Z)
                 POSE_CONNECTIONS)
       + 2 * length landmarks)%nat.
Proof.
  unfold draw_skeleton.
  destruct (draw_connections_total w h (fun pt1 pt2 => [Line pt1 pt2 color 8]) 1
              landmarks POSE_CONNECTIONS) as (bones & -> & Hbones);
    [reflexivity | exact POSE_CONNECTIONS_nonneg |].
  cbn [mbind result_bind]. eexists. split; [reflexivity |].
  rewrite length_app, Hbones. clear Hbones.
  set (k := length (filter _ POSE_CONNECTIONS)). clearbody k.
  rewrite (length_bind_const _ 2); [unfold FPoint; lia |]. intros [x y]. reflexivity.
Qed.

(** X29: [draw_realistic_skeleton] raises [IndexError] exactly when it is
    given fewer than 25 landmarks; otherwise it draws the torso, two head
    circles, two lines for each connection with both ends among the landmarks,
    and three circles for each landmark. *)
Theorem draw_realistic_skeleton_needs_hips
    (w h : Z) (landmarks : list FPoint) (color : Color) :
  ((length landmarks < 25)%nat ->
     draw_realistic_skeleton w h landmarks color = Raise IndexError) /\
  ((25 <= length landmarks)%nat ->
     exists drawn, draw_realistic_skeleton w h landmarks color = Ok drawn /\
       length drawn =
         (3 + 2 * length (filter
                    (fun c => (fst c < Z.of_nat (length landmarks))%Z /\
                              (snd c < Z.of_nat (length landmarks))%Z)
                    POSE_CONNECTIONS)
          + 3 * length landmarks)%nat).
Proof.
  unfold draw_realistic_skeleton. split.
  - intros Hshort.
    destruct (py_index landmarks 11) as [p11 |] eqn:H11.
    2: { apply py_index_error in H11 as ->. reflexivity. }
    destruct (py_index landmarks 12) as [p12 |] eqn:H12.
    2: { apply py_index_error in H12 as ->. reflexivity. }
    destruct (py_index landmarks 23) as [p23 |] eqn:H23.
    2: { apply py_index_error in H23 as ->. reflexivity. }
    rewrite (py_index_short landmarks 24) by lia. reflexivity.
  - intros Hlong.
    assert (Hidx : forall i, (0 <= i < 25)%Z -> exists p, py_index landmarks i = Ok p).
    { intros i Hi.
      destruct (lookup_lt_is_Some_2 landmarks (Z.to_nat i)) as [p Hp]; [lia |].
      exists p. apply py_index_nonneg; [lia | exact Hp]. }
    destruct (Hidx 11%Z) as [p11 ->]; [lia |].
    destruct (Hidx 12%Z) as [p12 ->]; [lia |].
    destruct (Hidx 23%Z) as [p23 ->]; [lia |].
    destruct (Hidx 24%Z) as [p24 ->]; [lia |].
    cbn [mbind result_bind].
    destruct (pixel_at_inside w h landmarks 0) as [head ->]; [lia |].
    cbn [mbind result_bind].
    destruct (draw_connections_total w h
                (fun pt1 pt2 =>
                   [ Line pt1 pt2 color 18;
                     Line (fst pt1 + 4, snd pt1 + 4)%Z (fst pt2 + 4, snd pt2 + 4)%Z
                       [80; 80; 80]%Z 24 ]) 2
                landmarks POSE_CONNECTIONS) as (bones & -> & Hbones);
      [reflexivity | exact POSE_CONNECTIONS_nonneg |].
    cbn [mbind result_bind]. eexists. split; [reflexivity |].
    cbn [length app]. rewrite length_app, Hbones. clear Hbones.
    set (k := length (filter _ POSE_CONNECTIONS)). clearbody k.
    rewrite (length_bind_const _ 3); [unfold FPoint; lia |]. intros [x y]. reflexivity.
Qed.

(** *** Speech worker *)

Lemma speech_loop_until_stop (say : string -> bool) (texts : list string)
    (after : list (option string)) :
  let outcome := speech_loop say ((Some <$> texts) ++ None :: after) in
  (exists later, texts = fst outcome ++ later) /\
  snd outcome = true /\
  (Forall (fun text => say text = true) texts -> outcome = (texts, true)).
Proof.
  cbv zeta. induction texts as [| text texts IH].
  - split; [exists []; reflexivity |]. split; reflexivity.
  - cbn [fmap list_fmap app speech_loop].
    destruct IH as ([later Hlater] & Hstop & Hall).
    destruct (say text) eqn:Hsay.
    + destruct (speech_loop say ((Some <$> texts) ++ None :: after))
        as [spoken stopped].
      cbn [fst snd] in *.
      split; [exists later; rewrite Hlater at 1; reflexivity |].
      split; [exact Hstop |].
      intros Hsays. apply Forall_cons in Hsays as [_ Hsays].
      specialize (Hall Hsays). injection Hall as -> ->. reflexivity.
    + split; [eexists; reflexivity |]. split; [reflexivity |].
      intros Hsays. apply Forall_cons in Hsays as [Habs _]. congruence.
Qed.

(** X30: once a stop item is in the queue, the speech worker leaves its loop;
    what it has spoken by then is a prefix of the texts queued before the stop
    item, in order, and all of them when the engine raises on none. *)
Theorem speech_worker_speaks_in_order
    (engine : option (string -> bool)) (texts : list string)
    (after : list (option string)) :
  let outcome := speech_worker engine ((Some <$> texts) ++ None :: after) in
  (exists later, texts = fst outcome ++ later) /\
  snd outcome = true /\
  (forall say, engine = Some say -> Forall (fun text => say text = true) texts ->
     outcome = (texts, true)).
Proof.
  cbv zeta. destruct engine as [say |]; cbn [speech_worker].
  - destruct (speech_loop_until_stop say texts after) as (Hprefix & Hstop & Hall).
    split; [exact Hprefix |]. split; [exact Hstop |].
    intros say' [= <-]. exact Hall.
  - split; [exists texts; reflexivity |]. split; [reflexivity | discriminate].
Qed.

(** ** Further theorems at concrete inputs *)

(** An iteration judged incorrect, up to the two branches it goes through. *)
Lemma loop_body_adjusting (st : State) (f : Frame)
    (hist' : gmap Z (list R)) (smoothed : R) :
  smooth (current_level st) (accuracy_history st) f = Ok (hist', smoothed) ->
  smoothed < ACCURACY_THRESHOLD ->
  (1 <= current_level st <= 5)%Z ->
  loop_body st f =
    ('(st2, said2, stop) ← on_key (fst (on_incorrect st f hist')) (key f);
     Ok (mkOutcome st2 (snd (on_incorrect st f hist') ++ said2) smoothed false
           None stop)).
Proof.
  intros Hsmooth Hlow Hlevel. unfold loop_body.
  rewrite Hsmooth. cbn [mbind result_bind].
  rewrite Rleb_false by assumption.
  rewrite (proj1 (timing_settings_level _ Hlevel)). cbn [mbind result_bind].
  destruct (on_incorrect st f hist') as [st1 said1]. reflexivity.
Qed.

Lemma on_incorrect_spoken (st : State) (f : Frame) (hist : gmap Z (list R)) :
  pose_correct st = true \/ last_incorrect_feedback_time st = 0 ->
  on_incorrect st f hist
  = (mkState (current_level st) (pose_hold_time st) false false (t_incorrect f)
       hist (DEBUG_METRICS st),
     [SpeakPoseFeedback false (current_level st)]).
Proof.
  intros Hwhy. unfold on_incorrect.
  destruct (pose_correct st); [reflexivity |].
  destruct Hwhy as [Hwhy | Hwhy]; [discriminate |].
  rewrite (Reqb_true _ _ Hwhy). reflexivity.
Qed.

(** A frame without a pose on which the smoothed accuracy stays low: the
    iteration returns, keeps the level and appends 0 to its history. *)
Lemma loop_body_empty_view (st : State) (t : R) (h : list R) :
  well_formed st ->
  accuracy_history st !! current_level st = Some h ->
  mean (deque_append SMOOTHING_WINDOW h 0) < ACCURACY_THRESHOLD ->
  exists out,
    loop_body st (empty_view t) = Ok out /\
    well_formed (next_state out) /\
    smoothed_accuracy out = mean (deque_append SMOOTHING_WINDOW h 0) /\
    current_level (next_state out) = current_level st /\
    accuracy_history (next_state out) !! current_level st
      = Some (deque_append SMOOTHING_WINDOW h 0).
Proof.
  intros Hwf Hh Hlow.
  destruct (loop_body_returns st (empty_view t) Hwf) as (out & Hloop & Hwf');
    [reflexivity |].
  destruct (loop_body_no_pose st (empty_view t) out eq_refl Hloop)
    as (h' & Hh' & Hhist & Hmean).
  rewrite Hh in Hh'. injection Hh' as <-.
  exists out. split; [exact Hloop |]. split; [exact Hwf' |].
  split; [exact Hmean |].
  split; [| rewrite Hhist; apply lookup_insert_eq].
  destruct (loop_body_inv st _ out Hloop)
    as (hist & st1 & said1 & said2 & _ & Hjudged & Hbranch & Hkey & _).
  rewrite Hmean, Rleb_false in Hjudged by assumption.
  rewrite Hjudged in Hbranch. destruct Hbranch as [Hbranch _].
  change (key (empty_view t)) with no_key in Hkey.
  rewrite on_key_no_key in Hkey. injection Hkey as <- _ _.
  unfold on_incorrect in Hbranch.
  destruct (if pose_correct st then _ else _) as [last said] in Hbranch.
  injection Hbranch as <- _. reflexivity.
Qed.

Lemma mean_of_three (x y z : R) : mean [x; y; z] = (x + y + z) / 3.
Proof. unfold mean. cbn [foldr length INR]. field. Qed.

Lemma mean_of_four (x y z u : R) : mean [x; y; z; u] = (x + y + z + u) / 4.
Proof. unfold mean. cbn [foldr length INR]. field. Qed.

(** The smoothing step on the huddled pose at level 4, whose raw accuracy 100
    is clamped after the multiplication. *)
Lemma smooth_huddled (hist : gmap Z (list R)) (h : list R) (t : R) :
  hist !! 4%Z = Some h ->
  smooth 4 hist (huddled_frame t)
  = Ok (<[4%Z := deque_append SMOOTHING_WINDOW h 100]> hist,
        mean (deque_append SMOOTHING_WINDOW h 100)).
Proof.
  intros Hh.
  rewrite (smooth_step 4 hist h (huddled_frame t) true 100);
    [| exact huddled_child | exact Hh].
  replace (Rmin 100 (100 * 1.08)) with 100 by (rewrite Rmin_left; lra).
  reflexivity.
Qed.

(** [holding_state] is where the loop stands after those two frames. *)
Lemma holding_state_reached :
  exists said,
    run initial_state [key_frame 52; huddled_frame 10] = Ok (holding_state, said).
Proof.
  assert (Hfirst :
    loop_body initial_state (key_frame 52)
    = Ok (mkOutcome
            (mkState 4 0 false false 0
               (<[1%Z := [0]]> (accuracy_history initial_state)) false)
            ([SpeakPoseFeedback false 1]
               ++ [SpeakText (py_get pose_sounds 4%Z "");
                   SpeakText (py_get voice_instructions 4%Z "")])
            0 false None false)).
  { rewrite (loop_body_adjusting initial_state (key_frame 52)
               (<[1%Z := [0]]> (accuracy_history initial_state)) 0).
    - rewrite on_incorrect_spoken by (right; reflexivity). reflexivity.
    - rewrite (smooth_step 1 _ [] (key_frame 52) false 0.0) by reflexivity.
      replace (Rmin 100 (0.0 * 1.08)) with 0 by (rewrite Rmin_right; lra).
      change (deque_append SMOOTHING_WINDOW [] 0) with [0].
      rewrite mean_singleton. reflexivity.
    - unfold ACCURACY_THRESHOLD. lra.
    - cbn. lia. }
  pose proof required_time_table as (_ & _ & _ & Hfour & _).
  eexists. cbn [run]. rewrite Hfirst. cbn [mbind result_bind quit next_state].
  rewrite (loop_body_holding _ (huddled_frame 10)
             (<[4%Z := [100]]> (<[1%Z := [0]]> (accuracy_history initial_state)))
             100).
  - cbn [mbind result_bind quit next_state spoken current_level pose_correct
           t_hold_start huddled_frame level_complete DEBUG_METRICS].
    reflexivity.
  - cbn [current_level accuracy_history].
    rewrite (smooth_huddled _ [] 10) by reflexivity.
    change (deque_append SMOOTHING_WINDOW [] 100) with [100].
    rewrite mean_singleton. reflexivity.
  - unfold ACCURACY_THRESHOLD. lra.
  - reflexivity.
  - cbn. lia.
  - cbn [current_level pose_correct t_hold_start t_hold_check huddled_frame].
    rewrite Hfour. lra.
Qed.

Lemma holding_state_well_formed : well_formed holding_state.
Proof.
  split; [cbn; lia |]. split; [reflexivity |].
  intros level Hlevel.
  destruct (level_cases level Hlevel) as [-> | [-> | [-> | [-> | ->]]]];
    eexists; reflexivity.
Qed.

Lemma standing_straight_normalised :
  Forall (fun landmark => 0 <= lm_x landmark <= 1 /\ 0 <= lm_y landmark <= 1)
    standing_straight.
Proof. unfold standing_straight. repeat constructor; cbn [lm_x lm_y]; lra. Qed.

Lemma find_point_landmark_identifier_witness :
  find_point 640 480 standing_straight 40 = Ok (0, 0)%Z.
Proof.
  rewrite (find_point_landmark_identifier 640 480 standing_straight 40) by lia.
  reflexivity.
Defined.

Lemma find_point_inside_frame_witness :
  (0 <= 347 <= 640)%Z /\ (0 <= 120 <= 480)%Z.
Proof.
  apply (find_point_inside_frame 640 480 standing_straight 11 (347, 120)%Z).
  - lia.
  - lia.
  - exact standing_straight_normalised.
  - apply standing_straight_points.
Defined.

Lemma mountain_pose_sub_scores_witness :
  exists sub_scores accuracy,
    mountain_pose 640 480 (py_get POSE_CONFIG 1%Z ∅) standing_straight
      (347, 120)%Z (293, 120)%Z 120 = Ok (sub_scores, accuracy) /\
    0 <= accuracy <= 100.
Proof.
  destruct (mountain_pose_sub_scores 640 480 standing_straight 120 ltac:(lra)
              (347, 120)%Z (293, 120)%Z)
    as (sub_scores & feet & shoulder & left_arm & right_arm & Hpose & _ & _ & _ & _
        & Hf & Hs & Hl & Hr).
  eexists _, _. split; [exact Hpose | lra].
Defined.

Lemma tree_pose_sub_scores_witness :
  exists sub_scores accuracy,
    tree_pose 640 480 standing_straight 120 = Ok (sub_scores, accuracy) /\
    0 <= accuracy <= 100.
Proof.
  destruct (tree_pose_sub_scores 640 480 standing_straight 120 ltac:(lra))
    as (sub_scores & leg & balance & standing & Hpose & _ & _ & _ & Hleg & Hb & Hs).
  eexists _, _. split; [exact Hpose |]. destruct Hleg; lra.
Defined.

Lemma child_pose_sub_scores_witness :
  exists sub_scores accuracy,
    child_pose 640 480 standing_straight 120 = Ok (sub_scores, accuracy) /\
    0 <= accuracy <= 100.
Proof.
  destruct (child_pose_sub_scores 640 480 standing_straight 120 ltac:(lra))
    as (sub_scores & fold & knee & Hpose & _ & _ & Hf & Hk).
  eexists _, _. split; [exact Hpose | lra].
Defined.

Lemma lotus_pose_sub_scores_witness :
  exists sub_scores accuracy,
    lotus_pose 640 480 standing_straight 120 = Ok (sub_scores, accuracy) /\
    5 <= accuracy <= 100.
Proof.
  destruct (lotus_pose_sub_scores 640 480 standing_straight 120 ltac:(lra))
    as (sub_scores & upright & spine & legs & Hpose & _ & _ & _ & Hu & Hs & Hlegs
        & Hfloor).
  eexists _, _. split; [exact Hpose |]. destruct Hlegs; lra.
Defined.

Lemma collapsed_skeleton_scores_witness :
  check_pose_accuracy 640 480 1 (Some (mkResults (Some huddled))) = Ok (true, 70) /\
  check_pose_accuracy 640 480 5 (Some (mkResults (Some huddled))) = Ok (true, 85).
Proof.
  destruct (collapsed_skeleton_scores 640 480 huddled (320, 240)%Z)
    as (Hmountain & _ & _ & _ & Hlotus).
  - reflexivity.
  - exact huddled_points.
  - split; [exact Hmountain | exact Hlotus].
Defined.

Lemma check_pose_accuracy_unknown_level_witness :
  check_pose_accuracy 640 480 6 (Some (mkResults (Some standing_straight)))
  = Ok (false, 0.0).
Proof.
  apply check_pose_accuracy_unknown_level. right. lia.
Defined.

Lemma window_keeps_last_four_witness :
  foldl (deque_append SMOOTHING_WINDOW) [10; 20; 30] [40; 50; 60]
  = [30; 40; 50; 60].
Proof.
  rewrite (window_keeps_last_four [10; 20; 30] [40; 50; 60]) by (cbn; lia).
  reflexivity.
Defined.

Lemma iteration_keeps_session_witness :
  exists out,
    loop_body initial_state (upright_frame 10) = Ok out /\
    0 <= smoothed_accuracy out <= 100.
Proof.
  destruct (iteration_keeps_session initial_state (upright_frame 10))
    as (out & Hloop & _ & _ & _ & Hshown).
  - exact initial_state_session_ok.
  - reflexivity.
  - exists out. auto.
Defined.

Lemma other_levels_keep_their_history_witness :
  exists out,
    loop_body initial_state (upright_frame 10) = Ok out /\
    accuracy_history (next_state out) !! 2%Z = Some [].
Proof.
  destruct (loop_body_returns initial_state (upright_frame 10)
              initial_state_well_formed) as (out & Hloop & _); [reflexivity |].
  exists out. split; [exact Hloop |].
  rewrite (other_levels_keep_their_history initial_state (upright_frame 10) out 2
             Hloop); [reflexivity | discriminate].
Defined.

Lemma run_never_raises_witness :
  exists st' said,
    run initial_state [upright_frame 10; empty_view 11; key_frame 51] = Ok (st', said).
Proof.
  destruct (run_never_raises [upright_frame 10; empty_view 11; key_frame 51]
              initial_state) as (st' & said & Hrun & _).
  - exact initial_state_session_ok.
  - repeat constructor.
  - exists st', said. exact Hrun.
Defined.

Lemma four_frames_without_pose_witness :
  exists out1 out2 out3 out4,
    loop_body holding_state (empty_view 11) = Ok out1 /\
    loop_body (next_state out1) (empty_view 11.5) = Ok out2 /\
    loop_body (next_state out2) (empty_view 12) = Ok out3 /\
    loop_body (next_state out3) (empty_view 12.5) = Ok out4 /\
    accuracy_history (next_state out4) !! 4%Z = Some [0; 0; 0; 0] /\
    smoothed_accuracy out4 = 0.
Proof.
  destruct (loop_body_empty_view holding_state 11 [100])
    as (out1 & H1 & Hwf1 & _ & Hl1 & Hh1).
  { exact holding_state_well_formed. }
  { reflexivity. }
  { change (deque_append SMOOTHING_WINDOW [100] 0) with [100; 0].
    rewrite mean_pair. unfold ACCURACY_THRESHOLD. lra. }
  change (current_level holding_state) with 4%Z in Hl1, Hh1.
  destruct (loop_body_empty_view (next_state out1) 11.5 [100; 0])
    as (out2 & H2 & Hwf2 & _ & Hl2 & Hh2).
  { exact Hwf1. }
  { rewrite Hl1. exact Hh1. }
  { change (deque_append SMOOTHING_WINDOW [100; 0] 0) with [100; 0; 0].
    rewrite mean_of_three. unfold ACCURACY_THRESHOLD. lra. }
  rewrite Hl1 in Hl2, Hh2.
  destruct (loop_body_empty_view (next_state out2) 12 [100; 0; 0])
    as (out3 & H3 & Hwf3 & _ & Hl3 & _).
  { exact Hwf2. }
  { rewrite Hl2. exact Hh2. }
  { change (deque_append SMOOTHING_WINDOW [100; 0; 0] 0) with [100; 0; 0; 0].
    rewrite mean_of_four. unfold ACCURACY_THRESHOLD. lra. }
  rewrite Hl2 in Hl3.
  destruct (loop_body_returns (next_state out3) (empty_view 12.5) Hwf3)
    as (out4 & H4 & _); [reflexivity |].
  exists out1, out2, out3, out4.
  split; [exact H1 |]. split; [exact H2 |]. split; [exact H3 |].
  split; [exact H4 |].
  destruct (four_frames_without_pose holding_state [100]
              (empty_view 11) (empty_view 11.5) (empty_view 12) (empty_view 12.5)
              out1 out2 out3 out4)
    as (Hhist & Hzero & _).
  - reflexivity.
  - cbn. lia.
  - reflexivity.
  - reflexivity.
  - reflexivity.
  - reflexivity.
  - exact H1.
  - exact H2.
  - exact H3.
  - exact H4.
  - exact Hl1.
  - exact Hl2.
  - exact Hl3.
  - split; [exact Hhist | exact Hzero].
Defined.

Lemma smooth_upright_first (t : R) :
  smooth 1 (accuracy_history initial_state) (upright_frame t)
  = Ok (<[1%Z := [64.8]]> (accuracy_history initial_state), 64.8).
Proof.
  rewrite (smooth_step 1 _ [] (upright_frame t) true 60);
    [| exact standing_straight_accuracy | reflexivity].
  replace (Rmin 100 (60 * 1.08)) with 64.8 by (rewrite Rmin_right; lra).
  change (deque_append SMOOTHING_WINDOW [] 64.8) with [64.8].
  rewrite mean_singleton. reflexivity.
Qed.

Lemma loop_body_upright_first :
  loop_body initial_state (upright_frame 10)
  = Ok (mkOutcome
          (mkState 1 10 true false 0
             (<[1%Z := [64.8]]> (accuracy_history initial_state))
             (DEBUG_METRICS initial_state))
          [SpeakPoseFeedback true 1] 64.8 true (Some (10 - 10)) false).
Proof.
  pose proof required_time_table as (Htwo & _).
  apply (loop_body_holding initial_state (upright_frame 10) _ _
           (smooth_upright_first 10)).
  - unfold ACCURACY_THRESHOLD. lra.
  - reflexivity.
  - cbn. lia.
  - change (current_level initial_state) with 1%Z. rewrite Htwo.
    cbn [initial_state pose_correct upright_frame t_hold_check t_hold_start]. lra.
Qed.

Lemma loop_body_empty_first (t : R) (out : Outcome) :
  loop_body initial_state (empty_view t) = Ok out ->
  is_correct out = false.
Proof.
  intros Hloop. apply (incorrect_frame_clears _ _ _ Hloop).
  destruct (loop_body_inv _ _ _ Hloop) as (hist & _ & _ & _ & Hsmooth & _).
  rewrite (smooth_step 1 _ [] (empty_view t) false 0.0) in Hsmooth
    by reflexivity.
  injection Hsmooth as _ <-.
  replace (Rmin 100 (0.0 * 1.08)) with 0 by (rewrite Rmin_right; lra).
  change (deque_append SMOOTHING_WINDOW [] 0) with [0].
  rewrite mean_singleton. unfold ACCURACY_THRESHOLD. lra.
Qed.

Lemma first_incorrect_frame_speaks_witness :
  exists out1 out2,
    loop_body initial_state (upright_frame 10) = Ok out1 /\
    loop_body (next_state out1) (empty_view 11) = Ok out2 /\
    SpeakPoseFeedback false 1 ∈ spoken out2.
Proof.
  destruct (loop_body_returns initial_state (upright_frame 10)
              initial_state_well_formed) as (out1 & Hloop1 & Hwf1); [reflexivity |].
  destruct (loop_body_returns (next_state out1) (empty_view 11) Hwf1)
    as (out2 & Hloop2 & _); [reflexivity |].
  exists out1, out2. split; [exact Hloop1 |]. split; [exact Hloop2 |].
  pose proof Hloop1 as Hout1. rewrite loop_body_upright_first in Hout1.
  injection Hout1 as <-.
  apply (first_incorrect_frame_speaks initial_state (upright_frame 10)
           (empty_view 11) _ out2 Hloop1 eq_refl Hloop2).
  apply (incorrect_frame_clears _ _ _ Hloop2).
  destruct (loop_body_inv _ _ _ Hloop2) as (hist & _ & _ & _ & Hsmooth & _).
  cbn [next_state current_level accuracy_history] in Hsmooth.
  rewrite (smooth_step 1 _ [64.8] (empty_view 11) false 0.0) in Hsmooth;
    [| reflexivity | apply lookup_insert_eq].
  injection Hsmooth as _ <-.
  replace (Rmin 100 (0.0 * 1.08)) with 0 by (rewrite Rmin_right; lra).
  change (deque_append SMOOTHING_WINDOW [64.8] 0) with [64.8; 0].
  rewrite mean_pair. unfold ACCURACY_THRESHOLD. lra.
Defined.

Lemma incorrect_feedback_every_two_seconds_witness :
  exists out,
    loop_body initial_state (empty_view 5) = Ok out /\
    SpeakPoseFeedback false 1 ∈ spoken out /\
    last_incorrect_feedback_time (next_state out) = 5.
Proof.
  destruct (loop_body_returns initial_state (empty_view 5)
              initial_state_well_formed) as (out & Hloop & _); [reflexivity |].
  exists out. split; [exact Hloop |].
  destruct (incorrect_feedback_every_two_seconds initial_state (empty_view 5) out
              eq_refl Hloop (loop_body_empty_first 5 out Hloop)) as [Hspeaks _].
  apply Hspeaks. left. reflexivity.
Defined.

Lemma level_command_overrides_frame_witness :
  exists out,
    loop_body initial_state (key_frame 51) = Ok out /\
    current_level (next_state out) = 3%Z /\
    pose_correct (next_state out) = false.
Proof.
  destruct (loop_body_returns initial_state (key_frame 51)
              initial_state_well_formed) as (out & Hloop & _); [reflexivity |].
  exists out. split; [exact Hloop |].
  destruct (level_command_overrides_frame initial_state (key_frame 51) out Hloop)
    as (Hlevel & Hpc & _).
  - right. cbn. lia.
  - split; [exact Hlevel | exact Hpc].
Defined.

Lemma run_stops_at_quit_witness :
  run initial_state [key_frame 113; upright_frame 1]
  = run initial_state [key_frame 113].
Proof.
  apply (run_stops_at_quit [] [upright_frame 1] (key_frame 113) initial_state).
  reflexivity.
Defined.

Lemma level_moves_only_on_completion_witness :
  exists out,
    loop_body initial_state (upright_frame 10) = Ok out /\
    completions (spoken out) = 0%nat /\
    current_level (next_state out) = 1%Z.
Proof.
  eexists. split; [exact loop_body_upright_first |].
  destruct (level_moves_only_on_completion initial_state (upright_frame 10) _
              loop_body_upright_first eq_refl) as [Hstays | (Hfires & _)].
  - exact Hstays.
  - discriminate Hfires.
Defined.

Lemma wrap_text_lines_fit_witness :
  Forall (fun line => line <> "" /\ (py_len line < 35)%Z)
    (wrap_text "Stand straight with arms at sides, feet together" 35).
Proof.
  apply wrap_text_lines_fit.
  vm_compute. repeat (constructor; [discriminate |]). constructor.
Defined.

Lemma wrap_text_long_first_word_witness :
  exists rest, wrap_text "abcdefgh ij" 3 = "" :: rest.
Proof.
  apply (wrap_text_long_first_word "abcdefgh ij" 3 "abcdefgh" ["ij"]).
  - reflexivity.
  - reflexivity.
Defined.

Lemma figure_colors_stay_valid_witness :
  Forall (fun d => valid_color (draw_color d))
    (draw_3d_sphere (100, 100)%Z 20 [220; 200; 180]%Z) /\
  Forall (fun d => valid_color (draw_color d))
    (draw_3d_cylinder (100, 100)%Z 20 50 [220; 200; 180]%Z 2).
Proof.
  apply figure_colors_stay_valid.
  unfold valid_color. repeat (constructor; [lia |]). constructor.
Defined.

Lemma draw_realistic_skeleton_needs_hips_witness :
  draw_realistic_skeleton 640 480 [] [255; 255; 255]%Z = Raise IndexError.
Proof.
  apply (draw_realistic_skeleton_needs_hips 640 480 [] [255; 255; 255]%Z).
  cbn. lia.
Defined.

Lemma speech_worker_speaks_in_order_witness :
  speech_worker (Some (fun _ => true)) [Some "one"; Some "two"; None; Some "three"]
  = (["one"; "two"], true).
Proof.
  destruct (speech_worker_speaks_in_order (Some (fun _ => true)) ["one"; "two"]
              [Some "three"]) as (_ & _ & Hall).
  apply (Hall (fun _ => true)); [reflexivity | repeat constructor].
Defined.

Lemma smoothing_window_mean_witness :
  let walked := <[1%Z := [0; 64.8; 64.8; 64.8]]> (accuracy_history initial_state) in
  let rested := <[4%Z := [20; 40; 60; 80]]> (accuracy_history initial_state) in
  smooth 1 walked (upright_frame 10)
    = Ok (<[1%Z := [64.8; 64.8; 64.8; 64.8]]> walked, 64.8) /\
  smooth 4 rested (huddled_frame 10)
    = Ok (<[4%Z := [40; 60; 80; 100]]> rested, 70).
Proof.
  intros walked rested. split.
  - destruct (smoothing_window_mean 1 walked [0; 64.8; 64.8; 64.8]
                (upright_frame 10))
      as [(is_correct_raw & raw & Hcheck & Hsmooth & _) _].
    { reflexivity. }
    { apply lookup_insert_eq. }
    change (check_pose_accuracy 640 480 1 (Some (mkResults (Some standing_straight)))
            = Ok (is_correct_raw, raw)) in Hcheck.
    rewrite standing_straight_accuracy in Hcheck. injection Hcheck as _ <-.
    cbv zeta in Hsmooth. cbn [length Nat.ltb Nat.leb tail app] in Hsmooth.
    rewrite Hsmooth.
    replace (Rmin 100 (60 * 1.08)) with 64.8 by (rewrite Rmin_right; lra).
    rewrite mean_of_four. do 2 f_equal. lra.
  - destruct (smoothing_window_mean 4 rested [20; 40; 60; 80] (huddled_frame 10))
      as [(is_correct_raw & raw & Hcheck & Hsmooth & _) _].
    { reflexivity. }
    { apply lookup_insert_eq. }
    change (check_pose_accuracy 640 480 4 (Some (mkResults (Some huddled)))
            = Ok (is_correct_raw, raw)) in Hcheck.
    rewrite huddled_child in Hcheck. injection Hcheck as _ <-.
    cbv zeta in Hsmooth. cbn [length Nat.ltb Nat.leb tail app] in Hsmooth.
    rewrite Hsmooth.
    replace (Rmin 100 (100 * 1.08)) with 100 by (rewrite Rmin_left; lra).
    rewrite mean_of_four. do 2 f_equal. lra.
Defined.

Lemma incorrect_frame_resets_hold_witness :
  pose_correct holding_state = true /\
  pose_hold_time holding_state = 10 /\
  exists out out2,
    loop_body holding_state (empty_view 11) = Ok out /\
    is_correct out = false /\
    pose_correct (next_state out) = false /\
    level_complete (next_state out) = false /\
    loop_body (next_state out) (huddled_frame 12) = Ok out2 /\
    is_correct out2 = true /\
    hold_duration out2 = Some (12 - 12) /\
    pose_hold_time (next_state out2) = 12.
Proof.
  split; [reflexivity |]. split; [reflexivity |].
  destruct (loop_body_empty_view holding_state 11 [100])
    as (out & Hloop & Hwf & Hmean & Hlevel & Hhist).
  { exact holding_state_well_formed. }
  { reflexivity. }
  { change (deque_append SMOOTHING_WINDOW [100] 0) with [100; 0].
    rewrite mean_pair. unfold ACCURACY_THRESHOLD. lra. }
  change (deque_append SMOOTHING_WINDOW [100] 0) with [100; 0] in Hmean, Hhist.
  rewrite mean_pair in Hmean.
  change (current_level holding_state) with 4%Z in Hlevel, Hhist.
  destruct (loop_body_returns (next_state out) (huddled_frame 12) Hwf)
    as (out2 & Hloop2 & _); [reflexivity |].
  assert (Hhigh : ACCURACY_THRESHOLD <= smoothed_accuracy out2).
  { destruct (loop_body_inv _ _ _ Hloop2) as (hist & _ & _ & _ & Hsmooth & _).
    rewrite Hlevel, (smooth_huddled _ [100; 0] 12 Hhist) in Hsmooth.
    injection Hsmooth as _ <-.
    change (deque_append SMOOTHING_WINDOW [100; 0] 100) with [100; 0; 100].
    rewrite mean_of_three. unfold ACCURACY_THRESHOLD. lra. }
  destruct (incorrect_frame_resets_hold holding_state (empty_view 11) out Hloop)
    as (Hjudged & Hpc & Hlc & Hnext).
  { rewrite Hmean. unfold ACCURACY_THRESHOLD. lra. }
  destruct (Hnext (huddled_frame 12) out2 Hloop2 Hhigh) as [Hhold Hstart].
  exists out, out2. repeat (split; [assumption |]).
  split; [| split; [exact Hhold | exact Hstart]].
  destruct (loop_body_inv _ _ _ Hloop2) as (_ & _ & _ & _ & _ & -> & _).
  apply Rleb_true. exact Hhigh.
Defined.
